(** * Squeezelite ALSA output: volume controller, device session and output thread

    A shallow embedding of [output_alsa.c].  The C globals ([alsa], [output],
    [pcmp], the static [recover_count]) become one [machine] record that is
    threaded through every function.  Calls into alsa-lib, libc and the other
    squeezelite modules are recorded in a log together with the value they
    returned; the returned values come from an oracle over the history, so
    every theorem holds for every behaviour of the hardware. *)

From Stdlib Require Import ZArith List String Ascii Bool Lia.
Import ListNotations.
Local Open Scope Z_scope.

(** ** Constants *)

(** [#define MINVOL_DB -72] *)
Definition MINVOL_DB : Z := -72.

(** alsa-lib, [tlv.h]: [#define SND_CTL_TLV_DB_GAIN_MUTE -9999999]. *)
Definition SND_CTL_TLV_DB_GAIN_MUTE : Z := -9999999.

(** [#define MAX_DEVICE_LEN 128] *)
Definition MAX_DEVICE_LEN : Z := 128.

(** Modelled from the spec: [FIXED_ONE] is a macro of [squeezelite.h], which is
    not among the sources.  Gains are 16.16 fixed point on the 0..65536 scale,
    so unity is 65536. *)
Definition FIXED_ONE : Z := 65536.

(** Modelled from the spec: the [output_state] enum lives in [squeezelite.h].
    Only equality with [OUTPUT_OFF] is ever tested here. *)
Definition OUTPUT_OFF : Z := -1.

(** [(int)x] for an integer [x] that need not fit: [int] has 32 bits, and the
    value is reduced modulo 2^32 into the range of the two's complement. *)
Definition to_int (x : Z) : Z :=
  if x mod 2 ^ 32 <? 2 ^ 31 then x mod 2 ^ 32 else x mod 2 ^ 32 - 2 ^ 32.

(** [errno.h] values used by the output thread. *)
Definition EIO : Z := 5.
Definition ENODEV : Z := 19.
Definition EPIPE : Z := 32.
Definition ESTRPIPE : Z := 86.

(** [snd_pcm_state_t] values tested by the output thread. *)
Definition SND_PCM_STATE_XRUN : Z := 4.
Definition SND_PCM_STATE_SUSPENDED : Z := 7.
Definition SND_PCM_STATE_DISCONNECTED : Z := 8.

(** The sample formats of [fmts[]]; [SND_PCM_FORMAT_UNKNOWN] terminates the
    array and is represented by the end of the list. *)
Inductive snd_pcm_format_t : Type :=
  | SND_PCM_FORMAT_S32_LE
  | SND_PCM_FORMAT_S24_LE
  | SND_PCM_FORMAT_S24_3LE
  | SND_PCM_FORMAT_S16_LE.

Definition fmts : list snd_pcm_format_t :=
  [SND_PCM_FORMAT_S32_LE; SND_PCM_FORMAT_S24_LE; SND_PCM_FORMAT_S24_3LE; SND_PCM_FORMAT_S16_LE].

Definition format_eqb (a b : snd_pcm_format_t) : bool :=
  match a, b with
  | SND_PCM_FORMAT_S32_LE, SND_PCM_FORMAT_S32_LE
  | SND_PCM_FORMAT_S24_LE, SND_PCM_FORMAT_S24_LE
  | SND_PCM_FORMAT_S24_3LE, SND_PCM_FORMAT_S24_3LE
  | SND_PCM_FORMAT_S16_LE, SND_PCM_FORMAT_S16_LE => true
  | _, _ => false
  end.

(** ** Calls that leave the translation unit *)

Inductive call : Type :=
  (* PCM device, all on the global handle [pcmp] except inside [pcm_probe] *)
  | snd_pcm_open (name : string)
  | snd_pcm_close
  | snd_pcm_hw_params_any
  | snd_pcm_hw_params_set_rate_resample (val : bool)
  | snd_pcm_hw_params_set_rate (val : Z)
  | snd_pcm_hw_params_set_access (mmap_interleaved : bool)
  | snd_pcm_hw_params_set_format (fmt : snd_pcm_format_t)
  | snd_pcm_hw_params_set_channels (val : Z)
  | snd_pcm_hw_params_set_periods_near (count : Z)
  | snd_pcm_hw_params_set_period_size_near (size : Z)
  | snd_pcm_hw_params_set_buffer_time_near (time : Z)
  | snd_pcm_hw_params_set_buffer_size_near (size : Z)
  | snd_pcm_hw_params_get_period_size
  | snd_pcm_hw_params_get_buffer_size
  | snd_pcm_hw_params
  | snd_pcm_state
  | snd_pcm_recover (err : Z)
  | snd_pcm_avail_update
  | snd_pcm_start
  | snd_pcm_wait (timeout : Z)
  | snd_pcm_delay
  | snd_pcm_mmap_begin (frames : Z)
  | snd_pcm_mmap_commit (frames : Z)
  | snd_pcm_writei (frames : Z)
  (* probe handle of [pcm_probe] *)
  | probe_open (name : string)
  | probe_close
  (* mixer *)
  | snd_mixer_open
  | snd_mixer_attach (name : string)
  | snd_mixer_selem_register
  | snd_mixer_load
  | snd_mixer_find_selem (name : string) (index : Z)
  | snd_mixer_handle_events
  | snd_mixer_selem_has_playback_switch
  | snd_mixer_selem_set_playback_switch_all (val : Z)
  | snd_mixer_selem_get_playback_dB_range
  | snd_mixer_selem_set_playback_dB_all (value : Z)
  | snd_mixer_selem_get_playback_dB (right_channel : bool)
  | snd_mixer_close
  (* libc and the rest of squeezelite *)
  | malloc_write_buf (frames : Z)
  | usleep (us : Z)
  | sleep (s : Z)
  | gettime_ms
  | vis_stop
  | relay (on : bool)
  | relay_script (on : bool)
  | prctl_set_name
  | output_init_common
  | mlockall
  | pthread_create (probe : bool)
  | pthread_setschedparam (priority : Z)
  | pthread_setaffinity_np
  | pthread_getschedparam
  (* reads of [output.state] and [running], which other threads write *)
  | read_output_state
  | read_running
  (* LOCK; output.gainL = l; output.gainR = r; UNLOCK *)
  | write_gain (l r : Z).

(** Calls that reach the PCM hardware. *)
Definition is_pcm_call (c : call) : bool :=
  match c with
  | snd_pcm_open _ | snd_pcm_close | snd_pcm_hw_params_any
  | snd_pcm_hw_params_set_rate_resample _ | snd_pcm_hw_params_set_rate _
  | snd_pcm_hw_params_set_access _ | snd_pcm_hw_params_set_format _
  | snd_pcm_hw_params_set_channels _ | snd_pcm_hw_params_set_periods_near _
  | snd_pcm_hw_params_set_period_size_near _
  | snd_pcm_hw_params_set_buffer_time_near _
  | snd_pcm_hw_params_set_buffer_size_near _
  | snd_pcm_hw_params_get_period_size | snd_pcm_hw_params_get_buffer_size
  | snd_pcm_hw_params | snd_pcm_state | snd_pcm_recover _
  | snd_pcm_avail_update | snd_pcm_start | snd_pcm_wait _ | snd_pcm_delay
  | snd_pcm_mmap_begin _ | snd_pcm_mmap_commit _ | snd_pcm_writei _
  | probe_open _ | probe_close => true
  | _ => false
  end.

(** Calls that reach the hardware mixer. *)
Definition is_mixer_call (c : call) : bool :=
  match c with
  | snd_mixer_open | snd_mixer_attach _ | snd_mixer_selem_register
  | snd_mixer_load | snd_mixer_find_selem _ _ | snd_mixer_handle_events
  | snd_mixer_selem_has_playback_switch
  | snd_mixer_selem_set_playback_switch_all _
  | snd_mixer_selem_get_playback_dB_range
  | snd_mixer_selem_set_playback_dB_all _
  | snd_mixer_selem_get_playback_dB _ | snd_mixer_close => true
  | _ => false
  end.

(** A call together with the value it returned. *)
Abbreviation event := (call * Z)%type.

(** ** The globals *)

(** [static struct { ... } alsa] (non-DSD build). *)
Record alsa_t : Type := mk_alsa {
  device : string;
  ctl : string;
  mixer_ctl : string;
  format : option snd_pcm_format_t;       (* 0 is "not set" *)
  buffer_size : Z;
  period_size : Z;
  rate : Z;
  mmap : bool;
  reopen : bool;
  write_buf : bool;                       (* non-NULL *)
  volume_mixer_name : option string;      (* NULL is [None] *)
  mixer_linear : bool;
  linear_dB_internal : bool;
  output_affinity : bool;
  mixer_handle : bool;                    (* non-NULL *)
  mixer_elem : bool;                      (* non-NULL *)
  mixer_mindb : Z;
  mixer_maxdb : Z
}.

(** The fields of [struct outputstate output] that this file touches. *)
Record outputstate : Type := mk_output {
  gainL : Z;
  gainR : Z;
  current_sample_rate : Z;
  output_device : string;
  buffer : Z;
  period : Z;
  start_frames : Z;
  output_format : option snd_pcm_format_t;
  error_opening : bool;
  device_frames : Z;
  updated : Z;
  frames_played : Z;
  frames_played_dmp : Z
}.

Record machine : Type := mk_machine {
  alsa : alsa_t;
  output : outputstate;
  pcmp : bool;                            (* [pcmp != NULL] *)
  recover_count : Z;                      (* the static of [_write_frames] *)
  log : list event                        (* most recent first *)
}.

Definition with_alsa (f : alsa_t -> alsa_t) (m : machine) : machine :=
  mk_machine (f (alsa m)) (output m) (pcmp m) (recover_count m) (log m).

Definition with_output (f : outputstate -> outputstate) (m : machine) : machine :=
  mk_machine (alsa m) (f (output m)) (pcmp m) (recover_count m) (log m).

Definition set_pcmp (p : bool) (m : machine) : machine :=
  mk_machine (alsa m) (output m) p (recover_count m) (log m).

Definition set_recover_count (n : Z) (m : machine) : machine :=
  mk_machine (alsa m) (output m) (pcmp m) n (log m).

Definition record (e : event) (m : machine) : machine :=
  mk_machine (alsa m) (output m) (pcmp m) (recover_count m) (e :: log m).

Definition set_gains (l r : Z) (o : outputstate) : outputstate :=
  mk_output l r (current_sample_rate o) (output_device o) (buffer o) (period o)
    (start_frames o) (output_format o) (error_opening o) (device_frames o)
    (updated o) (frames_played o) (frames_played_dmp o).

(** ** The volume curve tables of [set_volume] *)

Definition gscale : list Z :=
  [ 65536; 61952; 58624; 55296; 52224; 49408; 46592; 44032; 41728; 39424;
    37120; 35072; 33024; 31232; 29696; 27904; 26368; 24832; 23552; 22272;
    20992; 19968; 18688; 17664; 16640; 15872; 14848; 14080; 13312; 12544;
    12032; 11264; 10752;  9984;  9472;  8960;  8448;  7936;  7680;  7168;
     6656;  6400;  6144;  5632;  5376;  5120;  4864;  4608;  4352;  4096;
     3840;  3584;  3328;  3328;  3072;  2816;  2816;  2560;  2304;  2304;
     2048;  2050;  1937;  1830;  1729;  1634;  1543;  1458;  1378;  1302;
     1230;  1162;  1098;  1037;   980;   926;   781;   658;   555;   468;
      395;   333;   281;   237;   200;   168;   142;   120;   101;    85;
       72;    61;    51;    43;    36;    31;    26;    22;    18;    16;
        0 ].

Definition gscalenew : list Z :=
  [ 65536; 58409; 52057; 46396; 41350; 36854; 32768; 29274; 26090;
    23253; 20724; 18471; 16384; 14672; 13076; 11654; 10387; 9257; 8192;
    7353; 6554; 5841; 5206; 4640; 4096; 3685; 3285; 2927; 2609; 2325;
    2048; 1847; 1646; 1467; 1308; 1165; 1024; 926; 825; 735; 655;
    584; 512; 464; 414; 369; 328; 293; 256; 233; 207; 185; 165; 147; 128;
    117; 104; 93; 83; 74; 64; 58; 52; 46; 41; 37; 32; 29; 26; 23; 21; 18; 16;
    0; 0; 0; 0; 0; 0; 0; 0; 0; 0; 0; 0; 0; 0; 0; 0; 0; 0; 0; 0; 0; 0; 0; 0; 0; 0; 0; 0 ].

(** [tbl[i]] for a C array: [None] when the index is outside the array. *)
Definition table_read (tbl : list Z) (i : Z) : option Z :=
  if i <? 0 then None else nth_error tbl (Z.to_nat i).

(** The search loop shared by both table paths of [set_volume]:
<<
    for (i = 0; i < sizeof(gscale) / sizeof(gscale[0]); i++)
        if (gscale[i] < left) { lower = i; break; }
>>
    [i] is the index of the head of [tbl]; [lower] is what the variable holds
    when the loop is left. *)
Fixpoint bracket_loop (tbl : list Z) (i : Z) (left : Z) (lower : Z) : Z :=
  match tbl with
  | [] => lower
  | g :: rest => if g <? left then i else bracket_loop rest (i + 1) left lower
  end.

(** [int lower = 0;] followed by the loop over [gscale]. *)
Definition bracket (left : Z) : Z := bracket_loop gscale 0 left 0.

(** What a call to [set_volume] does: it runs to the end, or it reads a table
    outside its bounds, after which C gives the execution no meaning; the
    machine is the one reached just before that read. *)
Inductive outcome : Type :=
  | Done (m : machine)
  | OutOfBounds (index : Z) (m : machine).

Definition machine_of (o : outcome) : machine :=
  match o with Done m | OutOfBounds _ m => m end.

(** ** Field updates *)

Definition set_device (v : string) (a : alsa_t) : alsa_t :=
  mk_alsa
    v (ctl a) (mixer_ctl a) (format a) (buffer_size a) (period_size a) (rate a)
    (mmap a) (reopen a) (write_buf a) (volume_mixer_name a) (mixer_linear a)
    (linear_dB_internal a) (output_affinity a) (mixer_handle a) (mixer_elem a)
    (mixer_mindb a) (mixer_maxdb a).

Definition set_format (v : option snd_pcm_format_t) (a : alsa_t) : alsa_t :=
  mk_alsa
    (device a) (ctl a) (mixer_ctl a) v (buffer_size a) (period_size a) (rate a)
    (mmap a) (reopen a) (write_buf a) (volume_mixer_name a) (mixer_linear a)
    (linear_dB_internal a) (output_affinity a) (mixer_handle a) (mixer_elem a)
    (mixer_mindb a) (mixer_maxdb a).

Definition set_buffer_size (v : Z) (a : alsa_t) : alsa_t :=
  mk_alsa
    (device a) (ctl a) (mixer_ctl a) (format a) v (period_size a) (rate a) (mmap a)
    (reopen a) (write_buf a) (volume_mixer_name a) (mixer_linear a)
    (linear_dB_internal a) (output_affinity a) (mixer_handle a) (mixer_elem a)
    (mixer_mindb a) (mixer_maxdb a).

Definition set_period_size (v : Z) (a : alsa_t) : alsa_t :=
  mk_alsa
    (device a) (ctl a) (mixer_ctl a) (format a) (buffer_size a) v (rate a) (mmap a)
    (reopen a) (write_buf a) (volume_mixer_name a) (mixer_linear a)
    (linear_dB_internal a) (output_affinity a) (mixer_handle a) (mixer_elem a)
    (mixer_mindb a) (mixer_maxdb a).

Definition set_rate (v : Z) (a : alsa_t) : alsa_t :=
  mk_alsa
    (device a) (ctl a) (mixer_ctl a) (format a) (buffer_size a) (period_size a) v
    (mmap a) (reopen a) (write_buf a) (volume_mixer_name a) (mixer_linear a)
    (linear_dB_internal a) (output_affinity a) (mixer_handle a) (mixer_elem a)
    (mixer_mindb a) (mixer_maxdb a).

Definition set_mmap (v : bool) (a : alsa_t) : alsa_t :=
  mk_alsa
    (device a) (ctl a) (mixer_ctl a) (format a) (buffer_size a) (period_size a)
    (rate a) v (reopen a) (write_buf a) (volume_mixer_name a) (mixer_linear a)
    (linear_dB_internal a) (output_affinity a) (mixer_handle a) (mixer_elem a)
    (mixer_mindb a) (mixer_maxdb a).

Definition set_write_buf (v : bool) (a : alsa_t) : alsa_t :=
  mk_alsa
    (device a) (ctl a) (mixer_ctl a) (format a) (buffer_size a) (period_size a)
    (rate a) (mmap a) (reopen a) v (volume_mixer_name a) (mixer_linear a)
    (linear_dB_internal a) (output_affinity a) (mixer_handle a) (mixer_elem a)
    (mixer_mindb a) (mixer_maxdb a).

Definition set_volume_mixer_name (v : option string) (a : alsa_t) : alsa_t :=
  mk_alsa
    (device a) (ctl a) (mixer_ctl a) (format a) (buffer_size a) (period_size a)
    (rate a) (mmap a) (reopen a) (write_buf a) v (mixer_linear a)
    (linear_dB_internal a) (output_affinity a) (mixer_handle a) (mixer_elem a)
    (mixer_mindb a) (mixer_maxdb a).

Definition set_mixer_handle (v : bool) (a : alsa_t) : alsa_t :=
  mk_alsa
    (device a) (ctl a) (mixer_ctl a) (format a) (buffer_size a) (period_size a)
    (rate a) (mmap a) (reopen a) (write_buf a) (volume_mixer_name a) (mixer_linear a)
    (linear_dB_internal a) (output_affinity a) v (mixer_elem a) (mixer_mindb a)
    (mixer_maxdb a).

Definition set_mixer_elem (v : bool) (a : alsa_t) : alsa_t :=
  mk_alsa
    (device a) (ctl a) (mixer_ctl a) (format a) (buffer_size a) (period_size a)
    (rate a) (mmap a) (reopen a) (write_buf a) (volume_mixer_name a) (mixer_linear a)
    (linear_dB_internal a) (output_affinity a) (mixer_handle a) v (mixer_mindb a)
    (mixer_maxdb a).

Definition set_mixer_mindb (v : Z) (a : alsa_t) : alsa_t :=
  mk_alsa
    (device a) (ctl a) (mixer_ctl a) (format a) (buffer_size a) (period_size a)
    (rate a) (mmap a) (reopen a) (write_buf a) (volume_mixer_name a) (mixer_linear a)
    (linear_dB_internal a) (output_affinity a) (mixer_handle a) (mixer_elem a) v
    (mixer_maxdb a).

Definition set_mixer_maxdb (v : Z) (a : alsa_t) : alsa_t :=
  mk_alsa
    (device a) (ctl a) (mixer_ctl a) (format a) (buffer_size a) (period_size a)
    (rate a) (mmap a) (reopen a) (write_buf a) (volume_mixer_name a) (mixer_linear a)
    (linear_dB_internal a) (output_affinity a) (mixer_handle a) (mixer_elem a)
    (mixer_mindb a) v.

Definition set_start_frames (v : Z) (o : outputstate) : outputstate :=
  mk_output
    (gainL o) (gainR o) (current_sample_rate o) (output_device o) (buffer o) (period o)
    v (output_format o) (error_opening o) (device_frames o) (updated o)
    (frames_played o) (frames_played_dmp o).

Definition set_output_format (v : option snd_pcm_format_t) (o : outputstate) : outputstate :=
  mk_output
    (gainL o) (gainR o) (current_sample_rate o) (output_device o) (buffer o) (period o)
    (start_frames o) v (error_opening o) (device_frames o) (updated o)
    (frames_played o) (frames_played_dmp o).

Definition set_error_opening (v : bool) (o : outputstate) : outputstate :=
  mk_output
    (gainL o) (gainR o) (current_sample_rate o) (output_device o) (buffer o) (period o)
    (start_frames o) (output_format o) v (device_frames o) (updated o)
    (frames_played o) (frames_played_dmp o).

Definition set_device_frames (v : Z) (o : outputstate) : outputstate :=
  mk_output
    (gainL o) (gainR o) (current_sample_rate o) (output_device o) (buffer o) (period o)
    (start_frames o) (output_format o) (error_opening o) v (updated o)
    (frames_played o) (frames_played_dmp o).

Definition set_updated (v : Z) (o : outputstate) : outputstate :=
  mk_output
    (gainL o) (gainR o) (current_sample_rate o) (output_device o) (buffer o) (period o)
    (start_frames o) (output_format o) (error_opening o) (device_frames o) v
    (frames_played o) (frames_played_dmp o).

Definition set_frames_played_dmp (v : Z) (o : outputstate) : outputstate :=
  mk_output
    (gainL o) (gainR o) (current_sample_rate o) (output_device o) (buffer o) (period o)
    (start_frames o) (output_format o) (error_opening o) (device_frames o) (updated o)
    (frames_played o) v.

(** ** The world outside the translation unit *)

Record world : Type := mk_world {
  (** the value a call returns after a given history (most recent first) *)
  ret : list event -> call -> Z;
  (** the values a call stores through its first and second out-parameter *)
  out : list event -> call -> Z;
  out2 : list event -> call -> Z;
  (** [floor(20 * log10(left / 65536.0F))], floating point of libm *)
  dB_of_gain : Z -> Z;
  (** [_output_frames] of [output.c]: frames to write, result and new globals *)
  _output_frames : Z -> machine -> Z * machine;
  (** the globals after a [strcpy] that ran past the end of [alsa.device]:
      which of them the surplus bytes overwrite, and with what, is up to the
      layout of the data segment *)
  overrun : string -> machine -> machine;
  (** [(frames_t)x]: [frames_t] is a typedef of [squeezelite.h], which is not
      among the sources, so its range is left open *)
  to_frames : Z -> Z;
  (** build flags and globals of other modules *)
  GPIO : bool;
  gpio_active : bool;
  power_script : bool;                    (* [power_script != NULL] *)
  SL_LITTLE_ENDIAN : bool;
  ALSA_BUFFER_TIME : Z;
  ALSA_PERIOD_COUNT : Z
}.

(** ** The output thread's locals and its position in the loop nest *)

Inductive position : Type :=
  | LoopTest      (* [while (running)] *)
  | OffTest       (* [while (output_off)] *)
  | ProbeTest     (* [if (probe_device) while (!pcm_probe(...))] *)
  | Body          (* from the reopen test to the end of the iteration *)
  | Exited.

Record thread : Type := mk_thread {
  pc : position;
  start : bool;
  output_off : bool;
  probe_device : bool
}.

Definition set_pc (p : position) (t : thread) : thread :=
  mk_thread p (start t) (output_off t) (probe_device t).

Definition set_start (b : bool) (t : thread) : thread :=
  mk_thread (pc t) b (output_off t) (probe_device t).

Definition set_output_off (b : bool) (t : thread) : thread :=
  mk_thread (pc t) (start t) b (probe_device t).

Definition set_probe_device (b : bool) (t : thread) : thread :=
  mk_thread (pc t) (start t) (output_off t) b.

(** [strrchr(ctl, ',')] followed by [*comma = '\0']: the text before the last
    comma, when there is one. *)
Fixpoint cut_last_comma (s : string) : option string :=
  match s with
  | EmptyString => None
  | String c rest =>
      match cut_last_comma rest with
      | Some p => Some (String c p)
      | None => if Ascii.eqb c "," then Some EmptyString else None
      end
  end.

(** [ctl4device] *)
Definition ctl4device (dev : string) : string :=
  let ctl :=
    if prefix "hw:" dev then Some dev
    else if prefix "plughw:" dev then Some (substring 4 (String.length dev - 4) dev)
    else None in
  match ctl with
  | Some c => match cut_last_comma c with Some p => p | None => c end
  | None => dev
  end.

Section Program.

Variable W : world.

Definition do_call (c : call) (m : machine) : Z * machine :=
  let r := ret W (log m) c in (r, record (c, r) m).

Definition exec (c : call) (m : machine) : machine := snd (do_call c m).

(** A call with one out-parameter: return value, stored value, new machine. *)
Definition do_call_out (c : call) (m : machine) : Z * Z * machine :=
  let v := out W (log m) c in
  let (r, m) := do_call c m in (r, v, m).

(** [LOCK; output.gainL = l; output.gainR = r; UNLOCK;] *)
Definition store_gain (l r : Z) (m : machine) : machine :=
  with_output (set_gains l r) (record (write_gain l r, 0) m).

(** [set_mixer].  The return values of the mixer calls are only logged, and
    [LOG_DEBUG] is always defined, so the two read-backs are always made. *)
Definition set_mixer (setmax setmin : bool) (ldb rdb : Z) (m : machine) : machine :=
  let setmin :=
    if (ldb <? MINVOL_DB) || (ldb =? SND_CTL_TLV_DB_GAIN_MUTE) then true else setmin in
  let ldb := if setmax then Z.quot (mixer_maxdb (alsa m)) 100 else ldb in
  let ldb := if setmin then Z.quot (mixer_mindb (alsa m)) 100 else ldb in
  let m := exec snd_mixer_handle_events m in
  let m := exec (snd_mixer_selem_set_playback_dB_all (100 * ldb)) m in
  let m := exec snd_mixer_handle_events m in
  let m := exec (snd_mixer_selem_get_playback_dB false) m in
  let m := exec snd_mixer_handle_events m in
  exec (snd_mixer_selem_get_playback_dB true) m.

(** [set_volume].  [left] and [right] are C [unsigned]; all table entries are
    non-negative, so the mixed [long]/[unsigned] comparisons and differences
    agree with the ones on [Z] wherever the reads are inside the tables. *)
Definition set_volume (left right : Z) (m : machine) : outcome :=
  match volume_mixer_name (alsa m) with
  | None =>
      (* SL internal software volume control *)
      if linear_dB_internal (alsa m) then
        if 0 <? left then
          let lower := bracket left in
          match table_read gscalenew (lower - 1) with
          | Some g => Done (store_gain g g m)
          | None => OutOfBounds (lower - 1) m
          end
        else Done (store_gain 0 0 m)
      else Done (store_gain left right m)
  | Some _ =>
      let m := store_gain FIXED_ONE FIXED_ONE m in
      if negb (mixer_linear (alsa m)) then
        if 0 <? left then
          let l := dB_of_gain W left in
          Done (set_mixer false false l l m)
        else
          let l := Z.quot (mixer_mindb (alsa m)) 100 in
          Done (set_mixer false true l l m)
      else
        if 0 <? left then
          let low := bracket left in
          match table_read gscale (low - 1) with
          | None => OutOfBounds (low - 1) m
          | Some above =>
              match table_read gscale low with
              | None => OutOfBounds low m
              | Some below =>
                  let l := if above - left >=? left - below then (-1) * low
                           else (-1) * (low - 1) in
                  Done (set_mixer false false l l m)
              end
          end
        else
          let l := Z.quot (mixer_mindb (alsa m)) 100 in
          Done (set_mixer false true l l m)
  end.

(** A sequence of volume messages; it stops at the first out-of-bounds read. *)
Fixpoint set_volumes (msgs : list (Z * Z)) (m : machine) : outcome :=
  match msgs with
  | [] => Done m
  | (l, r) :: rest =>
      match set_volume l r m with
      | Done m' => set_volumes rest m'
      | OutOfBounds i m' => OutOfBounds i m'
      end
  end.

(** ** Device session *)

(** [alsa_close]: the error is only logged. *)
Definition alsa_close (m : machine) : machine := exec snd_pcm_close m.

(** The [do { ... } while (retry)] loop of [alsa_open].  [Some (Some err, m)]:
    the function returned [err] from inside the loop; [Some (None, m)]: the
    loop was left with [retry] false; [None]: [rounds] passes were not enough.
    [snd_pcm_open] stores the handle only when it succeeds. *)
Fixpoint open_loop (rounds : nat) (dev : string) (sample_rate : Z) (m : machine)
  : option (option Z * machine) :=
  match rounds with
  | O => None
  | S rounds =>
      let (err, m) := do_call (snd_pcm_open (device (alsa m))) m in
      if err <? 0 then Some (Some err, m) else
      let m := set_pcmp true m in
      let (err, m) := do_call snd_pcm_hw_params_any m in
      if err <? 0 then Some (Some err, m) else
      let hw := prefix "hw:" (device (alsa m)) in
      let (err, m) := do_call (snd_pcm_hw_params_set_rate_resample (negb hw)) m in
      if err <? 0 then Some (Some err, m) else
      let (err, m) := do_call (snd_pcm_hw_params_set_rate sample_rate) m in
      if (err <? 0) && hw then
        (* strcpy(alsa.device + 4, device); memcpy(alsa.device, "plug", 4); *)
        let m := with_alsa (set_device ("plug" ++ dev)) m in
        let m := exec snd_pcm_close m in
        open_loop rounds dev sample_rate m
      else Some (None, m)
  end.

(** Access mode: mmap when wanted and accepted, else read/write. *)
Definition negotiate_access (m : machine) : option Z * machine :=
  let (rw, m) :=
    if mmap (alsa m) then
      let (err, m) := do_call (snd_pcm_hw_params_set_access true) m in (err <? 0, m)
    else (true, m) in
  if rw then
    let (err, m) := do_call (snd_pcm_hw_params_set_access false) m in
    if err <? 0 then (Some err, m) else (None, with_alsa (set_mmap false) m)
  else (None, m).

(** The walk over [fmts] when no format was asked for. *)
Fixpoint try_formats (l : list snd_pcm_format_t) (m : machine) : option Z * machine :=
  match l with
  | [] => (Some (-1), m)
  | f :: rest =>
      let (err, m) := do_call (snd_pcm_hw_params_set_format f) m in
      if err >=? 0 then (None, with_alsa (set_format (Some f)) m)
      else try_formats rest m
  end.

Definition negotiate_format (m : machine) : option Z * machine :=
  match format (alsa m) with
  | Some f =>
      let (err, m) := do_call (snd_pcm_hw_params_set_format f) m in
      if err >=? 0 then (None, with_alsa (set_format (Some f)) m) else (Some (-1), m)
  | None => try_formats fmts m
  end.

(** Period: a value below 50 is a period count, otherwise a size. *)
Definition negotiate_period (alsa_period : Z) (m : machine) : option Z * machine :=
  let (err, m) :=
    if alsa_period <? 50
    then do_call (snd_pcm_hw_params_set_periods_near alsa_period) m
    else do_call (snd_pcm_hw_params_set_period_size_near alsa_period) m in
  if err <? 0 then (Some err, m) else (None, m).

(** Buffer: a value below 500 is a time in ms, otherwise a size. *)
Definition negotiate_buffer (alsa_buffer : Z) (m : machine) : option Z * machine :=
  let (err, m) :=
    if alsa_buffer <? 500
    then do_call (snd_pcm_hw_params_set_buffer_time_near (alsa_buffer * 1000)) m
    else do_call (snd_pcm_hw_params_set_buffer_size_near alsa_buffer) m in
  if err <? 0 then (Some err, m) else (None, m).

(** [alsa.format != NATIVE_FORMAT] *)
Definition not_native (f : option snd_pcm_format_t) : bool :=
  match f with
  | Some SND_PCM_FORMAT_S32_LE => negb (SL_LITTLE_ENDIAN W)
  | _ => true
  end.

(** The tail of [alsa_open], from reading back the sizes to the end. *)
Definition finish_open (sample_rate : Z) (m : machine) : Z * machine :=
  let '(err, size, m) := do_call_out snd_pcm_hw_params_get_period_size m in
  if err <? 0 then (err, m) else
  let m := with_alsa (set_period_size size) m in
  let '(err, size, m) := do_call_out snd_pcm_hw_params_get_buffer_size m in
  if err <? 0 then (err, m) else
  let m := with_alsa (set_buffer_size size) m in
  let m := with_output (set_start_frames (buffer_size (alsa m) * 2)) m in
  let alloc :=
    if negb (mmap (alsa m)) && negb (write_buf (alsa m)) && not_native (format (alsa m))
    then
      let (p, m) := do_call (malloc_write_buf (buffer_size (alsa m))) m in
      if p =? 0 then (Some (-1), m) else (None, with_alsa (set_write_buf true) m)
    else (None, m) in
  match alloc with
  | (Some err, m) => (err, m)
  | (None, m) =>
      let (err, m) := do_call snd_pcm_hw_params m in
      if err <? 0 then (err, m) else
      (0, with_alsa (set_rate sample_rate) m)
  end.

(** [strcpy(alsa.device, device)] into [char device[MAX_DEVICE_LEN + 1]].  A
    name of more than [MAX_DEVICE_LEN] characters runs past the array, over
    the fields of [alsa] and the globals that follow it; what they hold
    afterwards is given by the world.  The copy makes no call, so the log
    stays as it is. *)
Definition strcpy_device (dev : string) (m : machine) : machine :=
  if Z.of_nat (String.length dev) <=? MAX_DEVICE_LEN
  then with_alsa (set_device dev) m
  else
    let s := overrun W dev m in
    mk_machine (alsa s) (output s) (pcmp s) (recover_count s) (log m).

(** The head of [alsa_open]: close if already open, reset params, copy the
    name.  The copy comes before the test of the length. *)
Definition open_prologue (dev : string) (m : machine) : machine :=
  let m := if pcmp m then alsa_close m else m in
  let m := with_alsa (fun a => set_period_size 0 (set_rate 0 a)) m in
  strcpy_device dev m.

(** [alsa_open] after the retry loop: access, format, channels, period,
    buffer, then the tail. *)
Definition configure (sample_rate alsa_buffer alsa_period : Z) (m : machine)
  : Z * machine :=
  match negotiate_access m with
  | (Some err, m) => (err, m)
  | (None, m) =>
  match negotiate_format m with
  | (Some err, m) => (err, m)
  | (None, m) =>
  let m := with_output (set_output_format (format (alsa m))) m in
  let (err, m) := do_call (snd_pcm_hw_params_set_channels 2) m in
  if err <? 0 then (err, m) else
  match negotiate_period alsa_period m with
  | (Some err, m) => (err, m)
  | (None, m) =>
  match negotiate_buffer alsa_buffer m with
  | (Some err, m) => (err, m)
  | (None, m) => finish_open sample_rate m
  end end end end.

(** [alsa_open] (non-DSD build).  Two passes of the retry loop always suffice
    ([open_loop_total] below), so the [None] case is never taken. *)
Definition alsa_open (dev : string) (sample_rate alsa_buffer alsa_period : Z)
    (m : machine) : Z * machine :=
  let m := open_prologue dev m in
  if Z.of_nat (String.length dev) >? MAX_DEVICE_LEN - 4 - 1 then (-1, m) else
  match open_loop 2 dev sample_rate m with
  | None => (-1, m)
  | Some (Some err, m) => (err, m)
  | Some (None, m) => configure sample_rate alsa_buffer alsa_period m
  end.

(** [_write_frames]: the calls on the device and the bookkeeping of the
    session.  Cross-fade, gain and packing go through helpers of other files
    and change sample data only.  [out_frames] is a [frames_t]: the values
    the device hands back ([alsa_frames], an [snd_pcm_uframes_t], and [w], an
    [snd_pcm_sframes_t]) are converted when they are stored in it, and the
    result is [(int)out_frames]: [to_int]. *)
Definition _write_frames (out_frames : Z) (m : machine) : Z * machine :=
  if mmap (alsa m) then
    let m := exec snd_pcm_avail_update m in
    let '(err, alsa_frames, m) := do_call_out (snd_pcm_mmap_begin out_frames) m in
    if err <? 0 then (-1, m) else
    let out_frames := to_frames W alsa_frames in
    let (w, m) := do_call (snd_pcm_mmap_commit out_frames) m in
    if (w <? 0) || negb (w =? out_frames) then (-1, m)
    else (to_int out_frames, m)
  else
    let (w, m) := do_call (snd_pcm_writei out_frames) m in
    if w <? 0 then
      let (err, m) := do_call (snd_pcm_recover w) m in
      if err <? 0 then
        let m := set_recover_count (recover_count m + 1) m in
        if recover_count m >=? 10
        then (-1, set_pcmp false (alsa_close (set_recover_count 0 m)))
        else (-1, m)
      else (-1, m)
    else
      let out_frames := to_frames W w in
      (to_int out_frames, m).

(** A test driver for the write operation: one [_write_frames] call per
    request, issued for as long as the handle is not NULL. *)
Fixpoint write_all (reqs : list Z) (m : machine) : machine :=
  match reqs with
  | [] => m
  | n :: rest => if pcmp m then write_all rest (snd (_write_frames n m)) else m
  end.

(** [pcm_probe], on a handle of its own. *)
Definition pcm_probe (dev : string) (m : machine) : bool * machine :=
  let (err, m) := do_call (probe_open dev) m in
  if err <? 0 then (false, m) else (true, exec probe_close m).

(** ** Output thread *)

(** [#if GPIO]: amplifier relay and power script. *)
Definition relays (on : bool) (m : machine) : machine :=
  if GPIO W then
    let m := if gpio_active W then exec (relay on) m else m in
    if power_script W then exec (relay_script on) m else m
  else m.

(** [alsa_close(); pcmp = NULL; probe_device = true; continue;] *)
Definition disconnected (t : thread) (m : machine) : thread * machine :=
  (set_probe_device true t, set_pcmp false (alsa_close m)).

(** [!pcmp || alsa.rate != output.current_sample_rate] *)
Definition needs_open (m : machine) : bool :=
  negb (pcmp m) || negb (rate (alsa m) =? current_sample_rate (output m)).

(** The block guarded by [needs_open]; the flag says whether the device was
    opened.  On failure: [output.error_opening = true; sleep(5); continue;]. *)
Definition open_device (m : machine) : bool * machine :=
  let m := relays true m in
  let m :=
    if reopen (alsa m)
    then snd (alsa_open (output_device (output m)) (current_sample_rate (output m))
                (buffer (output m)) (period (output m)) m)
    else m in
  let (err, m) :=
    alsa_open (output_device (output m)) (current_sample_rate (output m))
      (buffer (output m)) (period (output m)) m in
  if negb (err =? 0)
  then (false, exec (sleep 5) (with_output (set_error_opening true) m))
  else (true, with_output (set_error_opening false) m).

(** From [_output_frames(avail)] to the end of the iteration. *)
Definition process_frames (t : thread) (avail : Z) (m : machine) : thread * machine :=
  let (wrote, m) := _output_frames W avail m in
  if wrote =? 0 then (t, exec (usleep 10000) m) else (t, m).

(** From [LOCK] before the off test to the end of the iteration. *)
Definition transfer (t : thread) (avail : Z) (m : machine) : thread * machine :=
  let (st, m) := do_call read_output_state m in
  if st =? OUTPUT_OFF then
    let m := set_pcmp false (alsa_close m) in
    let t := set_output_off true t in
    let m := exec vis_stop m in
    (t, relays false m)
  else
    let '(err, delay, m) := do_call_out snd_pcm_delay m in
    if err <? 0 then
      if err =? - EPIPE then (t, m)
      else if err =? - EIO then (t, exec (usleep 100000) m)
      else process_frames t avail m
    else
      let m := with_output (set_device_frames delay) m in
      let (now, m) := do_call gettime_ms m in
      let m := with_output (set_updated now) m in
      let m := with_output (set_frames_played_dmp (frames_played (output m))) m in
      process_frames t avail m.

(** From [if (avail < alsa.period_size)] on; [avail] is not negative here. *)
Definition wait_or_transfer (t : thread) (avail : Z) (m : machine) : thread * machine :=
  if avail <? period_size (alsa m) then
    if start t then
      if mmap (alsa m) then
        let (err, m) := do_call snd_pcm_start m in
        if err <? 0 then
          let (err, m) := do_call (snd_pcm_recover err) m in
          if err <? 0 then
            if err =? - ENODEV then disconnected t m
            else (t, exec (usleep 10000) m)
          else (t, m)
        else (set_start false t, m)
      else (set_start false t, m)
    else
      let m := exec (usleep 10000) m in
      let (err, m) := do_call (snd_pcm_wait 1000) m in
      if err <=? 0 then (set_start true t, exec (snd_pcm_recover err) m)
      else (t, m)
  else
    let avail :=
      if mmap (alsa m) then Z.min avail (buffer_size (alsa m))
      else Z.min avail (period_size (alsa m)) in
    if avail =? 0 then (t, exec (usleep 10000) m)
    else transfer t avail m.

(** From [snd_pcm_avail_update] on. *)
Definition check_avail (t : thread) (m : machine) : thread * machine :=
  let (avail, m) := do_call snd_pcm_avail_update m in
  if avail <? 0 then
    let (err, m) := do_call (snd_pcm_recover avail) m in
    if (err <? 0) && (err =? - ENODEV) then disconnected t m
    else (set_start true t, m)
  else wait_or_transfer t avail m.

(** From [snd_pcm_state] on. *)
Definition check_state (t : thread) (m : machine) : thread * machine :=
  let (state, m) := do_call snd_pcm_state m in
  if state =? SND_PCM_STATE_XRUN then
    let (err, m) := do_call (snd_pcm_recover (- EPIPE)) m in
    let m := if err <? 0 then exec (usleep 10000) m else m in
    (set_start true t, m)
  else if state =? SND_PCM_STATE_SUSPENDED then
    check_avail t (exec (snd_pcm_recover (- ESTRPIPE)) m)
  else if state =? SND_PCM_STATE_DISCONNECTED then disconnected t m
  else check_avail t m.

(** One pass from the reopen test to the end of the [while (running)] body. *)
Definition body (t : thread) (m : machine) : thread * machine :=
  if needs_open m then
    let (opened, m) := open_device m in
    if opened then check_state (set_start true t) m else (t, m)
  else check_state t m.

(** One step of [output_thread].  [running] and [output.state] are written by
    other threads; each read is a call answered by the world. *)
Definition step (s : thread * machine) : thread * machine :=
  let (t, m) := s in
  match pc t with
  | LoopTest =>
      let (r, m) := do_call read_running m in
      if r =? 0 then (set_pc Exited t, m)
      else (set_pc OffTest t, exec prctl_set_name m)
  | OffTest =>
      if output_off t then
        let m := exec (usleep 100000) m in
        let (st, m) := do_call read_output_state m in
        let t := set_output_off (st =? OUTPUT_OFF) t in
        let (r, m) := do_call read_running m in
        if r =? 0 then (set_pc Exited t, m) else (t, m)
      else (set_pc ProbeTest t, m)
  | ProbeTest =>
      if probe_device t then
        let (found, m) := pcm_probe (output_device (output m)) m in
        if found then (set_pc Body (set_probe_device false t), m)
        else (t, exec (sleep 5) m)
      else (set_pc Body t, m)
  | Body =>
      let (t, m) := body t m in (set_pc LoopTest t, m)
  | Exited => (t, m)
  end.

Fixpoint steps (n : nat) (s : thread * machine) : thread * machine :=
  match n with
  | O => s
  | S n => steps n (step s)
  end.

(** The locals as [output_thread] initialises them; [arg] is non-NULL when
    the device is to be probed first. *)
Definition output_thread (probe : bool) (m : machine) : thread * machine :=
  let (st, m) := do_call read_output_state m in
  (mk_thread LoopTest true (st =? OUTPUT_OFF) probe, m).

(** ** Mixer and initialisation *)

(** [snd_mixer_close(alsa.mixer_handle); return -1;] *)
Definition mixer_fail (m : machine) : Z * machine := (-1, exec snd_mixer_close m).

(** [mixer_init_alsa] *)
Definition mixer_init_alsa (dev mixer : string) (mixer_index : Z) (m : machine)
  : Z * machine :=
  let (err, m) := do_call snd_mixer_open m in
  if err <? 0 then (-1, m) else
  let m := with_alsa (set_mixer_handle true) m in
  let (err, m) := do_call (snd_mixer_attach dev) m in
  if err <? 0 then mixer_fail m else
  let (err, m) := do_call snd_mixer_selem_register m in
  if err <? 0 then mixer_fail m else
  let (err, m) := do_call snd_mixer_load m in
  if err <? 0 then mixer_fail m else
  let (elem, m) := do_call (snd_mixer_find_selem mixer mixer_index) m in
  let m := with_alsa (set_mixer_elem (negb (elem =? 0))) m in
  if elem =? 0 then mixer_fail m else
  let m := exec snd_mixer_handle_events m in
  let (sw, m) := do_call snd_mixer_selem_has_playback_switch m in
  let m := if negb (sw =? 0) then exec (snd_mixer_selem_set_playback_switch_all 1) m
           else m in
  let m := exec snd_mixer_handle_events m in
  let lo := out W (log m) snd_mixer_selem_get_playback_dB_range in
  let hi := out2 W (log m) snd_mixer_selem_get_playback_dB_range in
  let (err, m) := do_call snd_mixer_selem_get_playback_dB_range m in
  if err <? 0 then (-1, m) else
  (0, with_alsa (fun a => set_mixer_maxdb hi (set_mixer_mindb lo a)) m).

(** The arguments of [output_init_alsa] after [next_param] and [atoi] (helpers
    of other files) have split and converted the parameter strings. *)
Record init_args : Type := mk_init_args {
  arg_device : string;
  arg_buffer : option Z;                  (* [t] of [params] *)
  arg_period : option Z;                  (* [c] *)
  arg_sample_fmt : option string;         (* [s] *)
  arg_mmap : option Z;                    (* [m] *)
  arg_reopen : option Z;                  (* [r] *)
  arg_probe : bool;                       (* [rates[0] != 0] *)
  arg_rt_priority : Z;
  arg_mixer_device : option string;
  arg_volume_mixer_name : option string;
  arg_volume_mixer_index : option Z;
  arg_mixer_unmute : bool;
  arg_mixer_linear : bool;
  arg_linear_dB_internal : bool;
  arg_output_affinity : bool
}.

(** The explicit sample format of the parameter string, if it names one. *)
Definition sample_fmt (s : option string) : option snd_pcm_format_t :=
  match s with
  | None => None
  | Some s =>
      if String.eqb s "32" then Some SND_PCM_FORMAT_S32_LE
      else if String.eqb s "24" then Some SND_PCM_FORMAT_S24_LE
      else if String.eqb s "24_3" then Some SND_PCM_FORMAT_S24_3LE
      else if String.eqb s "16" then Some SND_PCM_FORMAT_S16_LE
      else None
  end.

Definition nonzero (o : option Z) (dflt : bool) : bool :=
  match o with Some v => negb (v =? 0) | None => dflt end.

Definition or_default (o : option Z) (dflt : Z) : Z :=
  match o with Some v => v | None => dflt end.

(** The head of [output_init_alsa], up to and including
    [output_init_common]. *)
Definition init_globals (a : init_args) (m : machine) : machine :=
  let alsa_buffer := or_default (arg_buffer a) (ALSA_BUFFER_TIME W) in
  let alsa_period := or_default (arg_period a) (ALSA_PERIOD_COUNT W) in
  let ctl := ctl4device (arg_device a) in
  let mctl :=
    match arg_mixer_device a with Some d => ctl4device d | None => ctl end in
  let m := with_output (fun _ =>
    mk_output 0 0 0 EmptyString alsa_buffer alsa_period 0 None false 0 0 0 0) m in
  let m := with_alsa (fun s =>
    mk_alsa (device s) ctl mctl (sample_fmt (arg_sample_fmt a))
      (buffer_size s) (period_size s) (rate s)
      (nonzero (arg_mmap a) true) (nonzero (arg_reopen a) false) false
      (arg_volume_mixer_name a) (arg_mixer_linear a) (arg_linear_dB_internal a)
      (arg_output_affinity a) false (mixer_elem s) (mixer_mindb s) (mixer_maxdb s)) m in
  exec output_init_common m.

(** The mixer block of [output_init_alsa]: on failure the handle and the
    name are cleared ("reverting to software volume"). *)
Definition init_mixer (a : init_args) (m : machine) : machine :=
  match arg_volume_mixer_name a with
  | Some name =>
      let (err, m) :=
        mixer_init_alsa (mixer_ctl (alsa m)) name
          (or_default (arg_volume_mixer_index a) 0) m in
      if err <? 0 then
        with_alsa (fun s => set_volume_mixer_name None (set_mixer_handle false s)) m
      else m
  | None => m
  end.

(** [output_init_alsa] (non-DSD build).  It returns nothing: whatever the
    mixer does, it runs to the end and starts the output thread. *)
Definition output_init_alsa (a : init_args) (m : machine) : machine :=
  let m := init_globals a m in
  let m := init_mixer a m in
  let m :=
    match volume_mixer_name (alsa m) with
    | Some _ =>
        if arg_mixer_unmute a
        then with_alsa (set_volume_mixer_name None) (set_mixer true false 0 0 m)
        else m
    | None => m
    end in
  let m := exec mlockall m in
  let m := exec (pthread_create (arg_probe a)) m in
  let m := exec (pthread_setschedparam (arg_rt_priority a)) m in
  let m := if output_affinity (alsa m) then exec pthread_setaffinity_np m else m in
  exec pthread_getschedparam m.

End Program.

(** ** Reading the log *)

(** [m'] was reached from [m] by calls that all satisfy [p]. *)
Definition emits_only (p : call -> bool) (m m' : machine) : Prop :=
  exists new, log m' = new ++ log m /\ Forall (fun e => p (fst e) = true) new.

Definition not_pcm (c : call) : bool := negb (is_pcm_call c).

Definition not_mixer (c : call) : bool := negb (is_mixer_call c).

(** The calls of the head of [alsa_open] and of its retry loop. *)
Definition loop_call (c : call) : bool :=
  match c with
  | snd_pcm_open _ | snd_pcm_close | snd_pcm_hw_params_any
  | snd_pcm_hw_params_set_rate_resample _ | snd_pcm_hw_params_set_rate _ => true
  | _ => false
  end.

(** The two ways of asking for a buffer. *)
Definition is_buffer_request (c : call) : bool :=
  match c with
  | snd_pcm_hw_params_set_buffer_time_near _
  | snd_pcm_hw_params_set_buffer_size_near _ => true
  | _ => false
  end.

(** The calls of [alsa_open] after the retry loop, buffer requests apart. *)
Definition setup_call (c : call) : bool :=
  match c with
  | snd_pcm_hw_params_set_access _ | snd_pcm_hw_params_set_format _
  | snd_pcm_hw_params_set_channels _ | snd_pcm_hw_params_set_periods_near _
  | snd_pcm_hw_params_set_period_size_near _
  | snd_pcm_hw_params_get_period_size | snd_pcm_hw_params_get_buffer_size
  | malloc_write_buf _ | snd_pcm_hw_params => true
  | _ => false
  end.


(** The buffer request that [alsa_open] makes for a configured value. *)
Definition expected_request (alsa_buffer : Z) : call :=
  if alsa_buffer <? 500
  then snd_pcm_hw_params_set_buffer_time_near (alsa_buffer * 1000)
  else snd_pcm_hw_params_set_buffer_size_near alsa_buffer.

(** The buffer requests in a piece of log. *)
Definition buffer_requests (l : list event) : list call :=
  filter is_buffer_request (map fst l).

(** The values of the decibel commands in a piece of log. *)
Fixpoint dB_commands (l : list event) : list Z :=
  match l with
  | [] => []
  | (snd_mixer_selem_set_playback_dB_all v, _) :: rest => v :: dB_commands rest
  | _ :: rest => dB_commands rest
  end.

(** A list that never goes up. *)
Fixpoint nonincreasing (l : list Z) : bool :=
  match l with
  | [] => true
  | a :: rest =>
      match rest with
      | [] => true
      | b :: _ => (b <=? a) && nonincreasing rest
      end
  end.

(** The most recent call is a [snd_pcm_writei] that failed. *)
Definition failed_write (l : list event) : bool :=
  match l with
  | (snd_pcm_writei _, w) :: _ => w <? 0
  | _ => false
  end.

(** The most recent call is a failed recovery of a failed write. *)
Definition unrecoverable (l : list event) : bool :=
  match l with
  | (snd_pcm_recover _, r) :: rest => (r <? 0) && failed_write rest
  | _ => false
  end.

(** The number of writes in the log that failed and could not be recovered. *)
Fixpoint unrecovered (l : list event) : Z :=
  match l with
  | [] => 0
  | e :: rest => (if unrecoverable l then 1 else 0) + unrecovered rest
  end.

(** The number of unrecoverable write failures in a row at the head of the
    log, that is, since the last write that succeeded or was recovered. *)
Fixpoint trailing_failures (l : list event) : Z :=
  match l with
  | (snd_pcm_recover _, r) :: rest =>
      match rest with
      | (snd_pcm_writei _, w) :: rest' =>
          if (r <? 0) && (w <? 0) then 1 + trailing_failures rest' else 0
      | _ => 0
      end
  | (snd_pcm_close, _) :: rest => trailing_failures rest
  | _ => 0
  end.

(** In the off loop: the next poll of [output.state] still reads OFF. *)
Definition still_off (W : world) (s : thread * machine) : bool :=
  match pc (fst s) with
  | OffTest =>
      fst (do_call W read_output_state (exec W (usleep 100000) (snd s))) =? OUTPUT_OFF
  | _ => true
  end.

(** Idle: between the loop test and the off loop, or gone. *)
Definition idle (p : position) : bool :=
  match p with
  | LoopTest | OffTest | Exited => true
  | _ => false
  end.

(** The machine right after the output thread has turned itself off: the
    handle is NULL, and the log shows the read of OFF, the close, and after
    that nothing that reaches the PCM device. *)
Definition just_disabled (m : machine) : Prop :=
  pcmp m = false /\
  exists later r before,
    log m = later ++ (snd_pcm_close, r) :: (read_output_state, OUTPUT_OFF) :: before /\
    Forall (fun e => not_pcm (fst e) = true) later.

(** ** Sample worlds and machines *)

(** [frames_t] as an unsigned 32-bit integer. *)
Definition u32 (x : Z) : Z := x mod 2 ^ 32.

(** A world whose calls return what [r] says, with no frames ever written and
    no damage done by an overrun. *)
Definition world_of (r : list event -> call -> Z) : world :=
  mk_world r (fun _ _ => 0) (fun _ _ => 0) (fun _ => 0) (fun _ m => (0, m))
    (fun _ m => m) u32
    false false false true 40 4.

(** Every call succeeds with 0. *)
Definition quiet_world : world := world_of (fun _ _ => 0).

Definition output0 : outputstate :=
  mk_output 0 0 44100 "hw:0,0" 40 4 0 None false 0 0 0 0.

(** Software volume through the corrected curve. *)
Definition curve_machine : machine :=
  mk_machine
    (mk_alsa EmptyString EmptyString EmptyString None 0 0 0 false false false None false true false false false 0 0)
    output0 false 0 [].

(** Software volume, raw input as gain. *)
Definition passthrough_machine : machine :=
  mk_machine
    (mk_alsa EmptyString EmptyString EmptyString None 0 0 0 false false false None false false false false false 0 0)
    output0 false 0 [].

(** Hardware mixer "PCM" with range -102.39 dB .. 4 dB. *)
Definition mixer_machine (linear : bool) : machine :=
  mk_machine
    (mk_alsa EmptyString EmptyString EmptyString None 0 0 0 false false false (Some "PCM"%string) linear false false
       true true (-10239) 400)
    output0 false 0 [].

(** An open session in copy-write mode with a fresh failure count. *)
Definition writer_machine : machine :=
  mk_machine
    (mk_alsa "hw:0,0" EmptyString EmptyString (Some SND_PCM_FORMAT_S32_LE) 4096 1024 44100 false false false
       None false false false false false 0 0)
    output0 true 0 [].

(** The number of [snd_pcm_writei] calls in a log. *)
Fixpoint writes (l : list event) : nat :=
  match l with
  | [] => O
  | (snd_pcm_writei _, _) :: rest => S (writes rest)
  | _ :: rest => writes rest
  end.

(** Every write fails with [-EIO] and cannot be recovered, except the tenth,
    which succeeds. *)
Definition flaky_world : world :=
  world_of (fun h c =>
    match c with
    | snd_pcm_writei n => if Nat.eqb (writes h) 9 then n else - EIO
    | snd_pcm_recover e => e
    | _ => 0
    end).

(** The name of the device opened last. *)
Fixpoint last_opened (l : list event) : string :=
  match l with
  | [] => EmptyString
  | (snd_pcm_open name, _) :: _ => name
  | _ :: rest => last_opened rest
  end.

(** A device that takes the requested rate only through the plug layer. *)
Definition raw_refusing_world : world :=
  world_of (fun h c =>
    match c with
    | snd_pcm_hw_params_set_rate _ => if prefix "hw:" (last_opened h) then -22 else 0
    | _ => 0
    end).

(** No mixer can be opened. *)
Definition mixerless_world : world :=
  world_of (fun _ c => match c with snd_mixer_open => -2 | _ => 0 end).

(** Player started with [-o hw:0,0 -V PCM]. *)
Definition sample_args : init_args :=
  mk_init_args "hw:0,0" None None None None None false 45 None (Some "PCM"%string) None
    false false true false.

(** The device is running with a full period free, and the player has just
    been switched off. *)
Definition off_world : world :=
  world_of (fun _ c =>
    match c with
    | snd_pcm_state => 3
    | snd_pcm_avail_update => 1024
    | read_output_state => OUTPUT_OFF
    | read_running => 1
    | _ => 0
    end).

(** The output thread at the start of a running iteration. *)
Definition running_thread : thread := mk_thread Body false false false.

(** ** Probing rates *)

(** What the device answers during [test_open], which works on a handle of
    its own.  [snd_pcm_hw_params_test_rate] is a query: its answer depends on
    the rate asked. *)
Record test_answers : Type := mk_test_answers {
  open_result : Z;
  any_result : Z;
  rate_result : Z -> Z;
  close_result : Z
}.

(** [a[ind] = v] on a C array: [None] when [ind] is outside the array. *)
Fixpoint array_store (a : list Z) (ind : nat) (v : Z) : option (list Z) :=
  match a, ind with
  | [], _ => None
  | _ :: rest, O => Some (v :: rest)
  | x :: rest, S ind =>
      match array_store rest ind v with
      | Some rest' => Some (x :: rest')
      | None => None
      end
  end.

(** The loop of [test_open] over the zero-terminated reference rates:
<<
    for (i = 0, ind = 0; ref[i]; ++i)
        if (snd_pcm_hw_params_test_rate(pcm, hw_params, ref[i], 0) == 0)
            rates[ind++] = ref[i];
>>
    The end of the list stands for the terminating zero as well. *)
Fixpoint test_rates (A : test_answers) (ref : list Z) (ind : nat) (rates : list Z)
  : option (list Z) :=
  match ref with
  | [] => Some rates
  | r :: rest =>
      if r =? 0 then Some rates
      else if rate_result A r =? 0 then
        match array_store rates ind r with
        | Some rates' => test_rates A rest (S ind) rates'
        | None => None
        end
      else test_rates A rest ind rates
  end.

(** [test_open]; [ref] is the [TEST_RATES] initialiser of [squeezelite.h].
    The result is the returned flag and the [rates] array, or [None] when a
    store leaves the array. *)
Definition test_open (A : test_answers) (ref rates : list Z) (userdef_rates : bool)
  : option (bool * list Z) :=
  if open_result A <? 0 then Some (false, rates) else
  if any_result A <? 0 then Some (false, rates) else
  match (if userdef_rates then Some rates else test_rates A ref O rates) with
  | None => None
  | Some rates' =>
      if close_result A <? 0 then Some (false, rates') else Some (true, rates')
  end.

(** The reference rates up to the terminating zero. *)
Fixpoint before_zero (ref : list Z) : list Z :=
  match ref with
  | [] => []
  | r :: rest => if r =? 0 then [] else r :: before_zero rest
  end.

(** The reference rates the device says it supports. *)
Definition supported_rates (A : test_answers) (ref : list Z) : list Z :=
  filter (fun r => rate_result A r =? 0) (before_zero ref).

(** ** More readers of the log *)

(** The two ways of asking for a period. *)
Definition is_period_request (c : call) : bool :=
  match c with
  | snd_pcm_hw_params_set_periods_near _
  | snd_pcm_hw_params_set_period_size_near _ => true
  | _ => false
  end.

Definition not_period_request (c : call) : bool := negb (is_period_request c).

(** The period requests in a piece of log. *)
Definition period_requests (l : list event) : list call :=
  filter is_period_request (map fst l).


(** Calls on the session handle [pcmp]; the probe has a handle of its own. *)
Definition on_session (c : call) : bool :=
  match c with
  | probe_open _ | probe_close => false
  | _ => is_pcm_call c
  end.

Definition off_session (c : call) : bool := negb (on_session c).

(** A probe or a sleep: all the probe loop does. *)
Definition probe_or_sleep (c : call) : bool :=
  match c with
  | probe_open _ | sleep _ => true
  | _ => false
  end.

(** In the probe loop: the next [pcm_probe] fails to open the device. *)
Definition probe_fails (W : world) (s : thread * machine) : bool :=
  match pc (fst s) with
  | ProbeTest =>
      fst (do_call W (probe_open (output_device (output (snd s)))) (snd s)) <? 0
  | _ => true
  end.

(** The number of [snd_mixer_close] calls in a log. *)
Fixpoint mixer_closes (l : list event) : nat :=
  match l with
  | [] => O
  | (snd_mixer_close, _) :: rest => S (mixer_closes rest)
  | _ :: rest => mixer_closes rest
  end.

(** The number of [snd_mixer_open] calls in a log that succeeded. *)
Fixpoint mixer_opens (l : list event) : nat :=
  match l with
  | [] => O
  | (snd_mixer_open, r) :: rest =>
      if r <? 0 then mixer_opens rest else S (mixer_opens rest)
  | _ :: rest => mixer_opens rest
  end.

(** What [alsa_open] leaves alone: the handle count of [_write_frames] and
    what the output thread asked for. *)
Definition same_request (m m' : machine) : Prop :=
  recover_count m' = recover_count m /\
  current_sample_rate (output m') = current_sample_rate (output m) /\
  output_device (output m') = output_device (output m) /\
  buffer (output m') = buffer (output m) /\
  period (output m') = period (output m) /\
  reopen (alsa m') = reopen (alsa m).

(** What the negotiation steps of [alsa_open] leave alone, and the two
    fields they only ever change one way: [mmap] can only be switched off
    and [write_buf] can only be allocated. *)
Definition settled (m m' : machine) : Prop :=
  pcmp m' = pcmp m /\
  rate (alsa m') = rate (alsa m) /\
  device (alsa m') = device (alsa m) /\
  same_request m m' /\
  (mmap (alsa m') = true -> mmap (alsa m) = true) /\
  (write_buf (alsa m) = true -> write_buf (alsa m') = true).

(** ** More sample worlds *)

(** The device has gone and does not come back. *)
Definition lost_world : world :=
  world_of (fun _ c =>
    match c with
    | snd_pcm_state => SND_PCM_STATE_DISCONNECTED
    | probe_open _ => -2
    | read_running => 1
    | _ => 0
    end).

(** The output thread at the head of the probe loop, device to be probed. *)
Definition probing_thread : thread := mk_thread ProbeTest true false true.

(** A session that has been closed. *)
Definition closed_machine : machine := set_pcmp false writer_machine.

(** A mixer that can be opened, with the range -102.39 dB .. 4 dB. *)
Definition mixer_world : world :=
  mk_world
    (fun _ c => match c with snd_mixer_find_selem _ _ => 1 | _ => 0 end)
    (fun _ _ => -10239) (fun _ _ => 400) (fun _ => 0) (fun _ m => (0, m))
    (fun _ m => m) u32
    false false false true 40 4.

(** Player started with [-o hw:0,0 -V PCM -U]. *)
Definition unmute_args : init_args :=
  mk_init_args "hw:0,0" None None None None None false 45 None (Some "PCM"%string) None
    true false false false.

(** The player is on and running. *)
Definition on_world : world :=
  world_of (fun _ c => match c with read_running => 1 | _ => 0 end).

(** The output thread in the off loop. *)
Definition idle_thread : thread := mk_thread OffTest true true false.

(** A device that supports 48000 and 44100 Hz only. *)
Definition cd_and_dat : test_answers :=
  mk_test_answers 0 0 (fun r => if (r =? 48000) || (r =? 44100) then 0 else -22) 0.

(** The device is held by another program. *)
Definition busy_world : world :=
  world_of (fun _ c => match c with snd_pcm_open _ => -16 | _ => 0 end).

(** A device that takes 16-bit samples only; the allocation succeeds. *)
Definition s16_world : world :=
  world_of (fun _ c =>
    match c with
    | snd_pcm_hw_params_set_format SND_PCM_FORMAT_S16_LE => 0
    | snd_pcm_hw_params_set_format _ => -22
    | malloc_write_buf _ => 1
    | _ => 0
    end).

(** ** The requests of [alsa_open] in order *)

(** Neither a period nor a buffer request. *)
Definition no_requests (c : call) : bool :=
  negb (is_period_request c) && negb (is_buffer_request c).

(** A piece of log holds a period request that the device granted. *)
Definition period_granted (l : list event) : bool :=
  existsb (fun e => is_period_request (fst e) && (0 <=? snd e)) l.

(** What [m'] has added to the log of [m], as far as the two requests go. *)
Definition added (m m' : machine) (granted : bool) (requests : list call) : Prop :=
  exists new, log m' = new ++ log m /\
              period_granted new = granted /\ buffer_requests new = requests.




(** ** The way to the off test *)

(** The state in which an iteration of the loop body arrives at the off test
    ([LOCK; if (output.state == OUTPUT_OFF)]), when it gets that far: the
    locals, the clamped [avail] and the machine.  Every [continue] on the way
    gives [None].  From [if (avail < alsa.period_size)] on: *)
Definition off_test_after_avail (t : thread) (avail : Z) (m : machine)
  : option (thread * Z * machine) :=
  if avail <? period_size (alsa m) then None
  else
    let avail :=
      if mmap (alsa m) then Z.min avail (buffer_size (alsa m))
      else Z.min avail (period_size (alsa m)) in
    if avail =? 0 then None else Some (t, avail, m).

(** From [snd_pcm_avail_update] on. *)
Definition off_test_after_state (W : world) (t : thread) (m : machine)
  : option (thread * Z * machine) :=
  let (avail, m) := do_call W snd_pcm_avail_update m in
  if avail <? 0 then None else off_test_after_avail t avail m.

(** From [snd_pcm_state] on. *)
Definition off_test_after_open (W : world) (t : thread) (m : machine)
  : option (thread * Z * machine) :=
  let (state, m) := do_call W snd_pcm_state m in
  if state =? SND_PCM_STATE_XRUN then None
  else if state =? SND_PCM_STATE_SUSPENDED then
    off_test_after_state W t (exec W (snd_pcm_recover (- ESTRPIPE)) m)
  else if state =? SND_PCM_STATE_DISCONNECTED then None
  else off_test_after_state W t m.

(** From the reopen test on. *)
Definition off_test (W : world) (t : thread) (m : machine)
  : option (thread * Z * machine) :=
  if needs_open m then
    let (opened, m) := open_device W m in
    if opened then off_test_after_open W (set_start true t) m else None
  else off_test_after_open W t m.

(** The iteration of the loop body that starts in [(t, m)] gets as far as the
    off test and reads [output.state] as OFF there. *)
Definition reads_off (W : world) (t : thread) (m : machine) : bool :=
  match off_test W t m with
  | Some (_, _, m') => fst (do_call W read_output_state m') =? OUTPUT_OFF
  | None => false
  end.

(** What the off loop does: sleep and read the two shared flags. *)
Definition poll_call (c : call) : bool :=
  match c with
  | usleep _ | read_output_state | read_running => true
  | _ => false
  end.

(** ** Further sample worlds and machines *)

(** A device that grants everything but a buffer given as a size. *)
Definition time_only_world : world :=
  world_of (fun _ c =>
    match c with snd_pcm_hw_params_set_buffer_size_near _ => -22 | _ => 0 end).

(** An open session in memory-mapped mode. *)
Definition mmap_machine : machine :=
  with_alsa (set_mmap true) writer_machine.

(** The output thread in the off loop with a probe of the device pending, as
    when it is started with the player off. *)
Definition idle_probing_thread : thread := mk_thread OffTest true true true.

(** * Properties *)

(** ** The model on sample inputs *)

Example bracket_samples :
  (bracket 65536, bracket 2049, bracket 2048, bracket 1, bracket 65537) = (1, 60, 62, 100, 0).
Proof. vm_compute. reflexivity. Qed.

Example curve_gain_samples :
  map (fun left => table_read gscalenew (bracket left - 1)) [65536; 61953; 61952; 17; 16; 1]
  = [Some 65536; Some 65536; Some 58409; Some 0; Some 0; Some 0].
Proof. vm_compute. reflexivity. Qed.

Example retry_calls :
  map fst (rev (log (snd (alsa_open raw_refusing_world "hw:0,0" 44100 40 4 curve_machine))))
  = [ snd_pcm_open "hw:0,0"; snd_pcm_hw_params_any;
      snd_pcm_hw_params_set_rate_resample false; snd_pcm_hw_params_set_rate 44100;
      snd_pcm_close; snd_pcm_open "plughw:0,0"; snd_pcm_hw_params_any;
      snd_pcm_hw_params_set_rate_resample true; snd_pcm_hw_params_set_rate 44100;
      snd_pcm_hw_params_set_access false;
      snd_pcm_hw_params_set_format SND_PCM_FORMAT_S32_LE;
      snd_pcm_hw_params_set_channels 2; snd_pcm_hw_params_set_periods_near 4;
      snd_pcm_hw_params_set_buffer_time_near 40000;
      snd_pcm_hw_params_get_period_size; snd_pcm_hw_params_get_buffer_size;
      snd_pcm_hw_params ].
Proof. vm_compute. reflexivity. Qed.

Example switch_off_calls :
  map fst (rev (log (snd (steps off_world 2 (step off_world (running_thread, writer_machine))))))
  = [ snd_pcm_state; snd_pcm_avail_update; read_output_state; snd_pcm_close; vis_stop;
      read_running; prctl_set_name; usleep 100000; read_output_state; read_running ].
Proof. vm_compute. reflexivity. Qed.

Example mute_on_mixer :
  dB_commands (log (machine_of (set_volume quiet_world 0 0 (mixer_machine true)))) = [-10200].
Proof. vm_compute. reflexivity. Qed.

(** ** The bracket search and the tables *)

Lemma bracket_loop_found (tbl : list Z) : forall i left d,
  Exists (fun g => g < left) tbl ->
  i <= bracket_loop tbl i left d < i + Z.of_nat (List.length tbl).
Proof.
  induction tbl as [|g rest IH]; intros i left d Hex.
  - inversion Hex.
  - cbn [bracket_loop List.length]. destruct (g <? left) eqn:Hg.
    + lia.
    + apply Z.ltb_ge in Hg. inversion Hex as [? ? Hhd|? ? Htl]; subst; [lia|].
      specialize (IH (i + 1) left d Htl). lia.
Qed.

Lemma bracket_loop_antitone (tbl : list Z) : forall i l1 l2 d,
  l1 <= l2 -> Exists (fun g => g < l1) tbl ->
  bracket_loop tbl i l2 d <= bracket_loop tbl i l1 d.
Proof.
  induction tbl as [|g rest IH]; intros i l1 l2 d Hle Hex.
  - inversion Hex.
  - cbn [bracket_loop]. destruct (g <? l1) eqn:H1.
    + apply Z.ltb_lt in H1. assert (H2 : (g <? l2) = true) by (apply Z.ltb_lt; lia).
      rewrite H2. lia.
    + apply Z.ltb_ge in H1.
      inversion Hex as [? ? Hhd|? ? Htl]; subst; [lia|].
      destruct (g <? l2) eqn:H2.
      * pose proof (bracket_loop_found rest (i + 1) l1 d Htl). lia.
      * apply IH; assumption.
Qed.

Lemma gscale_has_zero : In 0 (tl gscale).
Proof.
  assert (H : existsb (Z.eqb 0) (tl gscale) = true) by (vm_compute; reflexivity).
  apply existsb_exists in H. destruct H as [x [Hin Hx]].
  apply Z.eqb_eq in Hx. subst x. exact Hin.
Qed.

Lemma bracket_above_max (left : Z) : 65536 < left -> bracket left = 0.
Proof.
  intros H. unfold bracket, gscale. cbn [bracket_loop].
  apply Z.ltb_lt in H. rewrite H. reflexivity.
Qed.

Lemma bracket_in_range (left : Z) : 1 <= left <= 65536 -> 1 <= bracket left <= 100.
Proof.
  intros H. unfold bracket.
  change gscale with (65536 :: tl gscale). cbn [bracket_loop].
  assert (Hh : (65536 <? left) = false) by (apply Z.ltb_ge; lia).
  rewrite Hh.
  assert (Hex : Exists (fun g => g < left) (tl gscale)).
  { apply Exists_exists. exists 0. split; [apply gscale_has_zero | lia]. }
  pose proof (bracket_loop_found (tl gscale) (0 + 1) left 0 Hex) as Hb.
  change (Z.of_nat (List.length (tl gscale))) with 100 in Hb. lia.
Qed.

Lemma bracket_antitone (l1 l2 : Z) : 1 <= l1 -> l1 <= l2 -> bracket l2 <= bracket l1.
Proof.
  intros H1 H2. unfold bracket. apply bracket_loop_antitone; [assumption|].
  apply Exists_exists. exists 0. split; [|lia].
  change gscale with (65536 :: tl gscale). right. apply gscale_has_zero.
Qed.

Lemma table_read_inside (tbl : list Z) (i : Z) :
  0 <= i < Z.of_nat (List.length tbl) -> exists g, table_read tbl i = Some g /\ In g tbl.
Proof.
  intros H. unfold table_read.
  assert (Hi : (i <? 0) = false) by (apply Z.ltb_ge; lia). rewrite Hi.
  destruct (nth_error tbl (Z.to_nat i)) as [g|] eqn:Hn.
  - exists g. split; [reflexivity|]. eapply nth_error_In; eassumption.
  - apply nth_error_None in Hn. lia.
Qed.

Lemma nonincreasing_nth (l : list Z) : nonincreasing l = true ->
  forall i j a b, (i <= j)%nat -> nth_error l i = Some a -> nth_error l j = Some b -> b <= a.
Proof.
  induction l as [|x rest IH]; intros Hs i j a b Hij Ha Hb.
  - destruct i; discriminate.
  - assert (Hrest : nonincreasing rest = true).
    { cbn [nonincreasing] in Hs. destruct rest; [reflexivity|].
      apply andb_true_iff in Hs. tauto. }
    assert (Hhead : forall k c, nth_error rest k = Some c -> c <= x).
    { clear i j a b Hij Ha Hb. revert x Hs. clear IH. induction rest as [|y r IHr]; intros x Hs k c Hk.
      - destruct k; discriminate.
      - cbn [nonincreasing] in Hs. apply andb_true_iff in Hs. destruct Hs as [Hyx Hr0].
        apply Z.leb_le in Hyx. destruct k as [|k]; cbn in Hk.
        + inversion Hk; subst. lia.
        + assert (Hr1 : nonincreasing r = true).
          { cbn [nonincreasing] in Hrest. destruct r; [reflexivity|].
            apply andb_true_iff in Hrest. tauto. }
          specialize (IHr Hr1 y Hr0 k c Hk). lia. }
    destruct i as [|i], j as [|j]; cbn in Ha, Hb.
    + inversion Ha; inversion Hb; subst. lia.
    + inversion Ha; subst. eapply Hhead; eassumption.
    + lia.
    + apply (IH Hrest i j a b); [lia | assumption | assumption].
Qed.

Lemma table_read_antitone (tbl : list Z) (i j a b : Z) :
  nonincreasing tbl = true -> i <= j ->
  table_read tbl i = Some a -> table_read tbl j = Some b -> b <= a.
Proof.
  unfold table_read. intros Hs Hij Ha Hb.
  destruct (i <? 0) eqn:Hi; [discriminate|]. destruct (j <? 0) eqn:Hj; [discriminate|].
  apply Z.ltb_ge in Hi. apply Z.ltb_ge in Hj.
  eapply (nonincreasing_nth tbl Hs (Z.to_nat i) (Z.to_nat j)); try eassumption. lia.
Qed.

Lemma gscalenew_nonincreasing : nonincreasing gscalenew = true.
Proof. vm_compute. reflexivity. Qed.

Lemma curve_gain_in_range (W : world) (m : machine) (left right : Z) :
  volume_mixer_name (alsa m) = None -> linear_dB_internal (alsa m) = true ->
  1 <= left <= 65536 ->
  exists g, table_read gscalenew (bracket left - 1) = Some g /\ In g gscalenew /\
            set_volume W left right m = Done (store_gain g g m).
Proof.
  intros Hname Hcurve Hleft.
  pose proof (bracket_in_range left Hleft) as Hb.
  destruct (table_read_inside gscalenew (bracket left - 1)) as [g [Hg Hin]].
  { change (Z.of_nat (List.length gscalenew)) with 101. lia. }
  exists g. repeat split; try assumption.
  unfold set_volume. rewrite Hname, Hcurve.
  assert (Hpos : (0 <? left) = true) by (apply Z.ltb_lt; lia).
  rewrite Hpos. cbv zeta. rewrite Hg. reflexivity.
Qed.

Lemma curve_gain_above_max (W : world) (m : machine) (left right : Z) :
  volume_mixer_name (alsa m) = None -> linear_dB_internal (alsa m) = true ->
  65536 < left -> set_volume W left right m = OutOfBounds (-1) m.
Proof.
  intros Hname Hcurve Hleft. unfold set_volume. rewrite Hname, Hcurve.
  assert (Hpos : (0 <? left) = true) by (apply Z.ltb_lt; lia).
  rewrite Hpos. cbv zeta. rewrite (bracket_above_max left Hleft). reflexivity.
Qed.

Lemma mixer_search_above_max (W : world) (m : machine) (left right : Z) (name : string) :
  volume_mixer_name (alsa m) = Some name -> mixer_linear (alsa m) = true ->
  65536 < left ->
  set_volume W left right m = OutOfBounds (-1) (store_gain FIXED_ONE FIXED_ONE m).
Proof.
  intros Hname Hlin Hleft. unfold set_volume. rewrite Hname. cbv zeta.
  change (alsa (store_gain FIXED_ONE FIXED_ONE m)) with (alsa m). rewrite Hlin.
  assert (Hpos : (0 <? left) = true) by (apply Z.ltb_lt; lia).
  cbn [negb]. rewrite Hpos. rewrite (bracket_above_max left Hleft). reflexivity.
Qed.

(** Claim C1, which the code breaks.  For every left input above the table
    maximum 65536 the search loop of [set_volume] stops at index 0, and the
    read that follows is at index -1, one entry before the table:
    [gscalenew[-1]] on the software curve path, [gscale[-1]] on the hardware
    linear path (after the unity gain has been stored).  The search does not
    fall back to the first bracket, and the read is outside the 101 entries. *)
Theorem set_volume_above_table_maximum (W : world) (m : machine) (left right : Z) :
  65536 < left ->
  (volume_mixer_name (alsa m) = None -> linear_dB_internal (alsa m) = true ->
   set_volume W left right m = OutOfBounds (-1) m) /\
  (volume_mixer_name (alsa m) <> None -> mixer_linear (alsa m) = true ->
   set_volume W left right m = OutOfBounds (-1) (store_gain FIXED_ONE FIXED_ONE m)).
Proof.
  intros Hleft. split.
  - intros Hname Hcurve. apply curve_gain_above_max; assumption.
  - intros Hname Hlin. destruct (volume_mixer_name (alsa m)) as [name|] eqn:Hn.
    + apply (mixer_search_above_max W m left right name); assumption.
    + congruence.
Qed.

(** The case [left = 65537] of the theorem above, on both table paths. *)
Lemma set_volume_above_table_maximum_witness :
  65536 < 65537 /\
  set_volume quiet_world 65537 65537 curve_machine = OutOfBounds (-1) curve_machine /\
  set_volume quiet_world 65537 65537 (mixer_machine true)
    = OutOfBounds (-1) (store_gain FIXED_ONE FIXED_ONE (mixer_machine true)).
Proof.
  split; [lia|].
  destruct (set_volume_above_table_maximum quiet_world curve_machine 65537 65537) as [H1 _];
    [lia|].
  destruct (set_volume_above_table_maximum quiet_world (mixer_machine true) 65537 65537)
    as [_ H2]; [lia|].
  split.
  - apply H1; reflexivity.
  - apply H2; [discriminate | reflexivity].
Defined.

(** Claim C4.  In curve-corrected software-gain mode, for left inputs
    [1 <= left1 <= left2 <= 65536], [set_volume] runs to the end, stores as
    left and right gain one and the same entry of [gscalenew], and the gain
    stored for the smaller input is not above the one stored for the larger:
    the stored gain never goes up as the input goes down. *)
Theorem curve_gain_from_table_and_monotone (W : world) (m : machine)
    (left1 left2 right1 right2 : Z) :
  volume_mixer_name (alsa m) = None -> linear_dB_internal (alsa m) = true ->
  1 <= left1 -> left1 <= left2 -> left2 <= 65536 ->
  exists m1 m2,
    set_volume W left1 right1 m = Done m1 /\
    set_volume W left2 right2 m = Done m2 /\
    In (gainL (output m1)) gscalenew /\ gainR (output m1) = gainL (output m1) /\
    In (gainL (output m2)) gscalenew /\ gainR (output m2) = gainL (output m2) /\
    gainL (output m1) <= gainL (output m2).
Proof.
  intros Hname Hcurve H1 H12 H2.
  destruct (curve_gain_in_range W m left1 right1 Hname Hcurve) as [g1 [Hg1 [Hin1 Hs1]]]; [lia|].
  destruct (curve_gain_in_range W m left2 right2 Hname Hcurve) as [g2 [Hg2 [Hin2 Hs2]]]; [lia|].
  exists (store_gain g1 g1 m), (store_gain g2 g2 m). cbn [store_gain with_output output set_gains gainL gainR].
  repeat split; try assumption.
  apply (table_read_antitone gscalenew (bracket left2 - 1) (bracket left1 - 1));
    try assumption.
  - apply gscalenew_nonincreasing.
  - pose proof (bracket_antitone left1 left2 H1 H12). lia.
Qed.

(** Inputs 2048 and 2049, on both sides of the swapped entries of [gscale]. *)
Lemma curve_gain_from_table_and_monotone_witness :
  exists m1 m2,
    set_volume quiet_world 2048 7 curve_machine = Done m1 /\
    set_volume quiet_world 2049 9 curve_machine = Done m2 /\
    In (gainL (output m1)) gscalenew /\ gainR (output m1) = gainL (output m1) /\
    In (gainL (output m2)) gscalenew /\ gainR (output m2) = gainL (output m2) /\
    gainL (output m1) <= gainL (output m2).
Proof.
  apply (curve_gain_from_table_and_monotone quiet_world curve_machine 2048 2049 7 9);
    [reflexivity | reflexivity | lia | lia | lia].
Defined.

(** Claim C10, which the code breaks above 65536.  In curve-corrected
    software-gain mode with [left > 0] the outcome of [set_volume] does not
    depend on the right argument; up to 65536 both stored gains are one and
    the same entry of [gscalenew]; above 65536 nothing is stored, since the
    table is read at index -1 (the defect of claim C1). *)
Theorem curve_gain_ignores_right (W : world) (m : machine) (left right1 right2 : Z) :
  volume_mixer_name (alsa m) = None -> linear_dB_internal (alsa m) = true ->
  0 < left ->
  set_volume W left right1 m = set_volume W left right2 m /\
  (left <= 65536 ->
   exists g, In g gscalenew /\ set_volume W left right1 m = Done (store_gain g g m)) /\
  (65536 < left -> set_volume W left right1 m = OutOfBounds (-1) m).
Proof.
  intros Hname Hcurve Hleft. split; [|split].
  - unfold set_volume. rewrite Hname, Hcurve. reflexivity.
  - intros Hmax.
    destruct (curve_gain_in_range W m left right1 Hname Hcurve) as [g [_ [Hin Hs]]]; [lia|].
    exists g. split; assumption.
  - intros Hmax. apply curve_gain_above_max; assumption.
Qed.

(** The case [left = 65537]: two right arguments, one outcome, no table entry. *)
Lemma curve_gain_ignores_right_witness :
  set_volume quiet_world 65537 1 curve_machine = set_volume quiet_world 65537 2 curve_machine /\
  set_volume quiet_world 65537 1 curve_machine = OutOfBounds (-1) curve_machine.
Proof.
  destruct (curve_gain_ignores_right quiet_world curve_machine 65537 1 2) as [H1 [_ H3]];
    [reflexivity | reflexivity | lia |].
  split; [exact H1 | apply H3; lia].
Defined.

(** Claim C3 as stated fails: in linear passthrough mode a left input of 0
    with a right input of 5 stores a right gain of 5, not 0. *)
Lemma passthrough_zero_left_keeps_right :
  ~ (forall right m', set_volume quiet_world 0 right passthrough_machine = Done m' ->
       gainL (output m') = 0 /\ gainR (output m') = 0).
Proof.
  intros H. specialize (H 5 _ eq_refl). cbn in H. destruct H as [_ H]. discriminate.
Qed.

(** Claim C3, as amended.  A call of [set_volume] with left input 0 runs to
    the end in every mode.  In the software modes it stores the left gain 0;
    the right gain is 0 in curve-corrected mode and the right input in linear
    passthrough mode; no decibel command is issued.  In both hardware-mixer
    modes it issues exactly one decibel command, with the value
    [100 * (mixer_mindb / 100)]: the queried minimum in whole decibels
    (C division, towards zero). *)
Theorem set_volume_zero (W : world) (m : machine) (right : Z) :
  exists m',
    set_volume W 0 right m = Done m' /\
    match volume_mixer_name (alsa m) with
    | None =>
        gainL (output m') = 0 /\
        gainR (output m') = (if linear_dB_internal (alsa m) then 0 else right) /\
        dB_commands (log m') = dB_commands (log m)
    | Some _ =>
        dB_commands (log m')
          = 100 * Z.quot (mixer_mindb (alsa m)) 100 :: dB_commands (log m)
    end.
Proof.
  unfold set_volume. destruct (volume_mixer_name (alsa m)) as [name|] eqn:Hname.
  - cbv zeta. change (alsa (store_gain FIXED_ONE FIXED_ONE m)) with (alsa m).
    change (0 <? 0) with false.
    destruct (negb (mixer_linear (alsa m))); eexists; (split; [reflexivity|]);
      unfold set_mixer;
      destruct ((Z.quot (mixer_mindb (alsa m)) 100 <? MINVOL_DB)
                || (Z.quot (mixer_mindb (alsa m)) 100 =? SND_CTL_TLV_DB_GAIN_MUTE));
      reflexivity.
  - change (0 <? 0) with false.
    destruct (linear_dB_internal (alsa m)); eexists; (split; [reflexivity|]);
      repeat split; reflexivity.
Qed.

(** Claim C9.  When a volume mixer name is present, every call of
    [set_volume] first writes the unity gain [FIXED_ONE] to the left and the
    right gain, and everything it does after that write is a call on the
    hardware mixer; the gains are still [FIXED_ONE] when the call is over. *)
Theorem mixer_volume_sets_unity_gain_first (W : world) (m : machine)
    (left right : Z) (name : string) :
  volume_mixer_name (alsa m) = Some name ->
  exists later,
    log (machine_of (set_volume W left right m))
      = later ++ (write_gain FIXED_ONE FIXED_ONE, 0) :: log m /\
    Forall (fun e => is_mixer_call (fst e) = true) later /\
    gainL (output (machine_of (set_volume W left right m))) = FIXED_ONE /\
    gainR (output (machine_of (set_volume W left right m))) = FIXED_ONE.
Proof.
  intros Hname. unfold set_volume. rewrite Hname. cbv zeta.
  change (alsa (store_gain FIXED_ONE FIXED_ONE m)) with (alsa m).
  assert (Hmix : forall setmax setmin ldb rdb,
    exists later,
      log (set_mixer W setmax setmin ldb rdb (store_gain FIXED_ONE FIXED_ONE m))
        = later ++ (write_gain FIXED_ONE FIXED_ONE, 0) :: log m /\
      Forall (fun e => is_mixer_call (fst e) = true) later /\
      gainL (output (set_mixer W setmax setmin ldb rdb (store_gain FIXED_ONE FIXED_ONE m)))
        = FIXED_ONE /\
      gainR (output (set_mixer W setmax setmin ldb rdb (store_gain FIXED_ONE FIXED_ONE m)))
        = FIXED_ONE).
  { intros. refine (ex_intro _ [_; _; _; _; _; _] _).
    split; [reflexivity|]. split; [|split; reflexivity].
    repeat constructor. }
  assert (Hstop : exists later,
      log (store_gain FIXED_ONE FIXED_ONE m)
        = later ++ (write_gain FIXED_ONE FIXED_ONE, 0) :: log m /\
      Forall (fun e => is_mixer_call (fst e) = true) later /\
      gainL (output (store_gain FIXED_ONE FIXED_ONE m)) = FIXED_ONE /\
      gainR (output (store_gain FIXED_ONE FIXED_ONE m)) = FIXED_ONE).
  { exists []. repeat split. constructor. }
  destruct (negb (mixer_linear (alsa m))); destruct (0 <? left);
    cbn [machine_of]; try apply Hmix.
  destruct (table_read gscale (bracket left - 1)); cbn [machine_of]; [|exact Hstop].
  destruct (table_read gscale (bracket left)); cbn [machine_of]; [|exact Hstop].
  apply Hmix.
Qed.

(** A call with input 30000 on the mixer "PCM" in decibel-conversion mode. *)
Lemma mixer_volume_sets_unity_gain_first_witness :
  exists later,
    log (machine_of (set_volume quiet_world 30000 30000 (mixer_machine false)))
      = later ++ (write_gain FIXED_ONE FIXED_ONE, 0) :: log (mixer_machine false) /\
    Forall (fun e => is_mixer_call (fst e) = true) later /\
    gainL (output (machine_of (set_volume quiet_world 30000 30000 (mixer_machine false))))
      = FIXED_ONE /\
    gainR (output (machine_of (set_volume quiet_world 30000 30000 (mixer_machine false))))
      = FIXED_ONE.
Proof.
  apply (mixer_volume_sets_unity_gain_first quiet_world (mixer_machine false)
           30000 30000 "PCM"). reflexivity.
Defined.

(** ** Log bookkeeping *)

Lemma emits_only_refl (p : call -> bool) (m : machine) : emits_only p m m.
Proof. exists []. split; [reflexivity | constructor]. Qed.

Lemma emits_only_same (p : call -> bool) (m m' : machine) :
  log m' = log m -> emits_only p m m'.
Proof. intros H. exists []. split; [exact H | constructor]. Qed.

Lemma emits_only_trans (p : call -> bool) (m1 m2 m3 : machine) :
  emits_only p m1 m2 -> emits_only p m2 m3 -> emits_only p m1 m3.
Proof.
  intros [n1 [H1 F1]] [n2 [H2 F2]]. exists (n2 ++ n1). split.
  - rewrite H2, H1. apply app_assoc.
  - apply Forall_app. split; assumption.
Qed.

Lemma emits_only_weaken (p q : call -> bool) (m m' : machine) :
  (forall c, p c = true -> q c = true) -> emits_only p m m' -> emits_only q m m'.
Proof.
  intros Hpq [new [Hl F]]. exists new. split; [exact Hl|].
  eapply Forall_impl; [|exact F]. intros e He. apply Hpq. exact He.
Qed.

Lemma buffer_requests_app (a b : list event) :
  buffer_requests (a ++ b) = buffer_requests a ++ buffer_requests b.
Proof. unfold buffer_requests. rewrite map_app, filter_app. reflexivity. Qed.

Lemma buffer_requests_none (l : list event) :
  Forall (fun e => negb (is_buffer_request (fst e)) = true) l -> buffer_requests l = [].
Proof.
  unfold buffer_requests. induction 1 as [|e l He _ IH]; [reflexivity|].
  cbn [map filter]. apply negb_true_iff in He. rewrite He. exact IH.
Qed.

Lemma emits_cons (p : call -> bool) (e : event) (base l : list event) :
  p (fst e) = true ->
  (exists new, l = new ++ base /\ Forall (fun e => p (fst e) = true) new) ->
  exists new, e :: l = new ++ base /\ Forall (fun e => p (fst e) = true) new.
Proof.
  intros Hp [new [Hl F]]. exists (e :: new). split.
  - rewrite Hl. reflexivity.
  - constructor; assumption.
Qed.

Lemma emits_nil (p : call -> bool) (base : list event) :
  exists new, base = new ++ base /\ Forall (fun e => p (fst e) = true) new.
Proof. exists []. split; [reflexivity | constructor]. Qed.

(** Closes [emits_only p m m'] once [log m'] is an explicit extension of [log m]. *)
Ltac emits_explicit :=
  unfold emits_only;
  cbn [log record with_alsa with_output set_pcmp set_recover_count snd fst];
  repeat (apply emits_cons; [reflexivity|]);
  apply emits_nil.

Ltac split_ifs :=
  repeat match goal with
         | |- context [if ?b then _ else _] => destruct b eqn:?
         end.

Section Stages.

Variable W : world.

Lemma open_prologue_emits (dev : string) (m : machine) :
  emits_only loop_call m (open_prologue W dev m).
Proof.
  unfold open_prologue, strcpy_device, alsa_close, exec, do_call. cbv zeta.
  split_ifs; emits_explicit.
Qed.

Lemma open_loop_emits (rounds : nat) (dev : string) (sr : Z) :
  forall m res m', open_loop W rounds dev sr m = Some (res, m') ->
                   emits_only loop_call m m'.
Proof.
  induction rounds as [|rounds IH]; intros m res m' H; [discriminate|].
  cbn [open_loop] in H. unfold do_call, exec in H. cbv zeta in H.
  cbn [fst snd] in H.
  repeat match type of H with
         | context [if ?b then _ else _] => destruct b eqn:?
         end;
    try (inversion H; subst; emits_explicit).
  apply IH in H. eapply emits_only_trans; [|exact H]. emits_explicit.
Qed.

Lemma negotiate_access_emits (m : machine) :
  emits_only setup_call m (snd (negotiate_access W m)).
Proof. unfold negotiate_access, do_call. split_ifs; emits_explicit. Qed.

Lemma try_formats_emits (l : list snd_pcm_format_t) :
  forall m, emits_only setup_call m (snd (try_formats W l m)).
Proof.
  induction l as [|f rest IH]; intros m; cbn [try_formats].
  - apply emits_only_refl.
  - unfold do_call. cbv zeta. split_ifs.
    + emits_explicit.
    + eapply emits_only_trans; [|apply IH]. emits_explicit.
Qed.

Lemma negotiate_format_emits (m : machine) :
  emits_only setup_call m (snd (negotiate_format W m)).
Proof.
  unfold negotiate_format. destruct (format (alsa m)).
  - unfold do_call. split_ifs; emits_explicit.
  - apply try_formats_emits.
Qed.

Lemma negotiate_period_emits (ap : Z) (m : machine) :
  emits_only setup_call m (snd (negotiate_period W ap m)).
Proof. unfold negotiate_period, do_call. split_ifs; emits_explicit. Qed.

Lemma finish_open_emits (sr : Z) (m : machine) :
  emits_only setup_call m (snd (finish_open W sr m)).
Proof. unfold finish_open, do_call_out, do_call. split_ifs; emits_explicit. Qed.

Lemma negotiate_buffer_log (ab : Z) (m : machine) :
  exists r, log (snd (negotiate_buffer W ab m)) = (expected_request ab, r) :: log m.
Proof.
  unfold negotiate_buffer, expected_request, do_call.
  destruct (ab <? 500); split_ifs; eexists; reflexivity.
Qed.

End Stages.

(** ** Buffer negotiation *)

Section Buffer.

Variable W : world.

Lemma quiet_of_setup (m m' : machine) :
  emits_only setup_call m m' ->
  exists new, log m' = new ++ log m /\ buffer_requests new = [].
Proof.
  intros [new [Hl F]]. exists new. split; [exact Hl|].
  apply buffer_requests_none. eapply Forall_impl; [|exact F].
  intros [c r] Hc. cbn [fst] in *. destruct c; try discriminate; reflexivity.
Qed.

Lemma quiet_of_loop (m m' : machine) :
  emits_only loop_call m m' ->
  exists new, log m' = new ++ log m /\ buffer_requests new = [].
Proof.
  intros [new [Hl F]]. exists new. split; [exact Hl|].
  apply buffer_requests_none. eapply Forall_impl; [|exact F].
  intros [c r] Hc. cbn [fst] in *. destruct c; try discriminate; reflexivity.
Qed.

Lemma requests_trans (m1 m2 m3 : machine) (k1 k2 : list call) :
  (exists new, log m2 = new ++ log m1 /\ buffer_requests new = k1) ->
  (exists new, log m3 = new ++ log m2 /\ buffer_requests new = k2) ->
  exists new, log m3 = new ++ log m1 /\ buffer_requests new = k2 ++ k1.
Proof.
  intros [n1 [H1 B1]] [n2 [H2 B2]]. exists (n2 ++ n1). split.
  - rewrite H2, H1. apply app_assoc.
  - rewrite buffer_requests_app, B1, B2. reflexivity.
Qed.

Lemma negotiate_access_err (m : machine) (err : Z) (m' : machine) :
  negotiate_access W m = (Some err, m') -> err < 0.
Proof.
  unfold negotiate_access, do_call. cbv zeta.
  split_ifs; intros H; inversion H; subst; apply Z.ltb_lt; assumption.
Qed.

Lemma try_formats_err (l : list snd_pcm_format_t) :
  forall m err m', try_formats W l m = (Some err, m') -> err < 0.
Proof.
  induction l as [|f rest IH]; intros m err m'; cbn [try_formats].
  - intros H. inversion H. lia.
  - unfold do_call. cbv zeta. split_ifs; [discriminate | apply IH].
Qed.

Lemma negotiate_format_err (m : machine) (err : Z) (m' : machine) :
  negotiate_format W m = (Some err, m') -> err < 0.
Proof.
  unfold negotiate_format. destruct (format (alsa m)).
  - unfold do_call. cbv zeta. split_ifs; intros H; inversion H. lia.
  - apply try_formats_err.
Qed.

Lemma negotiate_period_err (ap : Z) (m : machine) (err : Z) (m' : machine) :
  negotiate_period W ap m = (Some err, m') -> err < 0.
Proof.
  unfold negotiate_period, do_call. cbv zeta.
  split_ifs; intros H; inversion H; subst; apply Z.ltb_lt; assumption.
Qed.

Lemma negotiate_buffer_err (ab : Z) (m : machine) (err : Z) (m' : machine) :
  negotiate_buffer W ab m = (Some err, m') -> err < 0.
Proof.
  unfold negotiate_buffer, do_call. cbv zeta.
  split_ifs; intros H; inversion H; subst; apply Z.ltb_lt; assumption.
Qed.

Lemma negotiate_buffer_requests (ab : Z) (m : machine) :
  exists new, log (snd (negotiate_buffer W ab m)) = new ++ log m /\
              buffer_requests new = [expected_request ab].
Proof.
  destruct (negotiate_buffer_log W ab m) as [r Hr].
  exists [(expected_request ab, r)]. split; [exact Hr|].
  unfold expected_request. destruct (ab <? 500); reflexivity.
Qed.

Lemma configure_requests (sr ab ap : Z) (m : machine) :
  exists new, log (snd (configure W sr ab ap m)) = new ++ log m /\
    (buffer_requests new = [] \/ buffer_requests new = [expected_request ab]) /\
    (fst (configure W sr ab ap m) = 0 -> buffer_requests new = [expected_request ab]).
Proof.
  unfold configure.
  pose proof (quiet_of_setup _ _ (negotiate_access_emits W m)) as Ha.
  destruct (negotiate_access W m) as [[e|] m1] eqn:Ea; cbn [snd fst] in *.
  { destruct Ha as [new [Hl Hb]]. exists new. repeat split; auto.
    intros ->. apply negotiate_access_err in Ea. lia. }
  pose proof (quiet_of_setup _ _ (negotiate_format_emits W m1)) as Hf.
  destruct (negotiate_format W m1) as [[e|] m2] eqn:Ef; cbn [snd fst] in *.
  { destruct (requests_trans _ _ _ _ _ Ha Hf) as [new [Hl Hb]].
    exists new. repeat split; auto.
    intros ->. apply negotiate_format_err in Ef. lia. }
  pose proof (requests_trans _ _ _ _ _ Ha Hf) as H2. clear Ha Hf.
  destruct (do_call W (snd_pcm_hw_params_set_channels 2)
              (with_output (set_output_format (format (alsa m2))) m2))
    as [ec m3] eqn:Edc.
  assert (H3 : exists new, log m3 = new ++ log m /\ buffer_requests new = []).
  { destruct H2 as [new [Hl Hb]]. unfold do_call in Edc. inversion Edc; subst.
    eexists (_ :: new). split.
    - cbn [log record with_output]. rewrite Hl. reflexivity.
    - exact Hb. }
  clear H2 Edc.
  destruct (ec <? 0) eqn:Ec; cbn [snd fst].
  { destruct H3 as [new [Hl Hb]]. exists new. repeat split; auto.
    intros Hz. rewrite Hz in Ec. discriminate. }
  pose proof (quiet_of_setup _ _ (negotiate_period_emits W ap m3)) as Hp.
  destruct (negotiate_period W ap m3) as [[e|] m4] eqn:Ep; cbn [snd fst] in *.
  { destruct (requests_trans _ _ _ _ _ H3 Hp) as [new [Hl Hb]].
    exists new. repeat split; auto.
    intros ->. apply negotiate_period_err in Ep. lia. }
  pose proof (requests_trans _ _ _ _ _ H3 Hp) as H4. clear H3 Hp.
  pose proof (negotiate_buffer_requests ab m4) as Hb.
  destruct (negotiate_buffer W ab m4) as [[e|] m5] eqn:Eb; cbn [snd fst] in *.
  { destruct (requests_trans _ _ _ _ _ H4 Hb) as [new [Hl Hn]].
    exists new. repeat split; auto. }
  pose proof (requests_trans _ _ _ _ _ H4 Hb) as H5. clear H4 Hb.
  pose proof (quiet_of_setup _ _ (finish_open_emits W sr m5)) as Hfin.
  destruct (requests_trans _ _ _ _ _ H5 Hfin) as [new [Hl Hn]].
  exists new. repeat split; auto.
Qed.

Lemma open_loop_err (rounds : nat) (dev : string) (sr : Z) :
  forall m err m', open_loop W rounds dev sr m = Some (Some err, m') -> err < 0.
Proof.
  induction rounds as [|rounds IH]; intros m err m' H; [discriminate|].
  cbn [open_loop] in H. unfold do_call, exec in H. cbv zeta in H.
  cbn [fst snd] in H.
  repeat match type of H with
         | context [if ?b then _ else _] => destruct b eqn:?
         end;
    try (inversion H; subst; apply Z.ltb_lt; assumption); try discriminate.
  apply IH in H. exact H.
Qed.

Lemma alsa_open_requests (dev : string) (sr ab ap : Z) (m : machine) :
  exists new, log (snd (alsa_open W dev sr ab ap m)) = new ++ log m /\
    (buffer_requests new = [] \/ buffer_requests new = [expected_request ab]) /\
    (fst (alsa_open W dev sr ab ap m) = 0 -> buffer_requests new = [expected_request ab]).
Proof.
  unfold alsa_open. cbv zeta.
  pose proof (quiet_of_loop _ _ (open_prologue_emits W dev m)) as H0.
  set (m0 := open_prologue W dev m) in *. clearbody m0.
  destruct (Z.of_nat (String.length dev) >? MAX_DEVICE_LEN - 4 - 1); cbn [snd fst].
  { destruct H0 as [new [Hl Hb]]. exists new. repeat split; auto. discriminate. }
  destruct (open_loop W 2 dev sr m0) as [[[e|] m1]|] eqn:El; cbn [snd fst].
  - pose proof (quiet_of_loop _ _ (open_loop_emits W _ _ _ _ _ _ El)) as H1.
    destruct (requests_trans _ _ _ _ _ H0 H1) as [new [Hl Hb]].
    exists new. repeat split; auto. intros ->. apply open_loop_err in El. lia.
  - pose proof (quiet_of_loop _ _ (open_loop_emits W _ _ _ _ _ _ El)) as H1.
    pose proof (requests_trans _ _ _ _ _ H0 H1) as H2. cbn [app] in H2.
    destruct (configure_requests sr ab ap m1) as [new [Hl [Hb Hz]]].
    destruct H2 as [new2 [Hl2 Hb2]].
    exists (new ++ new2). split; [rewrite Hl, Hl2; apply app_assoc|].
    rewrite buffer_requests_app, Hb2, app_nil_r. split; assumption.
  - destruct H0 as [new [Hl Hb]]. exists new. repeat split; auto. discriminate.
Qed.

End Buffer.

(** ** The buffer request follows a granted period request *)

Lemma period_granted_app (a b : list event) :
  period_granted (a ++ b) = period_granted a || period_granted b.
Proof. unfold period_granted. apply existsb_app. Qed.

Lemma no_requests_quiet (l : list event) :
  Forall (fun e => no_requests (fst e) = true) l ->
  period_granted l = false /\ buffer_requests l = [].
Proof.
  unfold no_requests, period_granted, buffer_requests.
  induction 1 as [|e l He _ [IH1 IH2]]; [split; reflexivity|].
  apply andb_true_iff in He. destruct He as [Hp Hb].
  apply negb_true_iff in Hp. apply negb_true_iff in Hb.
  cbn [existsb map filter]. rewrite Hp, Hb. cbn [andb orb]. split; assumption.
Qed.

Lemma loop_no_requests (c : call) : loop_call c = true -> no_requests c = true.
Proof. destruct c; try discriminate; reflexivity. Qed.

Section Granted.

Variable W : world.

Lemma added_quiet (m m' : machine) :
  emits_only no_requests m m' -> added m m' false [].
Proof.
  intros [new [Hl F]]. exists new. split; [exact Hl|]. apply no_requests_quiet. exact F.
Qed.

Lemma added_trans (m1 m2 m3 : machine) (g1 g2 : bool) (b1 b2 : list call) :
  added m1 m2 g1 b1 -> added m2 m3 g2 b2 -> added m1 m3 (g2 || g1) (b2 ++ b1).
Proof.
  intros [n1 [H1 [G1 B1]]] [n2 [H2 [G2 B2]]]. exists (n2 ++ n1). split.
  - rewrite H2, H1. apply app_assoc.
  - rewrite period_granted_app, buffer_requests_app, G1, G2, B1, B2. split; reflexivity.
Qed.

Lemma negotiate_access_no_requests (m : machine) :
  emits_only no_requests m (snd (negotiate_access W m)).
Proof. unfold negotiate_access, do_call. split_ifs; emits_explicit. Qed.

Lemma try_formats_no_requests (l : list snd_pcm_format_t) :
  forall m, emits_only no_requests m (snd (try_formats W l m)).
Proof.
  induction l as [|f rest IH]; intros m; cbn [try_formats].
  - apply emits_only_refl.
  - unfold do_call. cbv zeta. split_ifs.
    + emits_explicit.
    + eapply emits_only_trans; [|apply IH]. emits_explicit.
Qed.

Lemma negotiate_format_no_requests (m : machine) :
  emits_only no_requests m (snd (negotiate_format W m)).
Proof.
  unfold negotiate_format. destruct (format (alsa m)).
  - unfold do_call. split_ifs; emits_explicit.
  - apply try_formats_no_requests.
Qed.

Lemma finish_open_no_requests (sr : Z) (m : machine) :
  emits_only no_requests m (snd (finish_open W sr m)).
Proof. unfold finish_open, do_call_out, do_call. split_ifs; emits_explicit. Qed.

(** The period stage: one request, granted exactly when the stage goes on. *)
Lemma negotiate_period_added (ap : Z) (m : machine) :
  added m (snd (negotiate_period W ap m))
    (match fst (negotiate_period W ap m) with None => true | Some _ => false end) [].
Proof.
  unfold negotiate_period, do_call, added, period_granted, buffer_requests.
  destruct (ap <? 50); cbv zeta;
    match goal with
    | |- context [if ?b then _ else _] => destruct b eqn:E
    end;
    cbn [fst snd log record]; (eexists [_]; split; [reflexivity|]);
    cbn [existsb map filter fst snd is_period_request is_buffer_request andb orb];
    (split; [|reflexivity]);
    rewrite orb_false_r;
    [ apply Z.ltb_lt in E; apply Z.leb_gt; exact E
    | apply Z.ltb_ge in E; apply Z.leb_le; exact E
    | apply Z.ltb_lt in E; apply Z.leb_gt; exact E
    | apply Z.ltb_ge in E; apply Z.leb_le; exact E ].
Qed.

(** The buffer stage: the one request the value selects. *)
Lemma negotiate_buffer_added (ab : Z) (m : machine) :
  added m (snd (negotiate_buffer W ab m)) false [expected_request ab].
Proof.
  destruct (negotiate_buffer_log W ab m) as [r Hr].
  exists [(expected_request ab, r)]. split; [exact Hr|].
  unfold expected_request, period_granted, buffer_requests.
  destruct (ab <? 500); split; reflexivity.
Qed.

Lemma configure_granted (sr ab ap : Z) (m : machine) :
  exists g, added m (snd (configure W sr ab ap m)) g
              (if g then [expected_request ab] else []).
Proof.
  unfold configure.
  pose proof (added_quiet _ _ (negotiate_access_no_requests m)) as Ha.
  destruct (negotiate_access W m) as [[e|] m1]; cbn [snd] in *.
  { exists false. exact Ha. }
  pose proof (added_trans _ _ _ _ _ _ _ Ha
                (added_quiet _ _ (negotiate_format_no_requests m1))) as Hf. clear Ha.
  destruct (negotiate_format W m1) as [[e|] m2]; cbn [snd] in *.
  { exists false. exact Hf. }
  assert (Hc : emits_only no_requests m2
                 (snd (do_call W (snd_pcm_hw_params_set_channels 2)
                         (with_output (set_output_format (format (alsa m2))) m2)))).
  { unfold do_call. emits_explicit. }
  pose proof (added_trans _ _ _ _ _ _ _ Hf (added_quiet _ _ Hc)) as H3. clear Hf Hc.
  destruct (do_call W (snd_pcm_hw_params_set_channels 2)
              (with_output (set_output_format (format (alsa m2))) m2)) as [ec m3].
  cbn [snd] in *. destruct (ec <? 0); cbn [snd].
  { exists false. exact H3. }
  pose proof (added_trans _ _ _ _ _ _ _ H3 (negotiate_period_added ap m3)) as H4. clear H3.
  destruct (negotiate_period W ap m3) as [[e|] m4]; cbn [fst snd] in *.
  { exists false. exact H4. }
  pose proof (added_trans _ _ _ _ _ _ _ H4 (negotiate_buffer_added ab m4)) as H5. clear H4.
  destruct (negotiate_buffer W ab m4) as [[e|] m5]; cbn [snd] in *.
  { exists true. exact H5. }
  exists true.
  exact (added_trans _ _ _ _ _ _ _ H5 (added_quiet _ _ (finish_open_no_requests sr m5))).
Qed.

Lemma alsa_open_granted (dev : string) (sr ab ap : Z) (m : machine) :
  exists new, log (snd (alsa_open W dev sr ab ap m)) = new ++ log m /\
    buffer_requests new = (if period_granted new then [expected_request ab] else []).
Proof.
  assert (H : exists g, added m (snd (alsa_open W dev sr ab ap m)) g
                          (if g then [expected_request ab] else [])).
  { unfold alsa_open. cbv zeta.
    pose proof (added_quiet _ _
                  (emits_only_weaken _ _ _ _ loop_no_requests
                     (open_prologue_emits W dev m))) as H0.
    set (m0 := open_prologue W dev m) in *. clearbody m0.
    destruct (Z.of_nat (String.length dev) >? MAX_DEVICE_LEN - 4 - 1); cbn [snd].
    { exists false. exact H0. }
    destruct (open_loop W 2 dev sr m0) as [[[e|] m1]|] eqn:El; cbn [snd].
    - exists false.
      exact (added_trans _ _ _ _ _ _ _ H0
               (added_quiet _ _ (emits_only_weaken _ _ _ _ loop_no_requests
                                   (open_loop_emits W _ _ _ _ _ _ El)))).
    - pose proof (added_trans _ _ _ _ _ _ _ H0
               (added_quiet _ _ (emits_only_weaken _ _ _ _ loop_no_requests
                                   (open_loop_emits W _ _ _ _ _ _ El)))) as H1.
      destruct (configure_granted sr ab ap m1) as [g Hg]. exists g.
      pose proof (added_trans _ _ _ _ _ _ _ H1 Hg) as H2.
      rewrite orb_false_r, app_nil_r in H2. exact H2.
    - exists false. exact H0. }
  destruct H as [g [new [Hl [Hg Hb]]]]. exists new. split; [exact Hl|].
  rewrite Hg. exact Hb.
Qed.

End Granted.

(** Claim C5.  [alsa_open] asks for a buffer exactly when the period request
    before it was granted, and then once.  For a buffer value below 500 the
    request is a buffer-time request of [value * 1000] microseconds and never
    a buffer-size request; for a value of 500 or more it is a buffer-size
    request of [value] frames and never a buffer-time request.  Whenever
    [alsa_open] returns 0 the request was made. *)
Theorem buffer_value_selects_request (W : world) (dev : string) (sr ab ap : Z)
    (m : machine) :
  exists new, log (snd (alsa_open W dev sr ab ap m)) = new ++ log m /\
    (period_granted new = false -> buffer_requests new = []) /\
    (ab < 500 ->
       (buffer_requests new = [] \/
        buffer_requests new = [snd_pcm_hw_params_set_buffer_time_near (ab * 1000)]) /\
       (period_granted new = true ->
        buffer_requests new = [snd_pcm_hw_params_set_buffer_time_near (ab * 1000)]) /\
       (fst (alsa_open W dev sr ab ap m) = 0 ->
        buffer_requests new = [snd_pcm_hw_params_set_buffer_time_near (ab * 1000)])) /\
    (500 <= ab ->
       (buffer_requests new = [] \/
        buffer_requests new = [snd_pcm_hw_params_set_buffer_size_near ab]) /\
       (period_granted new = true ->
        buffer_requests new = [snd_pcm_hw_params_set_buffer_size_near ab]) /\
       (fst (alsa_open W dev sr ab ap m) = 0 ->
        buffer_requests new = [snd_pcm_hw_params_set_buffer_size_near ab])).
Proof.
  destruct (alsa_open_requests W dev sr ab ap m) as [new [Hl [Hb Hz]]].
  destruct (alsa_open_granted W dev sr ab ap m) as [new' [Hl' Hg]].
  assert (new' = new) by (apply (app_inv_tail (log m)); congruence). subst new'.
  exists new. split; [exact Hl|].
  split; [intros E; rewrite E in Hg; exact Hg|].
  unfold expected_request in *. split; intros Hab.
  - assert (E : (ab <? 500) = true) by (apply Z.ltb_lt; lia). rewrite E in *.
    repeat split; auto. intros G. rewrite G in Hg. exact Hg.
  - assert (E : (ab <? 500) = false) by (apply Z.ltb_ge; lia). rewrite E in *.
    repeat split; auto. intros G. rewrite G in Hg. exact Hg.
Qed.

(** Buffer value 40 on a device that accepts everything: 40000 microseconds.
    Buffer value 4096 on a device that refuses buffer sizes: the refused
    request is a buffer-size request of 4096 frames. *)
Lemma buffer_value_selects_request_witness :
  (exists new,
     log (snd (alsa_open quiet_world "hw:0,0" 44100 40 4 curve_machine)) = new ++ [] /\
     buffer_requests new = [snd_pcm_hw_params_set_buffer_time_near 40000]) /\
  (exists new,
     log (snd (alsa_open time_only_world "hw:0,0" 44100 4096 4 curve_machine))
       = new ++ [] /\
     buffer_requests new = [snd_pcm_hw_params_set_buffer_size_near 4096] /\
     fst (alsa_open time_only_world "hw:0,0" 44100 4096 4 curve_machine) = -22).
Proof.
  split.
  - destruct (buffer_value_selects_request quiet_world "hw:0,0" 44100 40 4 curve_machine)
      as [new [Hl [_ [Hms _]]]].
    exists new. split; [exact Hl|].
    destruct Hms as [_ [_ Hok]]; [lia|]. apply Hok. vm_compute. reflexivity.
  - destruct (buffer_value_selects_request time_only_world "hw:0,0" 44100 4096 4
                curve_machine) as [new [Hl [_ [_ Hsz]]]].
    exists new. split; [exact Hl|].
    destruct Hsz as [_ [Hgr _]]; [lia|]. split; [|reflexivity].
    apply Hgr. rewrite app_nil_r in Hl. rewrite <- Hl. vm_compute. reflexivity.
Defined.

(** ** The retry loop of [alsa_open] *)

Section Retry.

Variable W : world.

Lemma negotiate_buffer_emits (ab : Z) (m : machine) :
  emits_only is_buffer_request m (snd (negotiate_buffer W ab m)).
Proof. unfold negotiate_buffer, do_call. split_ifs; emits_explicit. Qed.





Lemma open_loop_total (rounds : nat) (dev : string) (sr : Z) (m : machine) :
  open_loop W (S (S rounds)) dev sr m = open_loop W 2 dev sr m /\
  open_loop W 2 dev sr m <> None.
Proof.
  cbn [open_loop]. unfold do_call, exec. cbv zeta. cbn [fst snd].
  cbn [alsa record set_pcmp log with_alsa set_device device].
  change (prefix "hw:" ("plug" ++ dev)) with false. cbn [negb].
  rewrite !andb_false_r.
  split_ifs; split; try reflexivity; discriminate.
Qed.

End Retry.



(** ** Write failures *)

Section Writes.

Variable W : world.

(** One call of the write operation in copy-write mode. *)
Lemma write_frames_count (n : Z) (m : machine) :
  mmap (alsa m) = false -> pcmp m = true -> 0 <= recover_count m < 10 ->
  let m' := snd (_write_frames W n m) in
  let k := unrecovered (log m') - unrecovered (log m) in
  mmap (alsa m') = false /\ 0 <= k /\
  ((recover_count m + k < 10 /\ pcmp m' = true /\
    recover_count m' = recover_count m + k) \/
   (recover_count m + k = 10 /\ pcmp m' = false /\ recover_count m' = 0 /\
    exists r, hd_error (log m') = Some (snd_pcm_close, r))).
Proof.
  intros Hmmap Hp Hrc. unfold _write_frames. rewrite Hmmap.
  unfold do_call, alsa_close, exec, do_call. cbv zeta.
  cbn [fst snd log record set_recover_count set_pcmp recover_count alsa pcmp].
  destruct (ret W (log m) (snd_pcm_writei n) <? 0) eqn:Ew.
  - destruct (ret W ((snd_pcm_writei n, ret W (log m) (snd_pcm_writei n)) :: log m)
                (snd_pcm_recover (ret W (log m) (snd_pcm_writei n))) <? 0) eqn:Er.
    + destruct (recover_count m + 1 >=? 10) eqn:Ec;
        cbn [fst snd log record set_recover_count set_pcmp recover_count alsa pcmp
             unrecovered unrecoverable failed_write];
        rewrite ?Er, ?Ew; cbn [andb]; (split; [exact Hmmap|]); (split; [lia|]).
      * right. apply Z.geb_le in Ec. repeat split; try lia. eexists. reflexivity.
      * left. destruct (Z.geb_spec (recover_count m + 1) 10); [discriminate|].
        repeat split; try lia. exact Hp.
    + cbn [fst snd log record set_recover_count set_pcmp recover_count alsa pcmp
           unrecovered unrecoverable failed_write].
      rewrite Er. cbn [andb]. split; [exact Hmmap|]. split; [lia|]. left.
      repeat split; try lia. exact Hp.
  - cbn [fst snd log record set_recover_count set_pcmp recover_count alsa pcmp
         unrecovered unrecoverable failed_write].
    split; [exact Hmmap|]. split; [lia|]. left. repeat split; try lia. exact Hp.
Qed.

(** In mmap mode a write leaves the handle and the failure count alone. *)
Lemma write_frames_mmap (n : Z) (m : machine) :
  mmap (alsa m) = true ->
  mmap (alsa (snd (_write_frames W n m))) = true /\
  pcmp (snd (_write_frames W n m)) = pcmp m /\
  recover_count (snd (_write_frames W n m)) = recover_count m.
Proof.
  intros Hmmap. unfold _write_frames. rewrite Hmmap.
  unfold do_call_out, exec, do_call. cbv zeta.
  split_ifs; cbn [snd alsa pcmp recover_count record]; repeat split; assumption.
Qed.

End Writes.

Lemma copy_write_count (W : world) (reqs : list Z) :
  forall m : machine,
  mmap (alsa m) = false -> pcmp m = true -> 0 <= recover_count m < 10 ->
  let m' := write_all W reqs m in
  let k := unrecovered (log m') - unrecovered (log m) in
  (recover_count m + k < 10 /\ pcmp m' = true /\
   recover_count m' = recover_count m + k) \/
  (recover_count m + k = 10 /\ pcmp m' = false /\ recover_count m' = 0 /\
   needs_open m' = true /\ exists r, hd_error (log m') = Some (snd_pcm_close, r)).
Proof.
  induction reqs as [|n rest IH]; intros m Hmmap Hp Hrc; cbn [write_all]; cbv zeta.
  - left. repeat split; try lia. exact Hp.
  - rewrite Hp.
    destruct (write_frames_count W n m Hmmap Hp Hrc) as [Hm' [Hk [[Hlt [Hp' Hc']]|[Heq [Hp' [Hc' Hhd]]]]]].
    + specialize (IH (snd (_write_frames W n m)) Hm' Hp' ltac:(lia)).
      cbv zeta in IH. rewrite Hc' in IH.
      destruct IH as [[H1 [H2 H3]]|[H1 [H2 [H3 [H4 H5]]]]].
      * left. repeat split; try lia. exact H2.
      * right. repeat split; try lia; assumption.
    + assert (Estop : write_all W rest (snd (_write_frames W n m))
                      = snd (_write_frames W n m)).
      { destruct rest; cbn [write_all]; [reflexivity|]. rewrite Hp'. reflexivity. }
      rewrite Estop. right. repeat split; try assumption.
      unfold needs_open. rewrite Hp'. reflexivity.
Qed.

Lemma mmap_write_keeps_session (W : world) (reqs : list Z) :
  forall m : machine,
  mmap (alsa m) = true -> pcmp m = true ->
  pcmp (write_all W reqs m) = true /\
  recover_count (write_all W reqs m) = recover_count m.
Proof.
  induction reqs as [|n rest IH]; intros m Hmmap Hp; cbn [write_all].
  - split; [exact Hp | reflexivity].
  - rewrite Hp.
    destruct (write_frames_mmap W n m Hmmap) as [H1 [H2 H3]].
    destruct (IH (snd (_write_frames W n m))) as [G1 G2]; [congruence | congruence |].
    split; congruence.
Qed.

(** Claim C2, as amended.  From an open session whose failure count is below
    ten, a run of write calls in copy-write mode closes the session (handle
    NULL, count back to 0, [snd_pcm_close] the last call, and the next
    iteration of the output thread takes the open branch) exactly when the
    running count of writes that failed and could not be recovered reaches
    ten; writes that succeed or are recovered in between do not change the
    count.  In mmap mode no write ever closes the session. *)
Theorem tenth_unrecovered_write_closes_session (W : world) (reqs : list Z)
    (m : machine) :
  pcmp m = true -> 0 <= recover_count m < 10 ->
  let m' := write_all W reqs m in
  let k := unrecovered (log m') - unrecovered (log m) in
  if mmap (alsa m) then
    pcmp m' = true /\ recover_count m' = recover_count m
  else
    (recover_count m + k < 10 /\ pcmp m' = true /\
     recover_count m' = recover_count m + k) \/
    (recover_count m + k = 10 /\ pcmp m' = false /\ recover_count m' = 0 /\
     needs_open m' = true /\ exists r, hd_error (log m') = Some (snd_pcm_close, r)).
Proof.
  intros Hp Hrc. destruct (mmap (alsa m)) eqn:Hmmap; cbv zeta.
  - apply mmap_write_keeps_session; assumption.
  - apply copy_write_count; assumption.
Qed.

(** Eleven writes of 64 frames of which only the tenth succeeds. *)
Lemma tenth_unrecovered_write_closes_session_witness :
  let m' := write_all flaky_world (repeat 64 11) writer_machine in
  let k := unrecovered (log m') - unrecovered (log writer_machine) in
  (recover_count writer_machine + k < 10 /\ pcmp m' = true /\
   recover_count m' = recover_count writer_machine + k) \/
  (recover_count writer_machine + k = 10 /\ pcmp m' = false /\ recover_count m' = 0 /\
   needs_open m' = true /\ exists r, hd_error (log m') = Some (snd_pcm_close, r)).
Proof.
  apply (tenth_unrecovered_write_closes_session flaky_world (repeat 64 11) writer_machine);
    [reflexivity | cbn; lia].
Defined.

(** Claim C2 as stated fails: nine unrecoverable failures, one successful
    write and one more unrecoverable failure close the session, with a
    single failure in a row before the close. *)
Lemma nine_failures_then_success_then_failure_closes :
  ~ (forall (W : world) (reqs : list Z) (m : machine),
       mmap (alsa m) = false -> pcmp m = true -> recover_count m = 0 ->
       pcmp (write_all W reqs m) = false ->
       10 <= trailing_failures (log (write_all W reqs m))).
Proof.
  intros H.
  specialize (H flaky_world (repeat 64 11) writer_machine eq_refl eq_refl eq_refl).
  assert (Hclosed : pcmp (write_all flaky_world (repeat 64 11) writer_machine) = false)
    by (vm_compute; reflexivity).
  specialize (H Hclosed).
  assert (Hrun : trailing_failures (log (write_all flaky_world (repeat 64 11) writer_machine)) = 1)
    by (vm_compute; reflexivity).
  rewrite Hrun in H. lia.
Qed.

(** ** Switching the output off *)

Section Thread.

Variable W : world.

Lemma relays_emits (on : bool) (m : machine) : emits_only not_pcm m (relays W on m).
Proof. unfold relays, exec, do_call. split_ifs; emits_explicit. Qed.

Lemma relays_pcmp (on : bool) (m : machine) : pcmp (relays W on m) = pcmp m.
Proof. unfold relays, exec, do_call. split_ifs; reflexivity. Qed.


(** While the polls read OFF, a step of the idle thread keeps it idle and
    reaches no PCM call. *)
Lemma idle_step (s : thread * machine) :
  idle (pc (fst s)) = true -> output_off (fst s) = true -> pcmp (snd s) = false ->
  still_off W s = true ->
  idle (pc (fst (step W s))) = true /\ output_off (fst (step W s)) = true /\
  pcmp (snd (step W s)) = false /\ emits_only not_pcm (snd s) (snd (step W s)).
Proof.
  destruct s as [t m]. cbn [fst snd]. intros Hidle Hoff Hp Hstill.
  unfold step. destruct (pc t) eqn:Hpc; try discriminate.
  - unfold do_call, exec, do_call. cbv zeta.
    destruct (ret W (log m) read_running =? 0); cbn [fst snd pc set_pc output_off idle];
      repeat split; try assumption; emits_explicit.
  - rewrite Hoff. unfold still_off in Hstill. cbn [fst snd] in Hstill.
    rewrite Hpc in Hstill. unfold do_call, exec, do_call in *. cbv zeta.
    cbn [fst snd log record] in *. rewrite Hstill.
    match goal with |- context [if ?b then _ else _] => destruct b end;
      cbn [fst snd pc set_pc output_off set_output_off idle];
      rewrite ?Hpc; repeat split; try assumption; try reflexivity; emits_explicit.
  - cbn [fst snd]. rewrite Hpc. repeat split; try assumption. apply emits_only_refl.
Qed.

Lemma idle_steps (n : nat) :
  forall s : thread * machine,
  idle (pc (fst s)) = true -> output_off (fst s) = true -> pcmp (snd s) = false ->
  (forall k, (k < n)%nat -> still_off W (steps W k s) = true) ->
  idle (pc (fst (steps W n s))) = true /\ pcmp (snd (steps W n s)) = false /\
  emits_only not_pcm (snd s) (snd (steps W n s)).
Proof.
  induction n as [|n IH]; intros s Hidle Hoff Hp Hstill.
  - cbn [steps]. repeat split; try assumption. apply emits_only_refl.
  - cbn [steps].
    destruct (idle_step s Hidle Hoff Hp (Hstill O ltac:(lia))) as [H1 [H2 [H3 H4]]].
    destruct (IH (step W s) H1 H2 H3) as [G1 [G2 G3]].
    { intros k Hk. apply (Hstill (S k)). lia. }
    repeat split; try assumption. eapply emits_only_trans; eassumption.
Qed.

End Thread.

(** ** Reading OFF at the off test *)

Section OffTest.

Variable W : world.

(** Reading OFF at the off test takes the off branch: the session is closed
    right after the read and the thread turns itself off. *)
Lemma transfer_off (t : thread) (avail : Z) (m : machine) :
  (fst (do_call W read_output_state m) =? OUTPUT_OFF) = true ->
  output_off (fst (transfer W t avail m)) = true /\
  just_disabled (snd (transfer W t avail m)).
Proof.
  intros Hoff. unfold transfer.
  destruct (do_call W read_output_state m) as [st m1] eqn:Ec.
  unfold do_call in Ec. injection Ec as Hst Hm1. cbn [fst] in Hoff.
  rewrite Hoff. cbv zeta. cbn [fst snd]. split; [reflexivity|]. split.
  - rewrite relays_pcmp. reflexivity.
  - destruct (relays_emits W false (exec W vis_stop (set_pcmp false (alsa_close W m1))))
      as [new [Hl Hf]].
    eexists (new ++ [_]), _, (log m). split.
    + rewrite Hl. rewrite <- app_assoc. subst m1. rewrite Hst.
      apply Z.eqb_eq in Hoff. rewrite Hoff. reflexivity.
    + apply Forall_app. split; [exact Hf|]. repeat constructor.
Qed.

(** [off_test] follows the iteration: where it gives a state, the iteration
    goes on from that state with the off test. *)
Lemma off_test_after_avail_reached (t : thread) (avail : Z) (m : machine)
    (t' : thread) (a : Z) (m' : machine) :
  off_test_after_avail t avail m = Some (t', a, m') ->
  wait_or_transfer W t avail m = transfer W t' a m'.
Proof.
  unfold off_test_after_avail, wait_or_transfer. cbv zeta.
  destruct (avail <? period_size (alsa m)); [discriminate|].
  match goal with
  | |- context [if (?x =? 0) then None else _] => destruct (x =? 0)
  end; [discriminate|].
  intros H. injection H as <- <- <-. reflexivity.
Qed.

Lemma off_test_after_state_reached (t : thread) (m : machine)
    (t' : thread) (a : Z) (m' : machine) :
  off_test_after_state W t m = Some (t', a, m') ->
  check_avail W t m = transfer W t' a m'.
Proof.
  unfold off_test_after_state, check_avail.
  destruct (do_call W snd_pcm_avail_update m) as [avail m1].
  destruct (avail <? 0); [discriminate|]. apply off_test_after_avail_reached.
Qed.

Lemma off_test_after_open_reached (t : thread) (m : machine)
    (t' : thread) (a : Z) (m' : machine) :
  off_test_after_open W t m = Some (t', a, m') ->
  check_state W t m = transfer W t' a m'.
Proof.
  unfold off_test_after_open, check_state.
  destruct (do_call W snd_pcm_state m) as [state m1].
  destruct (state =? SND_PCM_STATE_XRUN); [discriminate|].
  destruct (state =? SND_PCM_STATE_SUSPENDED); [apply off_test_after_state_reached|].
  destruct (state =? SND_PCM_STATE_DISCONNECTED); [discriminate|].
  apply off_test_after_state_reached.
Qed.

Lemma off_test_reached (t : thread) (m : machine)
    (t' : thread) (a : Z) (m' : machine) :
  off_test W t m = Some (t', a, m') -> body W t m = transfer W t' a m'.
Proof.
  unfold off_test, body. destruct (needs_open m).
  - destruct (open_device W m) as [opened m1]. destruct opened; [|discriminate].
    apply off_test_after_open_reached.
  - apply off_test_after_open_reached.
Qed.

(** An iteration that reads OFF turns the thread off and closes the session. *)
Lemma body_reads_off (t : thread) (m : machine) :
  reads_off W t m = true ->
  output_off (fst (body W t m)) = true /\ just_disabled (snd (body W t m)).
Proof.
  unfold reads_off. destruct (off_test W t m) as [[[t' a] m']|] eqn:E; [|discriminate].
  intros Hoff. rewrite (off_test_reached _ _ _ _ _ E). apply transfer_off. exact Hoff.
Qed.

End OffTest.

(** Claim C7.  If an iteration of the running output thread gets as far as
    the off test and reads [output.state] as OFF there, then at the end of
    that iteration the thread has turned itself off, the handle is NULL, the
    thread is back at the loop test, [snd_pcm_close] directly follows the
    read of OFF and no PCM call follows the close.  From then on, for as long
    as the polls of the off loop read OFF, the thread stays idle, the handle
    stays NULL and no PCM call is made. *)
Theorem disable_closes_session_and_idles (W : world) (t : thread) (m : machine) :
  pc t = Body -> reads_off W t m = true ->
  pc (fst (step W (t, m))) = LoopTest /\
  output_off (fst (step W (t, m))) = true /\
  pcmp (snd (step W (t, m))) = false /\
  (exists later r before,
     log (snd (step W (t, m)))
       = later ++ (snd_pcm_close, r) :: (read_output_state, OUTPUT_OFF) :: before /\
     Forall (fun e => not_pcm (fst e) = true) later) /\
  forall n : nat,
    (forall k, (k < n)%nat -> still_off W (steps W k (step W (t, m))) = true) ->
    idle (pc (fst (steps W n (step W (t, m))))) = true /\
    pcmp (snd (steps W n (step W (t, m)))) = false /\
    emits_only not_pcm (snd (step W (t, m))) (snd (steps W n (step W (t, m)))).
Proof.
  intros Hpc Hread.
  destruct (body_reads_off W t m Hread) as [Hoff [Hp Hlog]].
  assert (Es : step W (t, m) = (set_pc LoopTest (fst (body W t m)), snd (body W t m))).
  { unfold step. rewrite Hpc. destruct (body W t m); reflexivity. }
  rewrite Es. cbn [fst snd pc set_pc output_off].
  split; [reflexivity|]. split; [exact Hoff|]. split; [exact Hp|]. split; [exact Hlog|].
  intros n Hstill.
  apply (idle_steps W n (set_pc LoopTest (fst (body W t m)), snd (body W t m)));
    try assumption; reflexivity.
Qed.

(** A running session that is switched off, followed by five idle steps, in
    copy-write mode and in memory-mapped mode. *)
Lemma disable_closes_session_and_idles_witness :
  (pc (fst (step off_world (running_thread, writer_machine))) = LoopTest /\
   pcmp (snd (step off_world (running_thread, writer_machine))) = false /\
   idle (pc (fst (steps off_world 5 (step off_world (running_thread, writer_machine)))))
     = true /\
   pcmp (snd (steps off_world 5 (step off_world (running_thread, writer_machine))))
     = false) /\
  (output_off (fst (step off_world (running_thread, mmap_machine))) = true /\
   pcmp (snd (step off_world (running_thread, mmap_machine))) = false /\
   pcmp (snd (steps off_world 5 (step off_world (running_thread, mmap_machine))))
     = false).
Proof.
  split.
  - destruct (disable_closes_session_and_idles off_world running_thread writer_machine)
      as [H1 [_ [H2 [_ H4]]]]; try reflexivity.
    destruct (H4 5%nat) as [H5 [H6 _]].
    + intros k Hk.
      destruct k as [|[|[|[|[|k]]]]]; try reflexivity. lia.
    + repeat split; assumption.
  - destruct (disable_closes_session_and_idles off_world running_thread mmap_machine)
      as [_ [H1 [H2 [_ H4]]]]; try reflexivity.
    destruct (H4 5%nat) as [_ [H6 _]].
    + intros k Hk.
      destruct k as [|[|[|[|[|k]]]]]; try reflexivity. lia.
    + repeat split; assumption.
Defined.

(** ** Mixer initialisation *)

Section Software.

Variable W : world.

Lemma software_volume_step (left right : Z) (m : machine) :
  volume_mixer_name (alsa m) = None ->
  volume_mixer_name (alsa (machine_of (set_volume W left right m))) = None /\
  emits_only not_mixer m (machine_of (set_volume W left right m)).
Proof.
  intros Hname. unfold set_volume. rewrite Hname.
  destruct (linear_dB_internal (alsa m)); [destruct (0 <? left);
    [destruct (table_read gscalenew (bracket left - 1))|]|];
    cbn [machine_of store_gain with_output alsa]; (split; [exact Hname|]);
    try apply emits_only_refl; emits_explicit.
Qed.

Lemma software_volume_steps (msgs : list (Z * Z)) :
  forall m : machine,
  volume_mixer_name (alsa m) = None ->
  volume_mixer_name (alsa (machine_of (set_volumes W msgs m))) = None /\
  emits_only not_mixer m (machine_of (set_volumes W msgs m)).
Proof.
  induction msgs as [|[l r] rest IH]; intros m Hname; cbn [set_volumes].
  - split; [exact Hname | apply emits_only_refl].
  - destruct (software_volume_step l r m Hname) as [Hn He].
    destruct (set_volume W l r m) as [m1|i m1]; cbn [machine_of] in *.
    + destruct (IH m1 Hn) as [Hn' He']. split; [exact Hn'|].
      eapply emits_only_trans; eassumption.
    + split; assumption.
Qed.

End Software.

(** Claim C8.  If a volume mixer is configured and [mixer_init_alsa] fails
    during [output_init_alsa], then initialisation still runs to its last
    statement and starts the output thread, the mixer handle and the mixer
    name are cleared, and every later sequence of [set_volume] calls leaves
    the name cleared and makes no call on the hardware mixer. *)
Theorem mixer_failure_reverts_to_software (W : world) (a : init_args) (m : machine)
    (name : string) :
  arg_volume_mixer_name a = Some name ->
  fst (mixer_init_alsa W (mixer_ctl (alsa (init_globals W a m))) name
         (or_default (arg_volume_mixer_index a) 0) (init_globals W a m)) < 0 ->
  volume_mixer_name (alsa (output_init_alsa W a m)) = None /\
  mixer_handle (alsa (output_init_alsa W a m)) = false /\
  (exists r, hd_error (log (output_init_alsa W a m)) = Some (pthread_getschedparam, r)) /\
  In (pthread_create (arg_probe a)) (map fst (firstn 4 (log (output_init_alsa W a m)))) /\
  forall msgs : list (Z * Z),
    volume_mixer_name (alsa (machine_of (set_volumes W msgs (output_init_alsa W a m)))) = None /\
    emits_only not_mixer (output_init_alsa W a m)
      (machine_of (set_volumes W msgs (output_init_alsa W a m))).
Proof.
  intros Hname Hfail.
  assert (Hn : volume_mixer_name (alsa (output_init_alsa W a m)) = None /\
               mixer_handle (alsa (output_init_alsa W a m)) = false /\
               (exists r, hd_error (log (output_init_alsa W a m))
                          = Some (pthread_getschedparam, r)) /\
               In (pthread_create (arg_probe a))
                  (map fst (firstn 4 (log (output_init_alsa W a m))))).
  { unfold output_init_alsa, init_mixer. cbv zeta. rewrite Hname.
    destruct (mixer_init_alsa W (mixer_ctl (alsa (init_globals W a m))) name
                (or_default (arg_volume_mixer_index a) 0) (init_globals W a m))
      as [err m1] eqn:Ei.
    cbn [fst] in Hfail. apply Z.ltb_lt in Hfail. rewrite Hfail.
    cbn [alsa with_alsa volume_mixer_name set_volume_mixer_name].
    unfold exec, do_call. cbn [snd alsa record with_alsa].
    destruct (output_affinity (set_volume_mixer_name None (set_mixer_handle false (alsa m1))));
      cbn [snd alsa record with_alsa log hd_error firstn map fst
           volume_mixer_name mixer_handle set_volume_mixer_name set_mixer_handle];
      repeat split; try (eexists; reflexivity); cbn; tauto. }
  destruct Hn as [H1 [H2 [H3 H4]]]. repeat split; try assumption;
    apply software_volume_steps; exact H1.
Qed.

(** Start with [-V PCM] on a machine where no mixer can be opened. *)
Lemma mixer_failure_reverts_to_software_witness :
  volume_mixer_name (alsa (output_init_alsa mixerless_world sample_args curve_machine)) = None /\
  mixer_handle (alsa (output_init_alsa mixerless_world sample_args curve_machine)) = false.
Proof.
  destruct (mixer_failure_reverts_to_software mixerless_world sample_args curve_machine "PCM")
    as [H1 [H2 _]].
  - reflexivity.
  - vm_compute. reflexivity.
  - split; assumption.
Defined.

(** * Further properties *)

(** ** More on the bracket search *)

Lemma bracket_loop_first (tbl : list Z) : forall i left d,
  Exists (fun g => g < left) tbl ->
  (exists g, nth_error tbl (Z.to_nat (bracket_loop tbl i left d - i)) = Some g /\ g < left) /\
  (forall j g, (j < Z.to_nat (bracket_loop tbl i left d - i))%nat ->
               nth_error tbl j = Some g -> left <= g).
Proof.
  induction tbl as [|x rest IH]; intros i left d Hex.
  - inversion Hex.
  - cbn [bracket_loop]. destruct (x <? left) eqn:Hx.
    + replace (i - i) with 0 by lia. cbn. split.
      * exists x. split; [reflexivity | apply Z.ltb_lt; exact Hx].
      * intros j g Hj. lia.
    + apply Z.ltb_ge in Hx.
      inversion Hex as [? ? Hhd|? ? Htl]; subst; [lia|].
      destruct (IH (i + 1) left d Htl) as [[g [Hg Hlt]] Hbefore].
      pose proof (bracket_loop_found rest (i + 1) left d Htl) as Hr.
      replace (Z.to_nat (bracket_loop rest (i + 1) left d - i))
        with (S (Z.to_nat (bracket_loop rest (i + 1) left d - (i + 1)))) by lia.
      split.
      * exists g. split; [exact Hg | exact Hlt].
      * intros j h Hj Hn. destruct j as [|j]; cbn in Hn.
        -- inversion Hn; subst. exact Hx.
        -- apply (Hbefore j h); [lia | exact Hn].
Qed.

Lemma gscale_below (left : Z) : 1 <= left -> Exists (fun g => g < left) gscale.
Proof.
  intros H. apply Exists_exists. exists 0. split; [|lia].
  change gscale with (65536 :: tl gscale). right. apply gscale_has_zero.
Qed.

Lemma table_read_nth (tbl : list Z) (i : Z) :
  0 <= i -> table_read tbl i = nth_error tbl (Z.to_nat i).
Proof.
  intros H. unfold table_read.
  destruct (i <? 0) eqn:E; [apply Z.ltb_lt in E; lia | reflexivity].
Qed.

(** The search stops at the first entry of [gscale] below [left]. *)
Lemma bracket_search (left : Z) :
  1 <= left ->
  0 <= bracket left <= 100 /\
  (exists g, nth_error gscale (Z.to_nat (bracket left)) = Some g /\ g < left) /\
  (forall j g, (j < Z.to_nat (bracket left))%nat -> nth_error gscale j = Some g -> left <= g).
Proof.
  intros H. pose proof (gscale_below left H) as Hex. unfold bracket.
  pose proof (bracket_loop_found gscale 0 left 0 Hex) as Hr.
  change (Z.of_nat (List.length gscale)) with 101 in Hr.
  destruct (bracket_loop_first gscale 0 left 0 Hex) as [Hfound Hbefore].
  rewrite Z.sub_0_r in Hfound, Hbefore.
  split; [lia|]. split; assumption.
Qed.

(** Property X1.  For a left input of at least 1 the search loop of
    [set_volume] ends inside the table, at the first entry of [gscale] that
    lies below the input: the entry at the index found is below [left], and
    every entry before it is at least [left]. *)
Theorem bracket_is_first_entry_below (left : Z) :
  1 <= left ->
  0 <= bracket left <= 100 /\
  (exists g, table_read gscale (bracket left) = Some g /\ g < left) /\
  (forall j g, 0 <= j < bracket left -> table_read gscale j = Some g -> left <= g).
Proof.
  intros H. destruct (bracket_search left H) as [Hr [[g [Hg Hlt]] Hbefore]].
  split; [exact Hr|]. split.
  - exists g. rewrite table_read_nth by lia. split; assumption.
  - intros j h Hj Hread. rewrite table_read_nth in Hread by lia.
    apply (Hbefore (Z.to_nat j) h); [lia | exact Hread].
Qed.

Lemma bracket_is_first_entry_below_witness :
  0 <= bracket 2050 <= 100 /\
  (exists g, table_read gscale (bracket 2050) = Some g /\ g < 2050) /\
  (forall j g, 0 <= j < bracket 2050 -> table_read gscale j = Some g -> 2050 <= g).
Proof. apply (bracket_is_first_entry_below 2050). lia. Defined.

(** ** The range of the corrected curve *)

Lemma curve_gain_monotone (l1 l2 g1 g2 : Z) :
  1 <= l1 -> l1 <= l2 ->
  table_read gscalenew (bracket l1 - 1) = Some g1 ->
  table_read gscalenew (bracket l2 - 1) = Some g2 -> g1 <= g2.
Proof.
  intros H1 H12 Hg1 Hg2.
  apply (table_read_antitone gscalenew (bracket l2 - 1) (bracket l1 - 1));
    try assumption.
  - apply gscalenew_nonincreasing.
  - pose proof (bracket_antitone l1 l2 H1 H12). lia.
Qed.

(** Property X2.  In curve-corrected software-gain mode every left input in
    1..65536 stores one gain in both channels, between 0 and unity.  The gain
    is unity exactly for the inputs above 61952 and it is 0 exactly for the
    inputs up to 1037: the low end of [gscalenew] mutes the output. *)
Theorem curve_gain_range (W : world) (m : machine) (left right : Z) :
  volume_mixer_name (alsa m) = None -> linear_dB_internal (alsa m) = true ->
  1 <= left <= 65536 ->
  exists g,
    set_volume W left right m = Done (store_gain g g m) /\
    0 <= g <= FIXED_ONE /\
    (g = FIXED_ONE <-> 61952 < left) /\
    (g = 0 <-> left <= 1037).
Proof.
  intros Hname Hcurve Hleft.
  destruct (curve_gain_in_range W m left right Hname Hcurve Hleft) as [g [Hg [_ Hs]]].
  exists g. split; [exact Hs|].
  assert (K1 : table_read gscalenew (bracket 1 - 1) = Some 0) by (vm_compute; reflexivity).
  assert (K2 : table_read gscalenew (bracket 1037 - 1) = Some 0) by (vm_compute; reflexivity).
  assert (K3 : table_read gscalenew (bracket 1038 - 1) = Some 16) by (vm_compute; reflexivity).
  assert (K4 : table_read gscalenew (bracket 61952 - 1) = Some 58409)
    by (vm_compute; reflexivity).
  assert (K5 : table_read gscalenew (bracket 61953 - 1) = Some 65536)
    by (vm_compute; reflexivity).
  assert (K6 : table_read gscalenew (bracket 65536 - 1) = Some 65536)
    by (vm_compute; reflexivity).
  assert (Hlo : 0 <= g) by (apply (curve_gain_monotone 1 left 0 g); try assumption; lia).
  assert (Hhi : g <= 65536)
    by (apply (curve_gain_monotone left 65536 g 65536); try assumption; lia).
  unfold FIXED_ONE. split; [lia|]. split; split; intros H.
  - destruct (Z_lt_le_dec 61952 left) as [|Hle]; [assumption|].
    assert (g <= 58409)
      by (apply (curve_gain_monotone left 61952 g 58409); try assumption; lia).
    lia.
  - assert (65536 <= g)
      by (apply (curve_gain_monotone 61953 left 65536 g); try assumption; lia).
    lia.
  - destruct (Z_le_gt_dec left 1037) as [|Hgt]; [assumption|].
    assert (16 <= g)
      by (apply (curve_gain_monotone 1038 left 16 g); try assumption; lia).
    lia.
  - assert (g <= 0)
      by (apply (curve_gain_monotone left 1037 g 0); try assumption; lia).
    lia.
Qed.

Lemma curve_gain_range_witness :
  exists g,
    set_volume quiet_world 1037 1037 curve_machine = Done (store_gain g g curve_machine) /\
    0 <= g <= FIXED_ONE /\
    (g = FIXED_ONE <-> 61952 < 1037) /\
    (g = 0 <-> 1037 <= 1037).
Proof.
  apply (curve_gain_range quiet_world curve_machine 1037 1037);
    [reflexivity | reflexivity | lia].
Defined.

(** ** The level sent to the mixer in linear mode *)

(** Property X3.  In hardware linear mode, for a left input in 1..65536,
    [set_volume] compares the two entries of [gscale] that bracket the input
    and picks an index k whose entry is at least as near to the input as the
    other one.  It stores unity gain in both channels, which is what
    [output.gainL] and [output.gainR] hold at the end, and commands the mixer
    once: to -k dB, in hundredths of a dB, or, when k is above 72, to the
    minimum of the mixer in whole decibels. *)
Theorem mixer_level_is_nearest_bracket_end (W : world) (m : machine)
    (left right : Z) (name : string) :
  volume_mixer_name (alsa m) = Some name -> mixer_linear (alsa m) = true ->
  1 <= left <= 65536 ->
  exists k g m',
    (k = bracket left \/ k = bracket left - 1) /\
    0 <= k <= 100 /\
    table_read gscale k = Some g /\
    (forall j h, j = bracket left \/ j = bracket left - 1 ->
                 table_read gscale j = Some h -> Z.abs (g - left) <= Z.abs (h - left)) /\
    set_volume W left right m = Done m' /\
    gainL (output m') = FIXED_ONE /\ gainR (output m') = FIXED_ONE /\
    dB_commands (log m')
      = 100 * (if 72 <? k then Z.quot (mixer_mindb (alsa m)) 100 else - k)
        :: dB_commands (log m).
Proof.
  intros Hname Hlin Hleft.
  assert (Hgain : forall l,
    gainL (output (set_mixer W false false l l (store_gain FIXED_ONE FIXED_ONE m)))
      = FIXED_ONE /\
    gainR (output (set_mixer W false false l l (store_gain FIXED_ONE FIXED_ONE m)))
      = FIXED_ONE).
  { intros l. unfold set_mixer. cbv zeta.
    repeat match goal with
           | |- context [exec ?V ?c ?x] =>
               change (output (exec V c x)) with (output x)
           end.
    split; reflexivity. }
  destruct (bracket_search left ltac:(lia)) as [Hr [[below [Hb Hlt]] Hbefore]].
  rewrite <- table_read_nth in Hb by lia.
  pose proof (bracket_in_range left Hleft) as Hr1.
  destruct (table_read_inside gscale (bracket left - 1)) as [above [Ha _]].
  { change (Z.of_nat (List.length gscale)) with 101. lia. }
  assert (Hge : left <= above).
  { apply (Hbefore (Z.to_nat (bracket left - 1)) above); [lia|].
    rewrite <- table_read_nth by lia. exact Ha. }
  assert (Hset : forall l, -100 <= l <= 0 ->
    dB_commands (log (set_mixer W false false l l (store_gain FIXED_ONE FIXED_ONE m)))
      = 100 * (if 72 <? - l then Z.quot (mixer_mindb (alsa m)) 100 else l)
        :: dB_commands (log m)).
  { intros l Hl. unfold set_mixer.
    change (alsa (store_gain FIXED_ONE FIXED_ONE m)) with (alsa m).
    assert (E1 : (l =? SND_CTL_TLV_DB_GAIN_MUTE) = false)
      by (apply Z.eqb_neq; unfold SND_CTL_TLV_DB_GAIN_MUTE; lia).
    rewrite E1, orb_false_r. unfold MINVOL_DB.
    destruct (l <? -72) eqn:E2.
    - assert (E3 : (72 <? - l) = true) by (apply Z.ltb_lt; apply Z.ltb_lt in E2; lia).
      rewrite E3. reflexivity.
    - assert (E3 : (72 <? - l) = false) by (apply Z.ltb_ge; apply Z.ltb_ge in E2; lia).
      rewrite E3. reflexivity. }
  assert (Hrun : set_volume W left right m
    = Done (set_mixer W false false
              (if above - left >=? left - below then (-1) * bracket left
               else (-1) * (bracket left - 1))
              (if above - left >=? left - below then (-1) * bracket left
               else (-1) * (bracket left - 1))
              (store_gain FIXED_ONE FIXED_ONE m))).
  { unfold set_volume. rewrite Hname. cbv zeta.
    change (alsa (store_gain FIXED_ONE FIXED_ONE m)) with (alsa m). rewrite Hlin.
    cbn [negb]. assert (Hpos : (0 <? left) = true) by (apply Z.ltb_lt; lia).
    rewrite Hpos, Ha, Hb. reflexivity. }
  destruct (above - left >=? left - below) eqn:Ecmp.
  - eexists (bracket left), below, _. split; [left; reflexivity|].
    split; [lia|]. split; [exact Hb|]. split.
    + intros j h [->| ->] Hh; [rewrite Hb in Hh | rewrite Ha in Hh];
        inversion Hh; subst; [lia|].
      apply Z.geb_le in Ecmp. lia.
    + split; [exact Hrun|]. split; [apply Hgain|]. split; [apply Hgain|].
      rewrite Hset by lia.
      replace (- (-1 * bracket left)) with (bracket left) by lia.
      replace (-1 * bracket left) with (- bracket left) by lia. reflexivity.
  - eexists (bracket left - 1), above, _. split; [right; reflexivity|].
    split; [lia|]. split; [exact Ha|]. split.
    + intros j h [->| ->] Hh; [rewrite Hb in Hh | rewrite Ha in Hh];
        inversion Hh; subst; [|lia].
      destruct (Z.geb_spec (above - left) (left - h)); [discriminate|]. lia.
    + split; [exact Hrun|]. split; [apply Hgain|]. split; [apply Hgain|].
      rewrite Hset by lia.
      replace (- (-1 * (bracket left - 1))) with (bracket left - 1) by lia.
      replace (-1 * (bracket left - 1)) with (- (bracket left - 1)) by lia. reflexivity.
Qed.

Lemma mixer_level_is_nearest_bracket_end_witness :
  exists k g m',
    (k = bracket 30000 \/ k = bracket 30000 - 1) /\
    0 <= k <= 100 /\
    table_read gscale k = Some g /\
    (forall j h, j = bracket 30000 \/ j = bracket 30000 - 1 ->
                 table_read gscale j = Some h ->
                 Z.abs (g - 30000) <= Z.abs (h - 30000)) /\
    set_volume quiet_world 30000 30000 (mixer_machine true) = Done m' /\
    gainL (output m') = FIXED_ONE /\ gainR (output m') = FIXED_ONE /\
    dB_commands (log m')
      = 100 * (if 72 <? k then Z.quot (mixer_mindb (alsa (mixer_machine true))) 100 else - k)
        :: dB_commands (log (mixer_machine true)).
Proof.
  apply (mixer_level_is_nearest_bracket_end quiet_world (mixer_machine true)
           30000 30000 "PCM"); [reflexivity | reflexivity | lia].
Defined.

(** ** The control device of an output device *)

Lemma substring_all (s : string) : substring 0 (String.length s) s = s.
Proof. induction s as [|c s IH]; cbn; [reflexivity | rewrite IH; reflexivity]. Qed.

Lemma cut_last_comma_none (s : string) :
  cut_last_comma s = None <-> ~ In ","%char (list_ascii_of_string s).
Proof.
  induction s as [|c s IH]; cbn [cut_last_comma list_ascii_of_string].
  - split; [intros _ H; inversion H | reflexivity].
  - destruct (cut_last_comma s) as [p|].
    + split; [discriminate|]. intros H. exfalso. apply H. right.
      destruct (in_dec ascii_dec ","%char (list_ascii_of_string s)) as [Hin|Hn];
        [exact Hin|]. apply IH in Hn. discriminate.
    + destruct (Ascii.eqb c ",") eqn:Ec.
      * split; [discriminate|]. intros H. exfalso. apply H. left.
        apply Ascii.eqb_eq in Ec. exact Ec.
      * split; [|reflexivity]. intros _ [Hc|Hin].
        -- apply Ascii.eqb_neq in Ec. congruence.
        -- apply (proj1 IH eq_refl). exact Hin.
Qed.

Lemma cut_last_comma_some (s p : string) :
  cut_last_comma s = Some p ->
  exists rest, s = (p ++ String "," rest)%string /\ cut_last_comma rest = None.
Proof.
  revert p. induction s as [|c s IH]; intros p H; cbn [cut_last_comma] in H.
  - discriminate.
  - destruct (cut_last_comma s) as [q|] eqn:Es.
    + inversion H; subst. destruct (IH q eq_refl) as [rest [Hs Hr]].
      exists rest. split; [|exact Hr]. cbn. rewrite <- Hs. reflexivity.
    + destruct (Ascii.eqb c ",") eqn:Ec; [|discriminate].
      inversion H; subst. apply Ascii.eqb_eq in Ec. subst c.
      exists s. split; [reflexivity | exact Es].
Qed.

(** Property X4.  For a device name that begins with "hw:", [ctl4device]
    gives the same control device for the name and for its "plug" variant.
    The result is the name itself when it has no comma, and otherwise the text
    before its last comma. *)
Theorem ctl4device_cuts_after_last_comma (dev : string) :
  prefix "hw:" dev = true ->
  ctl4device ("plug" ++ dev) = ctl4device dev /\
  ((~ In ","%char (list_ascii_of_string dev) /\ ctl4device dev = dev) \/
   (exists rest, dev = (ctl4device dev ++ String "," rest)%string /\
                 ~ In ","%char (list_ascii_of_string rest))).
Proof.
  intros Hhw.
  assert (E : ctl4device dev = match cut_last_comma dev with Some p => p | None => dev end).
  { unfold ctl4device. rewrite Hhw. reflexivity. }
  split.
  - rewrite E. unfold ctl4device.
    change (prefix "hw:" ("plug" ++ dev)) with false.
    change (prefix "plughw:" ("plug" ++ dev)) with (prefix "hw:" dev). rewrite Hhw.
    change (substring 4 (String.length ("plug" ++ dev) - 4) ("plug" ++ dev))
      with (substring 0 (String.length dev - 0) dev).
    rewrite Nat.sub_0_r, substring_all. reflexivity.
  - rewrite E. destruct (cut_last_comma dev) as [p|] eqn:Ec.
    + right. destruct (cut_last_comma_some dev p Ec) as [rest [Hs Hr]].
      exists rest. split; [exact Hs|]. apply cut_last_comma_none. exact Hr.
    + left. split; [apply cut_last_comma_none; exact Ec | reflexivity].
Qed.

Lemma ctl4device_cuts_after_last_comma_witness :
  ctl4device ("plug" ++ "hw:CARD=x,DEV=0") = ctl4device "hw:CARD=x,DEV=0" /\
  ctl4device "hw:CARD=x,DEV=0" = "hw:CARD=x"%string.
Proof.
  destruct (ctl4device_cuts_after_last_comma "hw:CARD=x,DEV=0" eq_refl) as [H _].
  split; [exact H | reflexivity].
Defined.

(** ** What [alsa_open] changes *)

Lemma same_request_refl (m : machine) : same_request m m.
Proof. unfold same_request. repeat split. Qed.

Lemma same_request_trans (m1 m2 m3 : machine) :
  same_request m1 m2 -> same_request m2 m3 -> same_request m1 m3.
Proof.
  unfold same_request. intros [A1 [A2 [A3 [A4 [A5 A6]]]]] [B1 [B2 [B3 [B4 [B5 B6]]]]].
  repeat split; congruence.
Qed.

Lemma settled_refl (m : machine) : settled m m.
Proof. unfold settled. repeat split; auto. Qed.

Lemma settled_trans (m1 m2 m3 : machine) : settled m1 m2 -> settled m2 m3 -> settled m1 m3.
Proof.
  unfold settled. intros [A1 [A2 [A3 [A4 [A5 A6]]]]] [B1 [B2 [B3 [B4 [B5 B6]]]]].
  split; [congruence|]. split; [congruence|]. split; [congruence|].
  split; [eapply same_request_trans; eassumption|]. split; auto.
Qed.

(** Closes [settled m m'] when [m'] is an explicit update of [m]. *)
Ltac settle :=
  unfold settled, same_request;
  cbn [alsa output pcmp recover_count record with_alsa with_output set_pcmp
       set_mmap set_format set_write_buf set_period_size set_buffer_size set_rate
       set_start_frames set_output_format
       rate device mmap write_buf reopen current_sample_rate output_device buffer period
       fst snd];
  repeat split; auto; try discriminate.

(** An error return after steps that left the session settled. *)
Ltac error_branch S :=
  unfold settled, same_request in S;
  destruct S as [?A1 [?A2 [?A3 [[?Q1 [?Q2 [?Q3 [?Q4 [?Q5 ?Q6]]]]] [?A5 ?A6]]]]];
  unfold same_request;
  repeat split; auto; try lia; try (intros; exfalso; lia).

Section Settled.

Variable W : world.

Lemma negotiate_access_settled (m : machine) : settled m (snd (negotiate_access W m)).
Proof. unfold negotiate_access, do_call. split_ifs; settle. Qed.

Lemma try_formats_settled (l : list snd_pcm_format_t) :
  forall m, settled m (snd (try_formats W l m)).
Proof.
  induction l as [|f rest IH]; intros m; cbn [try_formats].
  - apply settled_refl.
  - unfold do_call. cbv zeta. split_ifs.
    + settle.
    + eapply settled_trans; [|apply IH]. settle.
Qed.

Lemma negotiate_format_settled (m : machine) : settled m (snd (negotiate_format W m)).
Proof.
  unfold negotiate_format. destruct (format (alsa m)).
  - unfold do_call. split_ifs; settle.
  - apply try_formats_settled.
Qed.

Lemma negotiate_period_settled (ap : Z) (m : machine) :
  settled m (snd (negotiate_period W ap m)).
Proof. unfold negotiate_period, do_call. split_ifs; settle. Qed.

Lemma negotiate_buffer_settled (ab : Z) (m : machine) :
  settled m (snd (negotiate_buffer W ab m)).
Proof. unfold negotiate_buffer, do_call. split_ifs; settle. Qed.

(** The last step sets [alsa.rate] exactly when it returns 0, and a session
    in copy-write mode with a format that needs packing then has its
    [write_buf]. *)
Lemma finish_open_outcome (sr : Z) (m : machine) :
  fst (finish_open W sr m) <= 0 /\
  pcmp (snd (finish_open W sr m)) = pcmp m /\
  device (alsa (snd (finish_open W sr m))) = device (alsa m) /\
  format (alsa (snd (finish_open W sr m))) = format (alsa m) /\
  mmap (alsa (snd (finish_open W sr m))) = mmap (alsa m) /\
  same_request m (snd (finish_open W sr m)) /\
  (write_buf (alsa m) = true -> write_buf (alsa (snd (finish_open W sr m))) = true) /\
  (fst (finish_open W sr m) = 0 ->
     rate (alsa (snd (finish_open W sr m))) = sr /\
     (mmap (alsa m) = false -> not_native W (format (alsa m)) = true ->
      write_buf (alsa (snd (finish_open W sr m))) = true)) /\
  (fst (finish_open W sr m) <> 0 ->
     rate (alsa (snd (finish_open W sr m))) = rate (alsa m)).
Proof.
  unfold finish_open, do_call_out, do_call. cbv zeta.
  cbn [alsa with_alsa with_output record mmap write_buf format set_period_size
       set_buffer_size buffer_size].
  destruct (mmap (alsa m)) eqn:Em; destruct (write_buf (alsa m)) eqn:Eb;
    destruct (not_native W (format (alsa m))) eqn:En; cbn [negb andb];
    split_ifs;
    unfold same_request;
    cbn [alsa output pcmp recover_count record with_alsa with_output
         set_write_buf set_period_size set_buffer_size set_rate set_start_frames
         rate device mmap write_buf format reopen current_sample_rate output_device
         buffer period fst snd];
    repeat match goal with
           | H : (?e <? 0) = true |- _ => apply Z.ltb_lt in H
           | H : (?e <? 0) = false |- _ => apply Z.ltb_ge in H
           end;
    repeat split; auto; try lia; try discriminate; try congruence.
Qed.

Lemma open_prologue_outcome (dev : string) (m : machine) :
  Z.of_nat (String.length dev) <= MAX_DEVICE_LEN ->
  pcmp (open_prologue W dev m) = pcmp m /\
  rate (alsa (open_prologue W dev m)) = 0 /\
  device (alsa (open_prologue W dev m)) = dev /\
  format (alsa (open_prologue W dev m)) = format (alsa m) /\
  mmap (alsa (open_prologue W dev m)) = mmap (alsa m) /\
  write_buf (alsa (open_prologue W dev m)) = write_buf (alsa m) /\
  same_request m (open_prologue W dev m).
Proof.
  intros Hfit. unfold open_prologue, strcpy_device. cbv zeta.
  destruct (Z.leb_spec (Z.of_nat (String.length dev)) MAX_DEVICE_LEN) as [_|Hbad];
    [|lia].
  unfold alsa_close, exec, do_call, same_request.
  destruct (pcmp m) eqn:Ep; cbn; rewrite ?Ep; repeat split.
Qed.

Lemma open_loop_outcome (rounds : nat) (dev : string) (sr : Z) :
  forall m res m',
  open_loop W rounds dev sr m = Some (res, m') ->
  rate (alsa m') = rate (alsa m) /\
  format (alsa m') = format (alsa m) /\
  mmap (alsa m') = mmap (alsa m) /\
  write_buf (alsa m') = write_buf (alsa m) /\
  same_request m m' /\
  (device (alsa m') = device (alsa m) \/
   (prefix "hw:" (device (alsa m)) = true /\ device (alsa m') = ("plug" ++ dev)%string)) /\
  (res = None -> pcmp m' = true).
Proof.
  induction rounds as [|rounds IH]; intros m res m' H; [discriminate|].
  cbn [open_loop] in H. unfold do_call, exec in H. cbv zeta in H.
  cbn [fst snd] in H.
  repeat match type of H with
         | context [if ?b then _ else _] => destruct b eqn:?
         end;
    try (inversion H; subst; unfold same_request; cbn; repeat split; auto; discriminate).
  apply IH in H. cbn in H.
  destruct H as [H1 [H2 [H3 [H4 [H5 [H6 H7]]]]]].
  split; [exact H1|]. split; [exact H2|]. split; [exact H3|]. split; [exact H4|].
  split; [exact H5|]. split; [|exact H7].
  destruct H6 as [H6|[H6 _]]; [|discriminate].
  right. split; [|exact H6].
  match goal with
  | E : (_ && prefix "hw:" _) = true |- _ => apply andb_true_iff in E; apply E
  end.
Qed.

Lemma configure_outcome (sr ab ap : Z) (m : machine) :
  fst (configure W sr ab ap m) <= 0 /\
  pcmp (snd (configure W sr ab ap m)) = pcmp m /\
  device (alsa (snd (configure W sr ab ap m))) = device (alsa m) /\
  same_request m (snd (configure W sr ab ap m)) /\
  (mmap (alsa (snd (configure W sr ab ap m))) = true -> mmap (alsa m) = true) /\
  (write_buf (alsa m) = true -> write_buf (alsa (snd (configure W sr ab ap m))) = true) /\
  (fst (configure W sr ab ap m) = 0 ->
     rate (alsa (snd (configure W sr ab ap m))) = sr /\
     (mmap (alsa (snd (configure W sr ab ap m))) = false ->
      not_native W (format (alsa (snd (configure W sr ab ap m)))) = true ->
      write_buf (alsa (snd (configure W sr ab ap m))) = true)) /\
  (fst (configure W sr ab ap m) <> 0 ->
     rate (alsa (snd (configure W sr ab ap m))) = rate (alsa m)).
Proof.
  unfold configure.
  pose proof (negotiate_access_settled m) as Sa.
  pose proof (negotiate_access_err W m) as Ea.
  destruct (negotiate_access W m) as [[e|] m1]; cbn [snd fst] in *.
  { specialize (Ea e m1 eq_refl). error_branch Sa. }
  clear Ea.
  pose proof (negotiate_format_settled m1) as Sf.
  pose proof (negotiate_format_err W m1) as Ef.
  destruct (negotiate_format W m1) as [[e|] m2]; cbn [snd fst] in *.
  { specialize (Ef e m2 eq_refl). pose proof (settled_trans _ _ _ Sa Sf) as S.
    error_branch S. }
  clear Ef. pose proof (settled_trans _ _ _ Sa Sf) as S2. clear Sa Sf.
  destruct (do_call W (snd_pcm_hw_params_set_channels 2)
              (with_output (set_output_format (format (alsa m2))) m2))
    as [ec m3] eqn:Edc.
  assert (S3 : settled m m3).
  { eapply settled_trans; [exact S2|].
    unfold do_call in Edc. inversion Edc; subst. settle. }
  clear S2 Edc.
  destruct (ec <? 0) eqn:Ec; cbn [snd fst].
  { apply Z.ltb_lt in Ec. error_branch S3. }
  pose proof (negotiate_period_settled ap m3) as Sp.
  pose proof (negotiate_period_err W ap m3) as Ep.
  destruct (negotiate_period W ap m3) as [[e|] m4]; cbn [snd fst] in *.
  { specialize (Ep e m4 eq_refl). pose proof (settled_trans _ _ _ S3 Sp) as S.
    error_branch S. }
  clear Ep. pose proof (settled_trans _ _ _ S3 Sp) as S4. clear S3 Sp.
  pose proof (negotiate_buffer_settled ab m4) as Sb.
  pose proof (negotiate_buffer_err W ab m4) as Eb.
  destruct (negotiate_buffer W ab m4) as [[e|] m5]; cbn [snd fst] in *.
  { specialize (Eb e m5 eq_refl). pose proof (settled_trans _ _ _ S4 Sb) as S.
    error_branch S. }
  clear Eb. pose proof (settled_trans _ _ _ S4 Sb) as S5. clear S4 Sb.
  unfold settled in S5. destruct S5 as [A1 [A2 [A3 [A4 [A5 A6]]]]].
  destruct (finish_open_outcome sr m5) as [F1 [F2 [F3 [F4 [F5 [F6 [F7 [F8 F9]]]]]]]].
  split; [exact F1|]. split; [congruence|]. split; [congruence|].
  split; [eapply same_request_trans; eassumption|].
  split; [intros H; apply A5; congruence|].
  split; [auto|]. split.
  - intros Hz. destruct (F8 Hz) as [G1 G2]. split; [exact G1|].
    intros Hm Hn. apply G2; congruence.
  - intros Hz. rewrite (F9 Hz). exact A2.
Qed.

(** Everything the theorems below say about one call of [alsa_open]. *)
Lemma alsa_open_facts (dev : string) (sr ab ap : Z) (m : machine) :
  Z.of_nat (String.length dev) <= MAX_DEVICE_LEN ->
  fst (alsa_open W dev sr ab ap m) <= 0 /\
  same_request m (snd (alsa_open W dev sr ab ap m)) /\
  (mmap (alsa (snd (alsa_open W dev sr ab ap m))) = true -> mmap (alsa m) = true) /\
  (write_buf (alsa m) = true ->
   write_buf (alsa (snd (alsa_open W dev sr ab ap m))) = true) /\
  (fst (alsa_open W dev sr ab ap m) = 0 ->
     pcmp (snd (alsa_open W dev sr ab ap m)) = true /\
     rate (alsa (snd (alsa_open W dev sr ab ap m))) = sr /\
     (device (alsa (snd (alsa_open W dev sr ab ap m))) = dev \/
      (prefix "hw:" dev = true /\
       device (alsa (snd (alsa_open W dev sr ab ap m))) = ("plug" ++ dev)%string)) /\
     (mmap (alsa (snd (alsa_open W dev sr ab ap m))) = false ->
      not_native W (format (alsa (snd (alsa_open W dev sr ab ap m)))) = true ->
      write_buf (alsa (snd (alsa_open W dev sr ab ap m))) = true)) /\
  (fst (alsa_open W dev sr ab ap m) <> 0 ->
     rate (alsa (snd (alsa_open W dev sr ab ap m))) = 0).
Proof.
  intros Hfit. unfold alsa_open. cbv zeta.
  destruct (open_prologue_outcome dev m Hfit) as [P1 [P2 [P3 [P4 [P5 [P6 P7]]]]]].
  set (m0 := open_prologue W dev m) in *. clearbody m0.
  destruct (Z.of_nat (String.length dev) >? MAX_DEVICE_LEN - 4 - 1); cbn [snd fst].
  { repeat split; try lia; try congruence; try apply P7. }
  destruct (open_loop W 2 dev sr m0) as [[[e|] m1]|] eqn:El; cbn [snd fst].
  - pose proof (open_loop_err W _ _ _ _ _ _ El) as He.
    destruct (open_loop_outcome _ _ _ _ _ _ El) as [L1 [L2 [L3 [L4 [L5 [L6 L7]]]]]].
    split; [lia|]. split; [eapply same_request_trans; eassumption|].
    split; [congruence|]. split; [congruence|]. split; [lia|]. intros _. congruence.
  - destruct (open_loop_outcome _ _ _ _ _ _ El) as [L1 [L2 [L3 [L4 [L5 [L6 L7]]]]]].
    destruct (configure_outcome sr ab ap m1) as [C1 [C2 [C3 [C4 [C5 [C6 [C7 C8]]]]]]].
    split; [exact C1|].
    split; [eapply same_request_trans; [exact P7|];
            eapply same_request_trans; eassumption|].
    split; [intros H; apply C5 in H; congruence|].
    split; [intros H; apply C6; congruence|].
    split.
    + intros Hz. destruct (C7 Hz) as [G1 G2].
      split; [rewrite C2; apply L7; reflexivity|]. split; [exact G1|].
      split; [|exact G2]. rewrite C3. rewrite P3 in L6. exact L6.
    + intros Hz. rewrite (C8 Hz). congruence.
  - repeat split; try lia; try congruence; try apply P7.
Qed.

End Settled.

(** Property X5.  Let the device name have at most [MAX_DEVICE_LEN]
    characters, so that it fits [alsa.device].  [alsa_open] returns 0 or a
    negative value.  It leaves the failure count of [_write_frames], the
    request of the output thread (rate, device, buffer, period) and the reopen
    flag as they were.  When it returns 0 the session handle is non-NULL,
    [alsa.rate] is the rate asked for and [alsa.device] is the name given or,
    for an "hw:" name, its "plug" variant.  When it returns anything else
    [alsa.rate] is 0. *)
Theorem alsa_open_sets_rate_iff_success (W : world) (dev : string) (sr ab ap : Z)
    (m : machine) :
  Z.of_nat (String.length dev) <= MAX_DEVICE_LEN ->
  fst (alsa_open W dev sr ab ap m) <= 0 /\
  same_request m (snd (alsa_open W dev sr ab ap m)) /\
  (fst (alsa_open W dev sr ab ap m) = 0 ->
     pcmp (snd (alsa_open W dev sr ab ap m)) = true /\
     rate (alsa (snd (alsa_open W dev sr ab ap m))) = sr /\
     (device (alsa (snd (alsa_open W dev sr ab ap m))) = dev \/
      (prefix "hw:" dev = true /\
       device (alsa (snd (alsa_open W dev sr ab ap m))) = ("plug" ++ dev)%string))) /\
  (fst (alsa_open W dev sr ab ap m) <> 0 ->
     rate (alsa (snd (alsa_open W dev sr ab ap m))) = 0).
Proof.
  intros Hfit.
  destruct (alsa_open_facts W dev sr ab ap m Hfit) as [H1 [H2 [_ [_ [H5 H6]]]]].
  split; [exact H1|]. split; [exact H2|]. split; [|exact H6].
  intros Hz. destruct (H5 Hz) as [G1 [G2 [G3 _]]]. auto.
Qed.

Lemma alsa_open_sets_rate_iff_success_witness :
  pcmp (snd (alsa_open quiet_world "hw:0,0" 44100 40 4 curve_machine)) = true /\
  rate (alsa (snd (alsa_open quiet_world "hw:0,0" 44100 40 4 curve_machine))) = 44100 /\
  rate (alsa (snd (alsa_open busy_world "hw:0,0" 44100 40 4 writer_machine))) = 0.
Proof.
  destruct (alsa_open_sets_rate_iff_success quiet_world "hw:0,0" 44100 40 4 curve_machine)
    as [_ [_ [H _]]]; [unfold MAX_DEVICE_LEN; cbn; lia|].
  destruct (alsa_open_sets_rate_iff_success busy_world "hw:0,0" 44100 40 4 writer_machine)
    as [_ [_ [_ G]]]; [unfold MAX_DEVICE_LEN; cbn; lia|].
  destruct (H eq_refl) as [H1 [H2 _]].
  split; [exact H1|]. split; [exact H2|]. apply G. vm_compute. discriminate.
Defined.

(** Property X6.  Let the device name have at most [MAX_DEVICE_LEN]
    characters.  [alsa_open] never switches memory-mapped access on and never
    gives up the write buffer.  After a successful open in copy-write mode
    with a format other than the native one, the write buffer exists. *)
Theorem alsa_open_access_and_write_buf (W : world) (dev : string) (sr ab ap : Z)
    (m : machine) :
  Z.of_nat (String.length dev) <= MAX_DEVICE_LEN ->
  (mmap (alsa (snd (alsa_open W dev sr ab ap m))) = true -> mmap (alsa m) = true) /\
  (write_buf (alsa m) = true ->
   write_buf (alsa (snd (alsa_open W dev sr ab ap m))) = true) /\
  (fst (alsa_open W dev sr ab ap m) = 0 ->
   mmap (alsa (snd (alsa_open W dev sr ab ap m))) = false ->
   not_native W (format (alsa (snd (alsa_open W dev sr ab ap m)))) = true ->
   write_buf (alsa (snd (alsa_open W dev sr ab ap m))) = true).
Proof.
  intros Hfit.
  destruct (alsa_open_facts W dev sr ab ap m Hfit) as [_ [_ [H3 [H4 [H5 _]]]]].
  split; [exact H3|]. split; [exact H4|].
  intros Hz. destruct (H5 Hz) as [_ [_ [_ G]]]. exact G.
Qed.

Lemma alsa_open_access_and_write_buf_witness :
  write_buf (alsa (snd (alsa_open s16_world "hw:0,0" 44100 40 4 curve_machine))) = true.
Proof.
  destruct (alsa_open_access_and_write_buf s16_world "hw:0,0" 44100 40 4 curve_machine)
    as [_ [_ H]]; [unfold MAX_DEVICE_LEN; cbn; lia|].
  apply H; reflexivity.
Defined.

Section Reopen.

Variable W : world.

Lemma relays_same (on : bool) (m : machine) :
  same_request m (relays W on m) /\ alsa (relays W on m) = alsa m /\
  output (relays W on m) = output m /\ pcmp (relays W on m) = pcmp m.
Proof.
  unfold relays, exec, do_call, same_request. split_ifs; cbn; repeat split.
Qed.

End Reopen.

(** Property X7.  Let the name in [output.device] have at most
    [MAX_DEVICE_LEN] characters.  The reopen block of the output thread leaves
    the request alone.  When the device was opened, the session is open,
    [output.error_opening] is clear and the next iteration does not reopen.
    When it was not, [output.error_opening] is set, the last thing done is
    [sleep(5)], [alsa.rate] is 0 and, the current sample rate not being 0, the
    next iteration opens again. *)
Theorem open_device_outcome (W : world) (m : machine) :
  Z.of_nat (String.length (output_device (output m))) <= MAX_DEVICE_LEN ->
  same_request m (snd (open_device W m)) /\
  (fst (open_device W m) = true ->
     pcmp (snd (open_device W m)) = true /\
     error_opening (output (snd (open_device W m))) = false /\
     needs_open (snd (open_device W m)) = false) /\
  (fst (open_device W m) = false ->
     error_opening (output (snd (open_device W m))) = true /\
     (exists r, hd_error (log (snd (open_device W m))) = Some (sleep 5, r)) /\
     rate (alsa (snd (open_device W m))) = 0 /\
     (current_sample_rate (output m) <> 0 -> needs_open (snd (open_device W m)) = true)).
Proof.
  intros Hfit. unfold open_device. cbv zeta.
  destruct (relays_same W true m) as [R1 [R2 [R3 R4]]].
  set (m1 := relays W true m) in *. clearbody m1. rewrite <- R3 in Hfit.
  set (m2 := if reopen (alsa m1)
             then snd (alsa_open W (output_device (output m1))
                         (current_sample_rate (output m1)) (buffer (output m1))
                         (period (output m1)) m1)
             else m1).
  assert (S2 : same_request m m2).
  { subst m2. destruct (reopen (alsa m1)); [|exact R1].
    eapply same_request_trans; [exact R1|].
    apply (alsa_open_facts W). exact Hfit. }
  assert (Hfit2 : Z.of_nat (String.length (output_device (output m2))) <= MAX_DEVICE_LEN).
  { destruct S2 as [_ [_ [S2 _]]]. destruct R1 as [_ [_ [R1 _]]].
    rewrite S2, <- R1. exact Hfit. }
  clearbody m2.
  destruct (alsa_open_facts W (output_device (output m2))
              (current_sample_rate (output m2)) (buffer (output m2))
              (period (output m2)) m2 Hfit2) as [A1 [A2 [_ [_ [A3 A4]]]]].
  destruct (alsa_open W (output_device (output m2)) (current_sample_rate (output m2))
              (buffer (output m2)) (period (output m2)) m2) as [err m3].
  cbn [fst snd] in *.
  pose proof (same_request_trans _ _ _ S2 A2) as S3.
  unfold same_request in S2, S3.
  destruct S2 as [_ [S2 _]]. destruct S3 as [Q1 [Q2 [Q3 [Q4 [Q5 Q6]]]]].
  destruct (err =? 0) eqn:Ez; cbn [negb fst snd].
  - apply Z.eqb_eq in Ez. destruct (A3 Ez) as [G1 [G2 _]].
    split; [unfold same_request; cbn; repeat split; assumption|].
    split; [|discriminate]. intros _. split; [exact G1|]. split; [reflexivity|].
    unfold needs_open. cbn. rewrite G1, G2, Q2, S2, Z.eqb_refl. reflexivity.
  - apply Z.eqb_neq in Ez. specialize (A4 Ez).
    split; [unfold same_request; cbn; repeat split; assumption|].
    split; [discriminate|]. intros _. split; [reflexivity|].
    split; [eexists; reflexivity|]. split; [exact A4|].
    intros Hnz. unfold needs_open. cbn. rewrite A4, Q2.
    destruct (Z.eqb_spec 0 (current_sample_rate (output m))) as [E|E];
      [congruence|]. cbn. apply orb_true_r.
Qed.

Lemma open_device_outcome_witness :
  needs_open (snd (open_device quiet_world curve_machine)) = false /\
  needs_open (snd (open_device busy_world curve_machine)) = true.
Proof.
  destruct (open_device_outcome quiet_world curve_machine) as [_ [H _]]; [unfold MAX_DEVICE_LEN; cbn; lia|].
  destruct (open_device_outcome busy_world curve_machine) as [_ [_ G]]; [unfold MAX_DEVICE_LEN; cbn; lia|].
  destruct (H eq_refl) as [_ [_ H3]].
  destruct (G eq_refl) as [_ [_ [_ G4]]].
  split; [exact H3|]. apply G4. cbn. discriminate.
Defined.

(** ** Period negotiation *)

Lemma period_requests_app (a b : list event) :
  period_requests (a ++ b) = period_requests a ++ period_requests b.
Proof. unfold period_requests. rewrite map_app, filter_app. reflexivity. Qed.

Lemma period_requests_none (l : list event) :
  Forall (fun e => not_period_request (fst e) = true) l -> period_requests l = [].
Proof.
  unfold period_requests, not_period_request.
  induction 1 as [|e l He _ IH]; [reflexivity|].
  cbn [map filter]. apply negb_true_iff in He. rewrite He. exact IH.
Qed.

Section Period.

Variable W : world.

Lemma loop_not_period (c : call) : loop_call c = true -> not_period_request c = true.
Proof. destruct c; try discriminate; reflexivity. Qed.

Lemma buffer_not_period (c : call) :
  is_buffer_request c = true -> not_period_request c = true.
Proof. destruct c; try discriminate; reflexivity. Qed.

Lemma negotiate_access_no_period (m : machine) :
  emits_only not_period_request m (snd (negotiate_access W m)).
Proof. unfold negotiate_access, do_call. split_ifs; emits_explicit. Qed.

Lemma try_formats_no_period (l : list snd_pcm_format_t) :
  forall m, emits_only not_period_request m (snd (try_formats W l m)).
Proof.
  induction l as [|f rest IH]; intros m; cbn [try_formats].
  - apply emits_only_refl.
  - unfold do_call. cbv zeta. split_ifs.
    + emits_explicit.
    + eapply emits_only_trans; [|apply IH]. emits_explicit.
Qed.

Lemma negotiate_format_no_period (m : machine) :
  emits_only not_period_request m (snd (negotiate_format W m)).
Proof.
  unfold negotiate_format. destruct (format (alsa m)).
  - unfold do_call. split_ifs; emits_explicit.
  - apply try_formats_no_period.
Qed.

Lemma finish_open_no_period (sr : Z) (m : machine) :
  emits_only not_period_request m (snd (finish_open W sr m)).
Proof. unfold finish_open, do_call_out, do_call. split_ifs; emits_explicit. Qed.

Lemma quiet_period (m m' : machine) :
  emits_only not_period_request m m' ->
  exists new, log m' = new ++ log m /\ period_requests new = [].
Proof.
  intros [new [Hl F]]. exists new. split; [exact Hl|].
  apply period_requests_none. exact F.
Qed.

Lemma period_trans (m1 m2 m3 : machine) (k1 k2 : list call) :
  (exists new, log m2 = new ++ log m1 /\ period_requests new = k1) ->
  (exists new, log m3 = new ++ log m2 /\ period_requests new = k2) ->
  exists new, log m3 = new ++ log m1 /\ period_requests new = k2 ++ k1.
Proof.
  intros [n1 [H1 B1]] [n2 [H2 B2]]. exists (n2 ++ n1). split.
  - rewrite H2, H1. apply app_assoc.
  - rewrite period_requests_app, B1, B2. reflexivity.
Qed.

Lemma negotiate_period_request (ap : Z) (m : machine) :
  exists new, log (snd (negotiate_period W ap m)) = new ++ log m /\
    period_requests new
      = [if ap <? 50 then snd_pcm_hw_params_set_periods_near ap
         else snd_pcm_hw_params_set_period_size_near ap].
Proof.
  unfold negotiate_period, do_call.
  destruct (ap <? 50); split_ifs; (eexists [_]; split; [reflexivity|]); reflexivity.
Qed.

Lemma configure_period (sr ab ap : Z) (m : machine) :
  exists new, log (snd (configure W sr ab ap m)) = new ++ log m /\
    (period_requests new = [] \/
     period_requests new
       = [if ap <? 50 then snd_pcm_hw_params_set_periods_near ap
          else snd_pcm_hw_params_set_period_size_near ap]) /\
    (fst (configure W sr ab ap m) = 0 ->
     period_requests new
       = [if ap <? 50 then snd_pcm_hw_params_set_periods_near ap
          else snd_pcm_hw_params_set_period_size_near ap]).
Proof.
  unfold configure.
  pose proof (quiet_period _ _ (negotiate_access_no_period m)) as Ha.
  destruct (negotiate_access W m) as [[e|] m1] eqn:Ea; cbn [snd fst] in *.
  { destruct Ha as [new [Hl Hb]]. exists new. repeat split; auto.
    intros ->. apply negotiate_access_err in Ea. lia. }
  pose proof (quiet_period _ _ (negotiate_format_no_period m1)) as Hf.
  destruct (negotiate_format W m1) as [[e|] m2] eqn:Ef; cbn [snd fst] in *.
  { destruct (period_trans _ _ _ _ _ Ha Hf) as [new [Hl Hb]].
    exists new. repeat split; auto.
    intros ->. apply negotiate_format_err in Ef. lia. }
  pose proof (period_trans _ _ _ _ _ Ha Hf) as H2. clear Ha Hf.
  destruct (do_call W (snd_pcm_hw_params_set_channels 2)
              (with_output (set_output_format (format (alsa m2))) m2))
    as [ec m3] eqn:Edc.
  assert (H3 : exists new, log m3 = new ++ log m /\ period_requests new = []).
  { destruct H2 as [new [Hl Hb]]. unfold do_call in Edc. inversion Edc; subst.
    eexists (_ :: new). split.
    - cbn [log record with_output]. rewrite Hl. reflexivity.
    - exact Hb. }
  clear H2 Edc.
  destruct (ec <? 0) eqn:Ec; cbn [snd fst].
  { destruct H3 as [new [Hl Hb]]. exists new. repeat split; auto.
    intros Hz. rewrite Hz in Ec. discriminate. }
  pose proof (negotiate_period_request ap m3) as Hp.
  destruct (negotiate_period W ap m3) as [[e|] m4] eqn:Ep; cbn [snd fst] in *.
  { destruct (period_trans _ _ _ _ _ H3 Hp) as [new [Hl Hb]].
    exists new. repeat split; auto. }
  pose proof (period_trans _ _ _ _ _ H3 Hp) as H4. clear H3 Hp.
  pose proof (quiet_period _ _
                (emits_only_weaken _ _ _ _ buffer_not_period
                   (negotiate_buffer_emits W ab m4))) as Hb.
  destruct (negotiate_buffer W ab m4) as [[e|] m5] eqn:Eb; cbn [snd fst] in *.
  { destruct (period_trans _ _ _ _ _ H4 Hb) as [new [Hl Hn]].
    exists new. repeat split; auto. }
  pose proof (period_trans _ _ _ _ _ H4 Hb) as H5. clear H4 Hb.
  pose proof (quiet_period _ _ (finish_open_no_period sr m5)) as Hfin.
  destruct (period_trans _ _ _ _ _ H5 Hfin) as [new [Hl Hn]].
  exists new. repeat split; auto.
Qed.

Lemma alsa_open_period (dev : string) (sr ab ap : Z) (m : machine) :
  exists new, log (snd (alsa_open W dev sr ab ap m)) = new ++ log m /\
    (period_requests new = [] \/
     period_requests new
       = [if ap <? 50 then snd_pcm_hw_params_set_periods_near ap
          else snd_pcm_hw_params_set_period_size_near ap]) /\
    (fst (alsa_open W dev sr ab ap m) = 0 ->
     period_requests new
       = [if ap <? 50 then snd_pcm_hw_params_set_periods_near ap
          else snd_pcm_hw_params_set_period_size_near ap]).
Proof.
  unfold alsa_open. cbv zeta.
  pose proof (quiet_period _ _
                (emits_only_weaken _ _ _ _ loop_not_period
                   (open_prologue_emits W dev m))) as H0.
  set (m0 := open_prologue W dev m) in *. clearbody m0.
  destruct (Z.of_nat (String.length dev) >? MAX_DEVICE_LEN - 4 - 1); cbn [snd fst].
  { destruct H0 as [new [Hl Hb]]. exists new. repeat split; auto. discriminate. }
  destruct (open_loop W 2 dev sr m0) as [[[e|] m1]|] eqn:El; cbn [snd fst].
  - pose proof (quiet_period _ _
                  (emits_only_weaken _ _ _ _ loop_not_period
                     (open_loop_emits W _ _ _ _ _ _ El))) as H1.
    destruct (period_trans _ _ _ _ _ H0 H1) as [new [Hl Hb]].
    exists new. repeat split; auto. intros ->. apply open_loop_err in El. lia.
  - pose proof (quiet_period _ _
                  (emits_only_weaken _ _ _ _ loop_not_period
                     (open_loop_emits W _ _ _ _ _ _ El))) as H1.
    pose proof (period_trans _ _ _ _ _ H0 H1) as H2. cbn [app] in H2.
    destruct (configure_period sr ab ap m1) as [new [Hl [Hb Hz]]].
    destruct H2 as [new2 [Hl2 Hb2]].
    exists (new ++ new2). split; [rewrite Hl, Hl2; apply app_assoc|].
    rewrite period_requests_app, Hb2, app_nil_r. split; assumption.
  - destruct H0 as [new [Hl Hb]]. exists new. repeat split; auto. discriminate.
Qed.

End Period.

(** Property X8.  [alsa_open] asks for a period at most once.  A period
    value below 50 is a count and can only be asked for through
    [snd_pcm_hw_params_set_periods_near]; a value from 50 on is a size in
    frames and can only be asked for through
    [snd_pcm_hw_params_set_period_size_near].  A return of 0 implies that the
    request was made. *)
Theorem period_value_selects_request (W : world) (dev : string) (sr ab ap : Z)
    (m : machine) :
  exists new, log (snd (alsa_open W dev sr ab ap m)) = new ++ log m /\
    (ap < 50 ->
       (period_requests new = [] \/
        period_requests new = [snd_pcm_hw_params_set_periods_near ap]) /\
       (fst (alsa_open W dev sr ab ap m) = 0 ->
        period_requests new = [snd_pcm_hw_params_set_periods_near ap])) /\
    (50 <= ap ->
       (period_requests new = [] \/
        period_requests new = [snd_pcm_hw_params_set_period_size_near ap]) /\
       (fst (alsa_open W dev sr ab ap m) = 0 ->
        period_requests new = [snd_pcm_hw_params_set_period_size_near ap])).
Proof.
  destruct (alsa_open_period W dev sr ab ap m) as [new [Hl [Hb Hz]]].
  exists new. split; [exact Hl|]. split; intros Hap.
  - assert (E : (ap <? 50) = true) by (apply Z.ltb_lt; lia). rewrite E in *. auto.
  - assert (E : (ap <? 50) = false) by (apply Z.ltb_ge; lia). rewrite E in *. auto.
Qed.

Lemma period_value_selects_request_witness :
  exists new,
    log (snd (alsa_open quiet_world "hw:0,0" 44100 4096 1024 curve_machine)) = new ++ [] /\
    period_requests new = [snd_pcm_hw_params_set_period_size_near 1024].
Proof.
  destruct (period_value_selects_request quiet_world "hw:0,0" 44100 4096 1024 curve_machine)
    as [new [Hl [_ Hsz]]].
  exists new. split; [exact Hl|].
  destruct Hsz as [_ Hok]; [lia|]. apply Hok. vm_compute. reflexivity.
Defined.

(** ** Format negotiation *)







Section Formats.

Variable W : world.












End Formats.



(** ** The result of a write *)

Lemma to_int_small (x : Z) : 0 <= x < 2 ^ 31 -> to_int x = x.
Proof.
  intros H. unfold to_int. rewrite Z.mod_small by lia.
  destruct (Z.ltb_spec x (2 ^ 31)); [reflexivity | lia].
Qed.

(** Property X10.  With a failure count in 0..9, [_write_frames] keeps the
    failure count in 0..9 and does not touch [alsa] or [output].  Its result
    is -1, or else the last call is [snd_pcm_writei] (copy-write mode) or the
    commit (memory-mapped mode), the value [r] that call returned is not
    negative, the session handle and the failure count are as before, and the
    result is [r] stored in a [frames_t] and converted to [int]; in
    memory-mapped mode [r] is the frame count that was committed.  The result
    is [r] itself when [r] fits both types. *)
Theorem write_frames_outcome (W : world) (n : Z) (m : machine) :
  0 <= recover_count m < 10 ->
  0 <= recover_count (snd (_write_frames W n m)) < 10 /\
  alsa (snd (_write_frames W n m)) = alsa m /\
  output (snd (_write_frames W n m)) = output m /\
  (fst (_write_frames W n m) = -1 \/
   exists c r,
     hd_error (log (snd (_write_frames W n m))) = Some (c, r) /\ 0 <= r /\
     pcmp (snd (_write_frames W n m)) = pcmp m /\
     recover_count (snd (_write_frames W n m)) = recover_count m /\
     ((mmap (alsa m) = false /\ c = snd_pcm_writei n /\
       fst (_write_frames W n m) = to_int (to_frames W r)) \/
      (mmap (alsa m) = true /\ c = snd_pcm_mmap_commit r /\
       fst (_write_frames W n m) = to_int r)) /\
     (to_frames W r = r -> r < 2 ^ 31 -> fst (_write_frames W n m) = r)).
Proof.
  intros Hrc. unfold _write_frames, do_call_out, alsa_close, exec, do_call. cbv zeta.
  destruct (mmap (alsa m)) eqn:Em.
  - cbn [fst snd log record].
    split_ifs; cbn [fst snd alsa output pcmp recover_count record log hd_error];
      repeat match goal with
             | H : (_ || _) = false |- _ => apply orb_false_iff in H; destruct H
             | H : negb _ = false |- _ => apply negb_false_iff in H
             | H : (_ =? _) = true |- _ => apply Z.eqb_eq in H
             | H : (?e <? 0) = false |- _ => apply Z.ltb_ge in H
             end;
      repeat split; auto; try lia.
    right. do 2 eexists. split; [reflexivity|]. split; [assumption|].
    split; [reflexivity|]. split; [reflexivity|]. split.
    + right. split; [reflexivity|]. split; f_equal; symmetry; assumption.
    + intros _ Hlt.
      match goal with
      | H : ?a = to_frames _ _ |- _ = ?a =>
          transitivity (to_int a); [f_equal; symmetry; exact H|]
      end.
      apply to_int_small. split; assumption.
  - cbn [fst snd log record set_recover_count set_pcmp recover_count].
    split_ifs;
      cbn [fst snd alsa output pcmp recover_count record log hd_error
           set_recover_count set_pcmp];
      repeat match goal with
             | H : (?e <? 0) = false |- _ => apply Z.ltb_ge in H
             | H : (?e >=? 10) = true |- _ => apply Z.geb_le in H
             | H : (?a >=? 10) = false |- _ =>
                 destruct (Z.geb_spec a 10); [discriminate|]; clear H
             end;
      repeat split; auto; try lia.
    right. do 2 eexists. split; [reflexivity|]. split; [assumption|].
    split; [reflexivity|]. split; [reflexivity|]. split.
    + left. repeat split.
    + intros Hf Hlt. rewrite Hf. apply to_int_small. split; assumption.
Qed.

(** A write of 64 frames that the device takes in full gives 64. *)
Lemma write_frames_outcome_witness :
  0 <= recover_count (snd (_write_frames (world_of (fun _ _ => 64)) 64 writer_machine)) < 10 /\
  alsa (snd (_write_frames (world_of (fun _ _ => 64)) 64 writer_machine))
    = alsa writer_machine /\
  fst (_write_frames (world_of (fun _ _ => 64)) 64 writer_machine) = 64.
Proof.
  destruct (write_frames_outcome (world_of (fun _ _ => 64)) 64 writer_machine)
    as [H1 [H2 _]].
  - cbn. lia.
  - split; [exact H1|]. split; [exact H2 | reflexivity].
Defined.

(** ** Losing the device *)

Section Disconnect.

Variable W : world.









(** In the probe loop itself only the probe and the sleep happen. *)
Lemma probe_loop_steps (n : nat) :
  forall s : thread * machine,
  pc (fst s) = ProbeTest -> probe_device (fst s) = true ->
  (forall k, (k < n)%nat -> probe_fails W (steps W k s) = true) ->
  fst (steps W n s) = fst s /\
  alsa (snd (steps W n s)) = alsa (snd s) /\
  output (snd (steps W n s)) = output (snd s) /\
  pcmp (snd (steps W n s)) = pcmp (snd s) /\
  emits_only probe_or_sleep (snd s) (snd (steps W n s)).
Proof.
  induction n as [|n IH]; intros s Hpc Hpd Hfail.
  - cbn [steps]. repeat split. apply emits_only_refl.
  - cbn [steps].
    assert (Hs : fst (step W s) = fst s /\ alsa (snd (step W s)) = alsa (snd s) /\
                 output (snd (step W s)) = output (snd s) /\
                 pcmp (snd (step W s)) = pcmp (snd s) /\
                 emits_only probe_or_sleep (snd s) (snd (step W s))).
    { pose proof (Hfail O ltac:(lia)) as H0. cbn [steps] in H0.
      destruct s as [t m]. cbn [fst snd] in *. unfold step. rewrite Hpc, Hpd.
      unfold probe_fails in H0. cbn [fst snd] in H0. rewrite Hpc in H0.
      unfold pcm_probe, exec, do_call in *. cbv zeta. cbn [fst snd] in *.
      rewrite H0. cbn [fst snd]. repeat split. emits_explicit. }
    destruct Hs as [S1 [S2 [S3 [S4 S5]]]].
    destruct (IH (step W s)) as [G1 [G2 [G3 [G4 G5]]]].
    { rewrite S1. exact Hpc. }
    { rewrite S1. exact Hpd. }
    { intros k Hk. apply (Hfail (S k)). lia. }
    split; [congruence|]. split; [congruence|]. split; [congruence|].
    split; [congruence|]. eapply emits_only_trans; eassumption.
Qed.

End Disconnect.



(** Property X12.  In the probe loop, as long as [pcm_probe] fails, the
    thread does nothing but probe and sleep: its locals stay as they are, the
    session handle is not touched and [running] is not read, so the loop does
    not end when the player shuts down. *)
Theorem probe_loop_only_probes (W : world) (t : thread) (m : machine) (n : nat) :
  pc t = ProbeTest -> probe_device t = true ->
  (forall k, (k < n)%nat -> probe_fails W (steps W k (t, m)) = true) ->
  fst (steps W n (t, m)) = t /\
  pcmp (snd (steps W n (t, m))) = pcmp m /\
  emits_only probe_or_sleep m (snd (steps W n (t, m))).
Proof.
  intros Hpc Hpd Hfail.
  destruct (probe_loop_steps W n (t, m) Hpc Hpd Hfail) as [H1 [_ [_ [H4 H5]]]].
  auto.
Qed.

Lemma probe_loop_only_probes_witness :
  fst (steps lost_world 3 (probing_thread, closed_machine)) = probing_thread /\
  pcmp (snd (steps lost_world 3 (probing_thread, closed_machine))) = false /\
  emits_only probe_or_sleep closed_machine
    (snd (steps lost_world 3 (probing_thread, closed_machine))).
Proof.
  apply (probe_loop_only_probes lost_world probing_thread closed_machine 3);
    try reflexivity.
  intros k Hk. do 3 (destruct k as [|k]; [reflexivity|]). lia.
Defined.

(** ** Opening and closing the mixer *)

(** A call seen from outside: the machine after it is the machine before
    with one more event. *)
Lemma do_call_inv (W : world) (c : call) (m : machine) (e : Z) (m' : machine) :
  do_call W c m = (e, m') -> m' = record (c, e) m.
Proof. unfold do_call. intros H. injection H as <- <-. reflexivity. Qed.

Lemma exec_inv (W : world) (c : call) (m : machine) :
  exists e, exec W c m = record (c, e) m.
Proof. eexists. reflexivity. Qed.

(** Walk through a run given as an equation [E], one call at a time; the
    values the calls return become variables. *)
Ltac run_cases E :=
  repeat first
    [ match type of E with
      | context [exec ?W ?c ?m] =>
          let e := fresh "e" in let He := fresh "He" in
          destruct (exec_inv W c m) as [e He]; rewrite He in E; clear He
      end
    | match type of E with
      | context [do_call ?W ?c ?m] =>
          let e := fresh "e" in let m' := fresh "m" in let D := fresh "D" in
          destruct (do_call W c m) as [e m'] eqn:D;
          apply do_call_inv in D; subst m'
      end
    | match type of E with
      | context [if ?b then _ else _] => destruct b eqn:?
      end ];
  injection E as <- <-.

(** The same for the calls whose value is not used, in the goal. *)
Ltac name_exec :=
  repeat match goal with
         | |- context [exec ?W ?c ?m] =>
             let e := fresh "e" in let He := fresh "He" in
             destruct (exec_inv W c m) as [e He]; rewrite He; clear He
         end.

(** [mixer_init_alsa] returns 0 or -1, opens the mixer at most once, closes
    only what it opened, and leaves the handle open when it returns 0. *)
Lemma mixer_init_counts (W : world) (dev mixer : string) (index : Z) (m : machine) :
  (fst (mixer_init_alsa W dev mixer index m) = 0 \/
   fst (mixer_init_alsa W dev mixer index m) = -1) /\
  exists c o : nat,
    mixer_closes (log (snd (mixer_init_alsa W dev mixer index m)))
      = (c + mixer_closes (log m))%nat /\
    mixer_opens (log (snd (mixer_init_alsa W dev mixer index m)))
      = (o + mixer_opens (log m))%nat /\
    (c <= o)%nat /\ (o <= 1)%nat /\
    (fst (mixer_init_alsa W dev mixer index m) = 0 ->
       c = O /\ o = 1%nat /\
       mixer_handle (alsa (snd (mixer_init_alsa W dev mixer index m))) = true).
Proof.
  destruct (mixer_init_alsa W dev mixer index m) as [err m'] eqn:E. cbn [fst snd].
  unfold mixer_init_alsa, mixer_fail in E. cbv zeta in E.
  run_cases E;
    (split; [first [left; reflexivity | right; reflexivity]|]);
    cbn [fst snd log record with_alsa alsa mixer_closes mixer_opens
         set_mixer_handle set_mixer_elem set_mixer_mindb set_mixer_maxdb
         mixer_handle mixer_elem mixer_mindb mixer_maxdb];
    repeat match goal with H : (_ <? 0) = _ |- _ => rewrite H end;
    first
      [ exists O, O; repeat split; auto; try discriminate; fail
      | exists 1%nat, 1%nat; repeat split; auto; try discriminate; fail
      | exists O, 1%nat; repeat split; auto; try discriminate ].
Qed.

(** Property X13.  [mixer_init_alsa] returns 0 or -1.  It opens the mixer
    at most once and closes it no more often than it opened it.  On 0 the
    mixer is open and was not closed, handle and element are set, the last
    call is the query of the dB range, and [alsa.mixer_mindb] and
    [alsa.mixer_maxdb] hold what that call stored.  On -1 the dB range is as
    before, and a mixer that was opened has been closed again, unless it was
    the query of the dB range that failed: that path returns without
    closing. *)
Theorem mixer_init_outcome (W : world) (dev mixer : string) (index : Z) (m : machine) :
  (fst (mixer_init_alsa W dev mixer index m) = 0 \/
   fst (mixer_init_alsa W dev mixer index m) = -1) /\
  exists c o : nat,
    mixer_closes (log (snd (mixer_init_alsa W dev mixer index m)))
      = (c + mixer_closes (log m))%nat /\
    mixer_opens (log (snd (mixer_init_alsa W dev mixer index m)))
      = (o + mixer_opens (log m))%nat /\
    (c <= o)%nat /\ (o <= 1)%nat /\
    (fst (mixer_init_alsa W dev mixer index m) = 0 ->
       c = O /\ o = 1%nat /\
       mixer_handle (alsa (snd (mixer_init_alsa W dev mixer index m))) = true /\
       mixer_elem (alsa (snd (mixer_init_alsa W dev mixer index m))) = true /\
       exists h r,
         log (snd (mixer_init_alsa W dev mixer index m))
           = (snd_mixer_selem_get_playback_dB_range, r) :: h /\
         mixer_mindb (alsa (snd (mixer_init_alsa W dev mixer index m)))
           = out W h snd_mixer_selem_get_playback_dB_range /\
         mixer_maxdb (alsa (snd (mixer_init_alsa W dev mixer index m)))
           = out2 W h snd_mixer_selem_get_playback_dB_range) /\
    (fst (mixer_init_alsa W dev mixer index m) = -1 ->
       mixer_mindb (alsa (snd (mixer_init_alsa W dev mixer index m))) = mixer_mindb (alsa m) /\
       mixer_maxdb (alsa (snd (mixer_init_alsa W dev mixer index m))) = mixer_maxdb (alsa m) /\
       (c = o \/
        exists h r,
          log (snd (mixer_init_alsa W dev mixer index m))
            = (snd_mixer_selem_get_playback_dB_range, r) :: h /\ r < 0)).
Proof.
  destruct (mixer_init_alsa W dev mixer index m) as [err m'] eqn:E. cbn [fst snd].
  unfold mixer_init_alsa, mixer_fail in E. cbv zeta in E.
  run_cases E;
    (split; [first [left; reflexivity | right; reflexivity]|]);
    cbn [fst snd log record with_alsa alsa mixer_closes mixer_opens
         set_mixer_handle set_mixer_elem set_mixer_mindb set_mixer_maxdb
         mixer_handle mixer_elem mixer_mindb mixer_maxdb];
    repeat match goal with H : (_ <? 0) = _ |- _ => rewrite H end;
    first
      [ (* never opened *)
        exists O, O; repeat split; auto; try discriminate; fail
      | (* closed after a failure *)
        exists 1%nat, 1%nat; repeat split; auto; try discriminate; fail
      | (* left open *)
        exists O, 1%nat; repeat split; auto; try discriminate;
        try (right; do 2 eexists; split; [reflexivity|]; apply Z.ltb_lt; assumption);
        try (do 2 eexists; repeat split; reflexivity);
        try (match goal with H : (?e =? 0) = false |- negb (?e =? 0) = true =>
               rewrite H; reflexivity end) ].
Qed.

Lemma mixer_init_outcome_witness :
  mixer_handle (alsa (snd (mixer_init_alsa mixer_world "hw:0" "PCM" 0 curve_machine))) = true /\
  mixer_mindb (alsa (snd (mixer_init_alsa mixer_world "hw:0" "PCM" 0 curve_machine))) = -10239 /\
  mixer_maxdb (alsa (snd (mixer_init_alsa mixer_world "hw:0" "PCM" 0 curve_machine))) = 400.
Proof.
  destruct (mixer_init_outcome mixer_world "hw:0" "PCM" 0 curve_machine)
    as [_ [c [o [_ [_ [_ [_ [H _]]]]]]]].
  destruct (H eq_refl) as [_ [_ [H3 [_ [h [r [Hl [Hmin Hmax]]]]]]]].
  split; [exact H3|]. split; [rewrite Hmin | rewrite Hmax]; reflexivity.
Defined.

Section MixerLife.

Variable W : world.

(** [set_mixer] changes no global and commands the mixer once. *)
Lemma set_mixer_facts (setmax setmin : bool) (ldb rdb : Z) (m : machine) :
  alsa (set_mixer W setmax setmin ldb rdb m) = alsa m /\
  mixer_closes (log (set_mixer W setmax setmin ldb rdb m)) = mixer_closes (log m) /\
  mixer_opens (log (set_mixer W setmax setmin ldb rdb m)) = mixer_opens (log m) /\
  dB_commands (log (set_mixer W setmax setmin ldb rdb m))
    = 100 * (if (if (ldb <? MINVOL_DB) || (ldb =? SND_CTL_TLV_DB_GAIN_MUTE)
                 then true else setmin)
             then Z.quot (mixer_mindb (alsa m)) 100
             else if setmax then Z.quot (mixer_maxdb (alsa m)) 100 else ldb)
      :: dB_commands (log m).
Proof.
  unfold set_mixer. cbv zeta. name_exec.
  cbn [alsa log record mixer_closes mixer_opens dB_commands]. repeat split.
Qed.

Lemma init_globals_counts (a : init_args) (m : machine) :
  mixer_closes (log (init_globals W a m)) = mixer_closes (log m) /\
  mixer_opens (log (init_globals W a m)) = mixer_opens (log m) /\
  dB_commands (log (init_globals W a m)) = dB_commands (log m) /\
  mixer_handle (alsa (init_globals W a m)) = false /\
  volume_mixer_name (alsa (init_globals W a m)) = arg_volume_mixer_name a.
Proof. unfold init_globals, exec, do_call. cbn. repeat split. Qed.

(** What follows the mixer blocks in [output_init_alsa] touches neither the
    [alsa] globals nor the mixer. *)
Lemma output_init_shape (a : init_args) (m m3 : machine) :
  m3 = match volume_mixer_name (alsa (init_mixer W a (init_globals W a m))) with
       | Some _ =>
           if arg_mixer_unmute a
           then with_alsa (set_volume_mixer_name None)
                  (set_mixer W true false 0 0 (init_mixer W a (init_globals W a m)))
           else init_mixer W a (init_globals W a m)
       | None => init_mixer W a (init_globals W a m)
       end ->
  alsa (output_init_alsa W a m) = alsa m3 /\
  mixer_closes (log (output_init_alsa W a m)) = mixer_closes (log m3) /\
  mixer_opens (log (output_init_alsa W a m)) = mixer_opens (log m3) /\
  dB_commands (log (output_init_alsa W a m)) = dB_commands (log m3).
Proof.
  intros E3. unfold output_init_alsa. cbv zeta. rewrite <- E3. clear E3.
  name_exec. cbn [alsa record].
  destruct (output_affinity (alsa m3)); name_exec;
    cbn [alsa log record mixer_closes mixer_opens dB_commands]; repeat split.
Qed.

End MixerLife.

(** ** Probing the supported rates *)

Lemma array_store_inside (a : list Z) : forall ind v,
  (ind < List.length a)%nat ->
  array_store a ind v = Some (firstn ind a ++ v :: skipn (S ind) a).
Proof.
  induction a as [|x a IH]; intros ind v H; cbn [List.length] in H; [lia|].
  destruct ind as [|ind]; cbn [array_store firstn skipn app].
  - reflexivity.
  - rewrite IH by lia. reflexivity.
Qed.

Lemma array_store_outside (a : list Z) : forall ind v,
  (List.length a <= ind)%nat -> array_store a ind v = None.
Proof.
  induction a as [|x a IH]; intros ind v H; cbn [List.length] in H.
  - destruct ind; reflexivity.
  - destruct ind as [|ind]; [lia|]. cbn [array_store]. rewrite IH by lia. reflexivity.
Qed.

Lemma test_rates_collects (A : test_answers) (ref : list Z) :
  forall ind rates,
  (ind + List.length (supported_rates A ref) <= List.length rates)%nat ->
  test_rates A ref ind rates
    = Some (firstn ind rates ++ supported_rates A ref
            ++ skipn (ind + List.length (supported_rates A ref)) rates).
Proof.
  unfold supported_rates.
  induction ref as [|r rest IH]; intros ind rates H; cbn [test_rates before_zero filter].
  - cbn [List.length app]. rewrite Nat.add_0_r, firstn_skipn. reflexivity.
  - destruct (r =? 0) eqn:Ez.
    + cbn [filter List.length app]. rewrite Nat.add_0_r, firstn_skipn. reflexivity.
    + cbn [before_zero filter] in H. rewrite Ez in H. cbn [filter] in *.
      destruct (rate_result A r =? 0) eqn:Es.
      * cbn [List.length] in H.
        rewrite array_store_inside by lia.
        rewrite IH.
        -- f_equal. cbn [List.length app].
           assert (Hlen : List.length (firstn ind rates) = ind)
             by (apply firstn_length_le; lia).
           rewrite firstn_app, Hlen.
           replace (S ind - ind)%nat with 1%nat by lia.
           rewrite firstn_all2 by lia. cbn [firstn].
           rewrite <- app_assoc. cbn [app]. f_equal. f_equal. f_equal.
           rewrite skipn_app, Hlen.
           rewrite (skipn_all2 (firstn ind rates)) by lia. cbn [app].
           remember (skipn (S ind) rates) as tail eqn:Etail.
           match goal with
           | |- skipn ?a (r :: tail) = _ =>
               replace a with (S (a - 1)) by lia; cbn [skipn]
           end.
           subst tail. rewrite skipn_skipn. f_equal. lia.
        -- rewrite length_app, firstn_length_le by lia. cbn [List.length].
           rewrite length_skipn. lia.
      * apply IH. exact H.
Qed.

Lemma test_rates_overflow (A : test_answers) (ref : list Z) :
  forall ind rates,
  (ind <= List.length rates)%nat ->
  (List.length rates < ind + List.length (supported_rates A ref))%nat ->
  test_rates A ref ind rates = None.
Proof.
  unfold supported_rates.
  induction ref as [|r rest IH]; intros ind rates Hind H;
    cbn [test_rates before_zero filter List.length] in *; [lia|].
  destruct (r =? 0) eqn:Ez; cbn [filter List.length] in H; [lia|].
  destruct (rate_result A r =? 0) eqn:Es; cbn [List.length] in H.
  - destruct (Nat.eq_dec ind (List.length rates)) as [E|E].
    + rewrite array_store_outside by lia. reflexivity.
    + rewrite array_store_inside by lia. apply IH.
      * rewrite length_app, firstn_length_le by lia. cbn [List.length].
        rewrite length_skipn. lia.
      * rewrite length_app, firstn_length_le by lia. cbn [List.length].
        rewrite length_skipn. lia.
  - apply IH; assumption.
Qed.

(** Property X15.  [test_open] returns false and leaves [rates] alone when
    the device cannot be opened or queried.  Otherwise the flag says whether
    closing succeeded.  With rates defined by the user [rates] is not written.
    Without, the reference rates before the terminating zero that the device
    accepts are written to the front of [rates], in the order of the
    reference, and the rest of the array is as before; when the device accepts
    more rates than the array holds, a store leaves the array. *)
Theorem test_open_collects_supported_rates (A : test_answers) (ref rates : list Z)
    (userdef_rates : bool) :
  (open_result A < 0 \/ any_result A < 0 ->
   test_open A ref rates userdef_rates = Some (false, rates)) /\
  (0 <= open_result A -> 0 <= any_result A ->
   (userdef_rates = true ->
    test_open A ref rates userdef_rates = Some (negb (close_result A <? 0), rates)) /\
   (userdef_rates = false ->
    (List.length (supported_rates A ref) <= List.length rates)%nat ->
    test_open A ref rates userdef_rates
      = Some (negb (close_result A <? 0),
              supported_rates A ref
              ++ skipn (List.length (supported_rates A ref)) rates)) /\
   (userdef_rates = false ->
    (List.length rates < List.length (supported_rates A ref))%nat ->
    test_open A ref rates userdef_rates = None)).
Proof.
  unfold test_open. split.
  - intros [H|H].
    + apply Z.ltb_lt in H. rewrite H. reflexivity.
    + apply Z.ltb_lt in H. rewrite H. destruct (open_result A <? 0); reflexivity.
  - intros Ho Ha. apply Z.ltb_ge in Ho. apply Z.ltb_ge in Ha. rewrite Ho, Ha.
    split; [|split]; intros ->.
    + destruct (close_result A <? 0); reflexivity.
    + intros Hlen. rewrite (test_rates_collects A ref O rates) by exact Hlen.
      cbn [firstn app Nat.add]. destruct (close_result A <? 0); reflexivity.
    + intros Hlen. rewrite (test_rates_overflow A ref O rates); [reflexivity | lia | cbn [Nat.add]; lia].
Qed.

Lemma test_open_collects_supported_rates_witness :
  test_open cd_and_dat [96000; 48000; 44100; 0; 8000] [0; 0; 0] false
    = Some (true, [48000; 44100; 0]) /\
  test_open cd_and_dat [96000; 48000; 44100; 0; 8000] [0] false = None.
Proof.
  destruct (test_open_collects_supported_rates cd_and_dat
              [96000; 48000; 44100; 0; 8000] [0; 0; 0] false) as [_ H].
  destruct (test_open_collects_supported_rates cd_and_dat
              [96000; 48000; 44100; 0; 8000] [0] false) as [_ G].
  destruct H as [_ [H _]]; [cbn; lia | cbn; lia |].
  destruct G as [_ [_ G]]; [cbn; lia | cbn; lia |].
  split; [apply H | apply G]; try reflexivity; cbn; lia.
Defined.

(** ** Unmuting at start *)

Lemma dB_commands_mixer_init (W : world) (dev mixer : string) (index : Z) (m : machine) :
  dB_commands (log (snd (mixer_init_alsa W dev mixer index m))) = dB_commands (log m) /\
  output_affinity (alsa (snd (mixer_init_alsa W dev mixer index m)))
    = output_affinity (alsa m) /\
  volume_mixer_name (alsa (snd (mixer_init_alsa W dev mixer index m)))
    = volume_mixer_name (alsa m).
Proof.
  destruct (mixer_init_alsa W dev mixer index m) as [err m'] eqn:E. cbn [snd].
  unfold mixer_init_alsa, mixer_fail in E. cbv zeta in E.
  run_cases E;
    cbn [log record with_alsa alsa dB_commands output_affinity volume_mixer_name
         set_mixer_handle set_mixer_elem set_mixer_mindb set_mixer_maxdb];
    repeat split.
Qed.

(** Property X16.  Start with a volume mixer and the unmute option, the
    mixer initialising without error.  [output_init_alsa] commands the mixer
    once, to its maximum in whole decibels, keeps the mixer handle and clears
    the mixer name; every volume message after that is handled by software
    gain and makes no mixer call. *)
Theorem unmute_sets_maximum_and_uses_software_gain (W : world) (a : init_args)
    (m : machine) (name : string) :
  arg_volume_mixer_name a = Some name -> arg_mixer_unmute a = true ->
  fst (mixer_init_alsa W (mixer_ctl (alsa (init_globals W a m))) name
         (or_default (arg_volume_mixer_index a) 0) (init_globals W a m)) = 0 ->
  volume_mixer_name (alsa (output_init_alsa W a m)) = None /\
  mixer_handle (alsa (output_init_alsa W a m)) = true /\
  dB_commands (log (output_init_alsa W a m))
    = 100 * Z.quot (mixer_maxdb (alsa (output_init_alsa W a m))) 100
      :: dB_commands (log m) /\
  forall msgs : list (Z * Z),
    emits_only not_mixer (output_init_alsa W a m)
      (machine_of (set_volumes W msgs (output_init_alsa W a m))).
Proof.
  intros Hname Hun Hok.
  destruct (init_globals_counts W a m) as [_ [_ [G3 [_ G5]]]].
  destruct (mixer_init_counts W (mixer_ctl (alsa (init_globals W a m))) name
              (or_default (arg_volume_mixer_index a) 0) (init_globals W a m))
    as [_ [c [o [_ [_ [_ [_ Hgood]]]]]]].
  destruct (Hgood Hok) as [_ [_ Hh]]. clear Hgood.
  destruct (dB_commands_mixer_init W (mixer_ctl (alsa (init_globals W a m))) name
              (or_default (arg_volume_mixer_index a) 0) (init_globals W a m))
    as [Hd [_ Hvn]].
  destruct (output_init_shape W a m _ eq_refl) as [R0 [_ [_ R3]]].
  revert R0 R3. unfold init_mixer. rewrite Hname, Hun.
  destruct (mixer_init_alsa W (mixer_ctl (alsa (init_globals W a m))) name
              (or_default (arg_volume_mixer_index a) 0) (init_globals W a m))
    as [err m1].
  cbn [fst snd] in *. subst err. cbn [Z.ltb Z.compare].
  rewrite Hvn, G5, Hname.
  destruct (set_mixer_facts W true false 0 0 m1) as [S1 [_ [_ S4]]].
  change ((0 <? MINVOL_DB) || (0 =? SND_CTL_TLV_DB_GAIN_MUTE)) with false in S4.
  cbn [log alsa with_alsa]. rewrite S1, S4, Hd, G3. intros R0 R3.
  assert (H1 : volume_mixer_name (alsa (output_init_alsa W a m)) = None)
    by (rewrite R0; reflexivity).
  split; [exact H1|]. split; [rewrite R0; exact Hh|].
  split; [rewrite R3, R0; reflexivity|].
  intros msgs. apply software_volume_steps. exact H1.
Qed.

Lemma unmute_sets_maximum_and_uses_software_gain_witness :
  volume_mixer_name (alsa (output_init_alsa mixer_world unmute_args curve_machine)) = None /\
  dB_commands (log (output_init_alsa mixer_world unmute_args curve_machine)) = [400].
Proof.
  destruct (unmute_sets_maximum_and_uses_software_gain mixer_world unmute_args
              curve_machine "PCM") as [H1 [_ [H3 _]]]; try reflexivity.
  split; [exact H1 | exact H3].
Defined.

(** ** Switching the output on again *)

Lemma poll_off_session (c : call) : poll_call c = true -> off_session c = true.
Proof. destruct c; try discriminate; reflexivity. Qed.

(** Property X17.  The thread is in the off loop and its poll finds the
    player switched on and still running.  Two steps later the thread is at
    the probe test with [output_off] clear, having only slept and read the
    two shared flags.  With no probe pending, the third step reaches the loop
    body and makes no call.  With a probe pending, the third step probes the
    device, and reaches the loop body exactly when the probe succeeds.  In
    both cases the three steps make no call on the session and leave the
    handle as it was, and a thread that reaches the loop body with the
    session closed begins by opening the device. *)
Theorem enable_leads_to_reopen (W : world) (t : thread) (m : machine) :
  pc t = OffTest -> output_off t = true ->
  still_off W (t, m) = false ->
  pc (fst (step W (t, m))) <> Exited ->
  (pc (fst (steps W 2 (t, m))) = ProbeTest /\
   output_off (fst (steps W 2 (t, m))) = false /\
   probe_device (fst (steps W 2 (t, m))) = probe_device t /\
   emits_only poll_call m (snd (steps W 2 (t, m)))) /\
  (probe_device t = false ->
     pc (fst (steps W 3 (t, m))) = Body /\
     snd (steps W 3 (t, m)) = snd (steps W 2 (t, m))) /\
  (probe_device t = true ->
     (pc (fst (steps W 3 (t, m))) = Body <->
      fst (pcm_probe W (output_device (output (snd (steps W 2 (t, m)))))
             (snd (steps W 2 (t, m)))) = true) /\
     (pc (fst (steps W 3 (t, m))) = Body \/ pc (fst (steps W 3 (t, m))) = ProbeTest)) /\
  emits_only off_session m (snd (steps W 3 (t, m))) /\
  pcmp (snd (steps W 3 (t, m))) = pcmp m /\
  (pc (fst (steps W 3 (t, m))) = Body -> pcmp m = false ->
   needs_open (snd (steps W 3 (t, m))) = true).
Proof.
  intros Hpc Hoff Hon Hrun.
  unfold still_off in Hon. cbn [fst snd] in Hon. rewrite Hpc in Hon.
  destruct (do_call W read_output_state (exec W (usleep 100000) m)) as [st m1] eqn:E1.
  destruct (do_call W read_running m1) as [r m2] eqn:E2.
  cbn [fst] in Hon.
  assert (S1 : step W (t, m) =
               (if r =? 0 then set_pc Exited (set_output_off false t)
                else set_output_off false t, m2)).
  { unfold step. rewrite Hpc, Hoff, E1, E2, Hon. destruct (r =? 0); reflexivity. }
  rewrite S1 in Hrun.
  destruct (r =? 0) eqn:Er.
  { exfalso. apply Hrun. reflexivity. }
  assert (S2 : step W (set_output_off false t, m2) =
               (set_pc ProbeTest (set_output_off false t), m2)).
  { unfold step. cbn [pc set_output_off output_off]. rewrite Hpc. reflexivity. }
  assert (T2 : steps W 2 (t, m) = (set_pc ProbeTest (set_output_off false t), m2)).
  { cbn [steps]. rewrite S1, S2. reflexivity. }
  assert (T3 : steps W 3 (t, m) = step W (set_pc ProbeTest (set_output_off false t), m2)).
  { cbn [steps]. rewrite S1, S2. reflexivity. }
  assert (Hpoll : emits_only poll_call m m2).
  { unfold do_call in E1, E2. unfold exec, do_call in E1. cbn [snd] in E1.
    injection E1 as _ <-. injection E2 as _ <-. emits_explicit. }
  assert (Hp2 : pcmp m2 = pcmp m).
  { unfold do_call in E1, E2. unfold exec, do_call in E1. cbn [snd] in E1.
    injection E1 as _ <-. injection E2 as _ <-. reflexivity. }
  clear E1 E2 S1 S2 Hrun Hon.
  rewrite T2, T3. cbn [fst snd pc set_pc output_off set_output_off probe_device].
  split; [repeat split; exact Hpoll|].
  unfold step. cbn [pc set_pc set_output_off probe_device].
  destruct (probe_device t) eqn:Hpd.
  - (* a probe is pending *)
    unfold pcm_probe, exec, do_call. cbv zeta.
    destruct (ret W (log m2) (probe_open (output_device (output m2))) <? 0) eqn:Ep;
      cbn [fst snd pc set_pc set_probe_device pcmp record].
    + split; [discriminate|]. split.
      { intros _. split; [split; discriminate | right; reflexivity]. }
      split.
      { eapply emits_only_trans;
          [exact (emits_only_weaken _ _ _ _ poll_off_session Hpoll)|]. emits_explicit. }
      split; [exact Hp2|]. discriminate.
    + split; [discriminate|]. split.
      { intros _. split; [split; reflexivity | left; reflexivity]. }
      split.
      { eapply emits_only_trans;
          [exact (emits_only_weaken _ _ _ _ poll_off_session Hpoll)|]. emits_explicit. }
      split; [exact Hp2|].
      intros _ Hp. unfold needs_open. cbn [pcmp record]. rewrite Hp2, Hp. reflexivity.
  - cbn [fst snd pc set_pc].
    split; [intros _; split; reflexivity|]. split; [discriminate|].
    split; [exact (emits_only_weaken _ _ _ _ poll_off_session Hpoll)|].
    split; [exact Hp2|].
    intros _ Hp. unfold needs_open. rewrite Hp2, Hp. reflexivity.
Qed.

(** The player is switched on: without a probe pending the thread is at the
    loop body after three steps; with one pending it probes first. *)
Lemma enable_leads_to_reopen_witness :
  (pc (fst (steps on_world 3 (idle_thread, closed_machine))) = Body /\
   needs_open (snd (steps on_world 3 (idle_thread, closed_machine))) = true) /\
  (pc (fst (steps on_world 3 (idle_probing_thread, closed_machine))) = Body /\
   emits_only off_session closed_machine
     (snd (steps on_world 3 (idle_probing_thread, closed_machine)))).
Proof.
  split.
  - destruct (enable_leads_to_reopen on_world idle_thread closed_machine)
      as [_ [H2 [_ [_ [_ H6]]]]]; try reflexivity.
    + cbn. discriminate.
    + destruct (H2 eq_refl) as [Hb _]. split; [exact Hb | apply H6; [exact Hb | reflexivity]].
  - destruct (enable_leads_to_reopen on_world idle_probing_thread closed_machine)
      as [_ [_ [H3 [H4 _]]]]; try reflexivity.
    + cbn. discriminate.
    + destruct (H3 eq_refl) as [Hiff _]. split; [apply Hiff; reflexivity | exact H4].
Defined.
